(** * PDF watermarking pipeline: a shallow embedding of [pdf_operations.py]

    The Python module glues external libraries (pdf2image, OpenCV, numpy,
    reportlab, PyPDF2, pikepdf) together with file-system operations.  The
    embedding keeps the functions of the module as they are written and
    threads the state they touch (files, the global random generator, the
    clock) through a small state-and-exception monad.  The libraries enter
    through the interface [Libraries]; what the operating system does with a
    path is in the module [Os]. *)

From Stdlib Require Import ZArith QArith Qround Ascii String List Lia.
From stdpp Require Import base option list gmap strings sorting pretty.

Local Open Scope string_scope.
Local Open Scope list_scope.

(** ** Python strings: [str.split], [str.rstrip], [str.endswith] *)

Module Str.

(** [s.split(c)] for a one-character separator: never empty, [''.split(c)]
    is [['']]. *)
Fixpoint split (c : ascii) (s : string) : list string :=
  match s with
  | EmptyString => [EmptyString]
  | String a s' =>
      if decide (a = c) then EmptyString :: split c s'
      else match split c s' with
           | [] => [String a EmptyString]
           | w :: ws => String a w :: ws
           end
  end.

Fixpoint contains (c : ascii) (s : string) : bool :=
  match s with
  | EmptyString => false
  | String a s' => bool_decide (a = c) || contains c s'
  end.

(** [s.startswith(prefix)] *)
Fixpoint startswith (prefix s : string) : bool :=
  match prefix, s with
  | EmptyString, _ => true
  | String a prefix', String b s' => bool_decide (a = b) && startswith prefix' s'
  | String _ _, EmptyString => false
  end.

(** [s.endswith(suffix)]: [suffix] is one of the tails of [s]. *)
Fixpoint endswith (suffix s : string) : bool :=
  String.eqb suffix s ||
  match s with
  | EmptyString => false
  | String _ s' => endswith suffix s'
  end.

(** [s.rstrip(c)] for a one-character set. *)
Fixpoint rstrip (c : ascii) (s : string) : string :=
  match s with
  | EmptyString => EmptyString
  | String a s' =>
      match rstrip c s' with
      | EmptyString => if decide (a = c) then EmptyString else String a EmptyString
      | r => String a r
      end
  end.

End Str.

(** ** Data model: rasters, pages, documents, files *)

(** A page image as numpy sees it: an array of 8-bit values, kept flat in
    row-major order ([reshape] does not move data).  Its shape is
    [(height, width, channels)], or [(height, width)] for an image with one
    value per pixel: that is what [np.asarray] makes of a PIL image of a
    mode such as ['L'], and what OpenCV hands back for an array of one
    channel. *)
Inductive raster :=
| Raster (height width channels : nat) (pixels : list Z)
| Raster2D (height width : nat) (pixels : list Z).

Definition height (img : raster) : nat :=
  match img with Raster h _ _ _ | Raster2D h _ _ => h end.

Definition width (img : raster) : nat :=
  match img with Raster _ w _ _ | Raster2D _ w _ => w end.

Definition pixels (img : raster) : list Z :=
  match img with Raster _ _ _ px | Raster2D _ _ px => px end.

(** [img.shape] *)
Definition shape (img : raster) : list nat :=
  match img with
  | Raster h w c _ => [h; w; c]
  | Raster2D h w _ => [h; w]
  end.

(** [img.size] *)
Definition size (img : raster) : nat :=
  match img with
  | Raster h w c _ => (h * w * c)%nat
  | Raster2D h w _ => (h * w)%nat
  end.

(** The number of channels: an array of two dimensions has one. *)
Definition depth (img : raster) : nat :=
  match img with
  | Raster _ _ c _ => c
  | Raster2D _ _ _ => 1%nat
  end.

(** The same shape with other values: [values.reshape(img.shape)]. *)
Definition with_pixels (img : raster) (values : list Z) : raster :=
  match img with
  | Raster h w c _ => Raster h w c values
  | Raster2D h w _ => Raster2D h w values
  end.

(** A colour image that is not empty: three channels, red, green, blue. *)
Definition rgb (img : raster) : Prop :=
  exists h w px, img = Raster h w 3 px /\ h <> 0%nat /\ w <> 0%nat.

(** What a page shows: images placed on it, and marks standing for any other
    content of a source document (text, vector graphics). *)
Inductive drawing :=
| DrawImage (img : raster) (x y w h : Q)
| Mark (id : N).

Record page := Page {
  mediabox : Q * Q;
  contents : list drawing
}.

(** [pikepdf.Permissions] *)
Record permissions := Permissions {
  accessibility : bool;
  extract : bool;
  modify_annotation : bool;
  modify_assembly : bool;
  modify_form : bool;
  modify_other : bool;
  print_lowres : bool;
  print_highres : bool
}.

(** [pikepdf.Encryption] *)
Record encryption := Encryption {
  user : string;
  owner : string;
  allow : permissions
}.

Record pdf := Pdf {
  pages : list page;
  metadata : gmap string string;
  encrypted : option encryption
}.

Inductive file :=
| PdfFile (d : pdf)
| PngFile (img : raster).

(** ** The state the module touches, and exceptions *)

Inductive exn :=
| FileNotFoundError (path : string)
| IsADirectoryError (path : string)
| IndexError
| PdfReadError (path : string)
| PasswordError (path : string)
| UnidentifiedImageError (path : string)
| ValueError
| Cv2Error.

(** Files are keyed by their resolved path (see [Os.resolve]); [rng] is the
    state of numpy's global generator, [clock] the system time, and
    [rendered] records the calls made to the rasterizer, with the resolution
    each one asked for. *)
Record world := World {
  fs : gmap (list string) file;
  rng : N;
  clock : N;
  rendered : list (string * nat)
}.

Inductive result (A : Type) :=
| Ok (a : A)
| Raise (e : exn).
Arguments Ok {A} a.
Arguments Raise {A} e.

(** A computation runs on a world and leaves a world behind, also when it
    raises: Python keeps the side effects made before an exception. *)
Definition M (A : Type) : Type := world -> result A * world.

Definition ret {A} (a : A) : M A := fun w => (Ok a, w).

Definition bind {A B} (m : M A) (k : A -> M B) : M B :=
  fun w =>
    match m w with
    | (Ok a, w') => k a w'
    | (Raise e, w') => (Raise e, w')
    end.

Definition raise {A} (e : exn) : M A := fun w => (Raise e, w).

Definition get_fs : M (gmap (list string) file) := fun w => (Ok (fs w), w).

Definition with_fs (w : world) (f : gmap (list string) file) : world :=
  World f (rng w) (clock w) (rendered w).

Definition set_fs (f : gmap (list string) file) : M unit :=
  fun w => (Ok tt, with_fs w f).

Declare Scope py_scope.
Delimit Scope py_scope with py.
Notation "'let*' x ':=' m 'in' k" := (bind m (fun x => k))
  (at level 10, x name, m at level 100, k at level 200) : py_scope.
Notation "'do' m 'then' k" := (bind m (fun _ => k))
  (at level 10, m at level 100, k at level 200) : py_scope.
Local Open Scope py_scope.

(** [for x in l: body x] *)
Fixpoint for_each {A} (l : list A) (body : A -> M unit) : M unit :=
  match l with
  | [] => ret tt
  | x :: l' => do body x then for_each l' body
  end.

(** [if c: body] *)
Definition when (c : bool) (body : M unit) : M unit :=
  if c then body else ret tt.

(** ** The libraries the module calls

    Each library function is taken with the part of its documented contract
    that the module relies on.  numpy's generator is a function of its
    state; [tick] is the time that passes between two readings of the
    clock. *)

Class Libraries := {
  (** [numpy.random.normal(loc, scale, size)] from a generator state *)
  np_random_normal : N -> Q -> Q -> nat -> list Q * N;
  np_random_normal_length :
    forall s loc scale n, length (np_random_normal s loc scale n).1 = n;
  (** [numpy.random.randint(low, high)] from a generator state *)
  np_random_randint : N -> Z -> Z -> Z * N;
  np_random_randint_range :
    forall s low high, (low < high)%Z ->
      (low <= (np_random_randint s low high).1 < high)%Z;
  (** [ndarray.astype('uint8')] on one float: the result is an 8-bit value,
      and a float that lies in the range of the type is truncated; what
      happens to the others depends on the platform *)
  np_astype_uint8 : Q -> Z;
  np_astype_uint8_range : forall x, (0 <= np_astype_uint8 x <= 255)%Z;
  np_astype_uint8_trunc :
    forall x, (0 <= x)%Q -> (x < 256)%Q -> np_astype_uint8 x = Qfloor x;
  (** [cv2.GaussianBlur(src, ksize, sigmaX)], [None] where it raises
      [cv2.error].  For an image that is not empty, of at most four channels,
      and a kernel whose two sides are odd the result has the size and type
      of [src]; a kernel with an even positive side is refused on an image of
      more than one row and more than one column.  Nothing is said of the
      other cases, which differ between versions of OpenCV. *)
  gaussian_blur : raster -> nat * nat -> Q -> option raster;
  gaussian_blur_odd :
    forall src ksize sigma,
      size src <> 0%nat -> (depth src <= 4)%nat ->
      Nat.odd ksize.1 = true -> Nat.odd ksize.2 = true ->
      exists dst, gaussian_blur src ksize sigma = Some dst /\ shape dst = shape src;
  gaussian_blur_even :
    forall src ksize sigma,
      (1 < height src)%nat -> (1 < width src)%nat ->
      (ksize.1 <> 0%nat /\ Nat.even ksize.1 = true) \/
      (ksize.2 <> 0%nat /\ Nat.even ksize.2 = true) ->
      gaussian_blur src ksize sigma = None;
  (** what [pdf2image.convert_from_path] renders: at a resolution that is
      not zero, one image per page, each a colour image (PIL mode ['RGB']) *)
  pdf2image_render : pdf -> nat -> list raster;
  pdf2image_render_length :
    forall d dpi, dpi <> 0%nat -> length (pdf2image_render d dpi) = length (pages d);
  pdf2image_render_rgb :
    forall d dpi, dpi <> 0%nat -> Forall rgb (pdf2image_render d dpi);
  (** [datetime.isoformat] *)
  isoformat : N -> string;
  tick : N -> N;
  (** what pikepdf writes of its own when the metadata are saved: the time
      of the edit, as it prints it, and its name and version *)
  pikepdf_metadata_date : N -> string;
  pikepdf_producer : string;
  (** what [glob.glob] lists for a pattern that [Os.glob] does not spell
      out: one with a wildcard in its directory part, or with [?] or a
      bracket in its last component *)
  glob_beyond : gmap (list string) file -> string -> list string
}.

(** ** The operating system: paths and files (POSIX)

    Scope of the model: paths without [..] or symbolic links; every
    directory a path names exists and can be written; a directory holds
    regular files only. *)

Module Os.

(** [os.sep] *)
Definition sep : ascii := "/"%char.

(** [os.path.join(a, b)] ([posixpath.join]) *)
Definition path_join (a b : string) : string :=
  if Str.startswith "/" b then b
  else if bool_decide (a = "") || Str.endswith "/" a then a +:+ b
  else a +:+ "/" +:+ b.

(** [p[:p.rfind(sep) + 1]] *)
Fixpoint upto_last_sep (p : string) : string :=
  match p with
  | EmptyString => EmptyString
  | String a p' => if Str.contains sep p then String a (upto_last_sep p') else EmptyString
  end.

(** [os.path.split(p)[0]] *)
Definition dirname (p : string) : string :=
  let head := upto_last_sep p in
  match Str.rstrip sep head with
  | EmptyString => head
  | stripped => stripped
  end.

(** [p.split(os.sep)[-1]] *)
Definition basename (p : string) : string :=
  List.last (Str.split sep p) "".

(** The components the kernel walks: empty ones (doubled or trailing
    separators) and [.] are skipped. *)
Definition skipped (c : string) : Prop := c = "" \/ c = ".".

Global Instance skipped_dec c : Decision (skipped c).
Proof. unfold skipped. apply _. Defined.

Definition components (p : string) : list string :=
  filter (fun c => ~ skipped c) (Str.split sep p).

(** The file or directory a path denotes, relative to the working
    directory; an absolute path starts at the root, written [/]. *)
Definition resolve (p : string) : list string :=
  (if Str.startswith "/" p then ["/"] else []) ++ components p.

(** A path that ends in a separator or in [.] can only denote a
    directory. *)
Definition resolve_file (p : string) : option (list string) :=
  if decide (skipped (basename p)) then None else Some (resolve p).

(** [open(p, 'rb').read()] and the readers of the libraries *)
Definition read_file (p : string) : M file :=
  match resolve_file p with
  | None => raise (IsADirectoryError p)
  | Some k =>
      let* files := get_fs in
      match files !! k with
      | Some f => ret f
      | None => raise (FileNotFoundError p)
      end
  end.

(** [open(p, 'wb').write(...)]: creates the file or replaces its content. *)
Definition write_file (p : string) (f : file) : M unit :=
  match resolve_file p with
  | None => raise (IsADirectoryError p)
  | Some k =>
      let* files := get_fs in
      set_fs (<[k := f]> files)
  end.

(** [os.remove(p)] *)
Definition remove (p : string) : M unit :=
  match resolve_file p with
  | None => raise (IsADirectoryError p)
  | Some k =>
      let* files := get_fs in
      match files !! k with
      | Some _ => set_fs (delete k files)
      | None => raise (FileNotFoundError p)
      end
  end.

(** [os.path.exists(p)] *)
Definition path_exists (p : string) : M bool :=
  match resolve_file p with
  | None => ret true
  | Some k =>
      let* files := get_fs in
      ret (bool_decide (is_Some (files !! k)))
  end.

(** [os.rename(src, dst)] on POSIX: when [dst] is an existing file it is
    replaced silently. *)
Definition rename (src dst : string) : M unit :=
  match resolve_file src, resolve_file dst with
  | Some ks, Some kd =>
      let* files := get_fs in
      match files !! ks with
      | Some f => set_fs (<[kd := f]> (delete ks files))
      | None => raise (FileNotFoundError src)
      end
  | None, _ => raise (IsADirectoryError src)
  | _, None => raise (IsADirectoryError dst)
  end.

(** What [*] does in a pattern: the rest of the pattern matches some tail
    of the name. *)
Fixpoint some_tail (rest : string -> bool) (name : string) : bool :=
  rest name ||
  match name with
  | EmptyString => false
  | String _ name' => some_tail rest name'
  end.

(** [fnmatch.fnmatch(name, pat)] for patterns made of literal characters
    and [*]. *)
Fixpoint fnmatch (pat name : string) : bool :=
  match pat with
  | EmptyString => bool_decide (name = "")
  | String c pat' =>
      if decide (c = "*"%char) then some_tail (fnmatch pat') name
      else
        match name with
        | EmptyString => false
        | String d name' => bool_decide (c = d) && fnmatch pat' name'
        end
  end.

(** [glob] hides the names that start with a dot from a pattern that does
    not. *)
Definition visible (pat name : string) : bool :=
  Str.startswith "." pat || negb (Str.startswith "." name).

(** The entry of directory [d] a key stands for, if it lies directly in it. *)
Definition entry_of (d k : list string) : option string :=
  match k with
  | [] => None
  | _ => if decide (removelast k = d) then Some (List.last k "") else None
  end.

(** [os.listdir(d)], as a set: the order of a listing is unspecified. *)
Definition listdir (files : gmap (list string) file) (d : string) : gset string :=
  set_omap (entry_of (resolve d)) (dom files).

(** [glob.has_magic(s)] *)
Definition has_magic (s : string) : bool :=
  Str.contains "*" s || Str.contains "?" s || Str.contains "[" s.

(** The patterns whose listing is spelled out below: a directory part that
    is taken as it is written, and a last component made of literal
    characters and [*]. *)
Definition plain (pathname : string) : bool :=
  negb (has_magic (dirname pathname)) &&
  negb (Str.contains "?" (basename pathname)) &&
  negb (Str.contains "[" (basename pathname)).

(** [glob.glob(pathname)].  For a plain pattern: the visible entries of
    the directory that match the last component, each joined to the
    directory part, in no particular order.  For the others [glob] expands
    the wildcards of the directory part too; that listing is left to the
    interface. *)
Definition glob `{Libraries} (pathname : string) : M (list string) :=
  let* files := get_fs in
  if plain pathname then
    let d := dirname pathname in
    let names :=
      filter (fun n => visible (basename pathname) n && fnmatch (basename pathname) n = true)
             (elements (listdir files d)) in
    ret (match d with
         | EmptyString => names
         | _ => path_join d <$> names
         end)
  else ret (glob_beyond files pathname).

End Os.

(** [sorted(l)] on strings: Python orders them by code point. *)
Definition sorted (l : list string) : list string := merge_sort String.le l.

(** A loop that carries an accumulator. *)
Fixpoint fold_each {A S} (l : list A) (acc : S) (body : S -> A -> M S) : M S :=
  match l with
  | [] => ret acc
  | x :: l' => let* acc' := body acc x in fold_each l' acc' body
  end.

(** [zip(l, range(len(l)))] *)
Definition enumerate {A} (l : list A) : list (A * nat) :=
  zip l (seq 0 (length l)).

(** [reportlab.lib.pagesizes]: A4 is 210 mm by 297 mm, in points. *)
Definition A4 : Q * Q := (75600 # 127, 106920 # 127)%Q.

Definition landscape (pagesize : Q * Q) : Q * Q := (pagesize.2, pagesize.1).

(** [reportlab.pdfgen.canvas.Canvas] with what has been drawn on its page *)
Record canvas := Canvas {
  filename : string;
  pagesize : Q * Q;
  drawn : list drawing
}.

(** OpenCV's [saturate_cast<uchar>] *)
Definition saturate_cast (v : Z) : Z := Z.max 0 (Z.min 255 v).

(** [cv2.add(a, b)] on arrays of one shape: saturated sum, element by
    element.  OpenCV takes an array of shape [(h, w, 1)] for an image of
    one channel and hands the sum back with the shape [(h, w)]. *)
Definition cv2_add (a b : raster) : raster :=
  let sums := zip_with (fun x y => saturate_cast (x + y)) (pixels a) (pixels b) in
  match a with
  | Raster h w 1 _ => Raster2D h w sums
  | Raster h w c _ => Raster h w c sums
  | Raster2D h w _ => Raster2D h w sums
  end.

(** OpenCV keeps the channels of a pixel in the order blue, green, red, and
    [cv2.imwrite] takes its array so: in the file the first and the third
    channel of every pixel have changed places. *)
Fixpoint bgr3 (px : list Z) : list Z :=
  match px with
  | b :: g :: r :: rest => r :: g :: b :: bgr3 rest
  | _ => px
  end.

Fixpoint bgr4 (px : list Z) : list Z :=
  match px with
  | b :: g :: r :: a :: rest => r :: g :: b :: a :: bgr4 rest
  | _ => px
  end.

(** The image a PNG file holds after [cv2.imwrite] has written an array to
    it, as PIL reads it back; [None] for the arrays [cv2.imwrite] refuses:
    the empty ones and those that have not one, three or four channels. *)
Definition png_of_array (img : raster) : option raster :=
  if decide (size img = 0%nat) then None
  else
    match img with
    | Raster2D h w px => Some (Raster2D h w px)
    | Raster h w 1 px => Some (Raster2D h w px)
    | Raster h w 3 px => Some (Raster h w 3 (bgr3 px))
    | Raster h w 4 px => Some (Raster h w 4 (bgr4 px))
    | Raster _ _ _ _ => None
    end.

(** [pikepdf.Encryption(user, owner, allow)], with the revision left at its
    default, 6: at that revision the accessibility flag is not honoured, and
    the file is written as allowing accessibility whatever [allow] says. *)
Definition pikepdf_Encryption (user owner : string) (allow : permissions) : encryption :=
  Encryption user owner
    (Permissions true (extract allow) (modify_annotation allow) (modify_assembly allow)
                 (modify_form allow) (modify_other allow)
                 (print_lowres allow) (print_highres allow)).

(** [mergePage] of PyPDF2: the content of [page2] is drawn over the page,
    whose box stays. *)
Definition mergePage (p page2 : page) : page :=
  Page (mediabox p) (contents p ++ contents page2).

(** The keywords of the metadata record: a string literal continued over
    three lines. *)
Definition newline : string := String (ascii_of_nat 10) EmptyString.

Definition dc_subject : string :=
  "Probability, statistics, communications..." +:+ newline +:+
  "            ALL HAIL TAPIR!" +:+ newline +:+
  "            tapirlab.com".

(** [input_pdf.split(os.sep)[-1].split('.')[0]] *)
Definition file_name_of (input_pdf : string) : string :=
  hd "" (Str.split "." (Os.basename input_pdf)).

(** ** The functions of [pdf_operations.py] *)

Section PdfOperations.

Context {L : Libraries}.

(** [np.random.normal(loc, scale, size)] on the global generator *)
Definition random_normal (loc scale : Q) (n : nat) : M (list Q) :=
  fun w =>
    if Qlt_le_dec scale 0 then (Raise ValueError, w)
    else
      let '(samples, s') := np_random_normal (rng w) loc scale n in
      (Ok samples, World (fs w) s' (clock w) (rendered w)).

(** [np.random.randint(low, high)] on the global generator *)
Definition random_randint (low high : Z) : M Z :=
  fun w =>
    if decide (low < high)%Z then
      let '(r, s') := np_random_randint (rng w) low high in
      (Ok r, World (fs w) s' (clock w) (rendered w))
    else (Raise ValueError, w).

(** [datetime.today().isoformat()] *)
Definition today_isoformat : M string :=
  fun w => (Ok (isoformat (clock w)),
            World (fs w) (rng w) (tick (clock w)) (rendered w)).

(** [pdf2image.convert_from_path(path, dpi, fmt='PNG')] *)
Definition convert_from_path (path : string) (dpi : nat) : M (list raster) :=
  do (fun w => (Ok tt, World (fs w) (rng w) (clock w) (rendered w ++ [(path, dpi)]))) then
  let* f := Os.read_file path in
  match f with
  | PdfFile d => ret (pdf2image_render d dpi)
  | PngFile _ => raise (PdfReadError path)
  end.

(** The pages and the rest of a document as [PdfFileReader(path)] gives
    them, and as [PdfFileMerger.append(path)] reads them.  The module never
    decrypts: on an encrypted document PyPDF2 raises [PdfReadError]. *)
Definition PdfFileReader (path : string) : M pdf :=
  let* f := Os.read_file path in
  match f with
  | PdfFile d =>
      match encrypted d with
      | None => ret d
      | Some _ => raise (PdfReadError path)
      end
  | PngFile _ => raise (PdfReadError path)
  end.

(** [cv2.imwrite(path, img)]: raises [cv2.error] on an array it cannot
    encode; a file it cannot write it reports by its result, which the
    module does not look at. *)
Definition cv2_imwrite (path : string) (img : raster) : M bool :=
  match png_of_array img with
  | None => raise Cv2Error
  | Some png =>
      fun w =>
        match Os.write_file path (PngFile png) w with
        | (Ok _, w') => (Ok true, w')
        | (Raise _, w') => (Ok false, w')
        end
  end.

(** [cv2.GaussianBlur(src, ksize, sigmaX)] *)
Definition cv2_GaussianBlur (src : raster) (ksize : nat * nat) (sigma : Q) : M raster :=
  match gaussian_blur src ksize sigma with
  | Some dst => ret dst
  | None => raise Cv2Error
  end.

(** [page.save(path, 'PNG')] of PIL *)
Definition image_save (path : string) (img : raster) : M unit :=
  Os.write_file path (PngFile img).

(** [canvas.drawImage(image, x, y, width, height)]: the image file is read
    when it is drawn. *)
Definition drawImage (c : canvas) (image : string) (x y w h : Q) : M canvas :=
  let* f := Os.read_file image in
  match f with
  | PngFile img => ret (Canvas (filename c) (pagesize c) (drawn c ++ [DrawImage img x y w h]))
  | PdfFile _ => raise (UnidentifiedImageError image)
  end.

(** [canvas.save()]: one page, written to the canvas's file. *)
Definition canvas_save (c : canvas) : M unit :=
  Os.write_file (filename c) (PdfFile (Pdf [Page (pagesize c) (drawn c)] ∅ None)).

Definition set_page (name orientation : string) : canvas :=
  if String.eqb orientation "landscape"
  then Canvas name (landscape A4) []
  else Canvas name A4 [].

Definition draw_image (canvas_ : canvas) (image orientation : string) : M canvas :=
  if String.eqb orientation "landscape"
  then drawImage canvas_ image 0 0 A4.2 A4.1
  else drawImage canvas_ image 0 0 A4.1 A4.2.

(** Lines 76 and 77 of [blur_image]: the samples take the shape of the
    image, are cast to [uint8] and added. *)
Definition add_noise (img : raster) (gauss : list Q) : raster :=
  let gauss := with_pixels img (np_astype_uint8 <$> gauss) in
  cv2_add img gauss.

(** Line 76 reads [img.shape[2]]: on an array of two dimensions that raises
    [IndexError], after the samples have been drawn. *)
Definition blur_image (page : raster) (kernel : nat * nat) (sigma : Q) : M raster :=
  let img := page in
  let* gauss := random_normal 0 sigma (size img) in
  match img with
  | Raster2D _ _ _ => raise IndexError
  | Raster _ _ _ _ =>
      let img_gauss := add_noise img gauss in
      let* blurred_image := cv2_GaussianBlur img_gauss kernel sigma in
      ret blurred_image
  end.

Definition pdf_to_image (path_to_pdf output_folder : string) (dpi : nat)
    (blur : bool) (kernel : nat * nat) (sigma : Q) : M unit :=
  let* pages := convert_from_path path_to_pdf dpi in
  for_each (enumerate pages) (fun '(page, j) =>
    let png_output :=
      Os.path_join "." (Os.path_join output_folder ("_" +:+ pretty j +:+ ".png")) in
    if blur then
      let* blurred_image := blur_image page kernel sigma in
      do cv2_imwrite png_output blurred_image then ret tt
    else image_save png_output page).

Definition image_to_pdf (images_folder output_folder orientation : string)
    (remove_artifacts : bool) : M unit :=
  let* found := Os.glob (Os.path_join images_folder "*.png") in
  let path_to_images := sorted found in
  for_each (enumerate path_to_images) (fun '(image, j) =>
    let canvas_ :=
      set_page (Os.path_join output_folder ("tmp_" +:+ pretty j +:+ ".pdf")) orientation in
    let* canvas_ := draw_image canvas_ image orientation in
    do canvas_save canvas_ then
    when remove_artifacts (Os.remove image)).

Definition merge_pdfs (input_folder path_to_output_pdf : string)
    (remove_artifacts : bool) : M unit :=
  let pdf_merger : list page := [] in
  let* found := Os.glob (Os.path_join input_folder "*.pdf") in
  let input_pdfs := sorted found in
  let* pdf_merger :=
    fold_each input_pdfs pdf_merger (fun merger path =>
      let* d := PdfFileReader path in
      ret (merger ++ pages d)) in
  do Os.write_file path_to_output_pdf (PdfFile (Pdf pdf_merger ∅ None)) then
  when remove_artifacts (for_each input_pdfs Os.remove).

Definition pdf_to_image_to_pdf (input_pdf tmp_folder output_folder orientation : string)
    (remove_original remove_artifacts : bool) : M string :=
  let file_name := file_name_of input_pdf in
  let output_pdf := Os.path_join output_folder (file_name +:+ "_im2pdf" +:+ ".pdf") in
  do pdf_to_image input_pdf tmp_folder 100 false (5, 5)%nat 1 then
  do image_to_pdf tmp_folder tmp_folder orientation remove_artifacts then
  do merge_pdfs tmp_folder output_pdf remove_artifacts then
  do when remove_original (Os.remove input_pdf) then
  ret output_pdf.

Definition blur_pages_of_pdf (input_pdf orientation tmp_folder output_folder : string)
    (dpi : nat) (kernel : nat * nat) (sigma : Q) (remove_artifacts : bool) : M string :=
  let file_name := file_name_of input_pdf in
  let output_pdf := Os.path_join output_folder (file_name +:+ "_blurred" +:+ ".pdf") in
  do pdf_to_image input_pdf tmp_folder dpi true kernel sigma then
  do image_to_pdf tmp_folder tmp_folder orientation remove_artifacts then
  do merge_pdfs tmp_folder output_pdf remove_artifacts then
  ret output_pdf.

Definition add_watermark (input_pdf watermark output_folder : string)
    (remove_original : bool) : M string :=
  let file_name := file_name_of input_pdf in
  let output_pdf := Os.path_join output_folder (file_name +:+ "_watermarked" +:+ ".pdf") in
  let* watermark_doc := PdfFileReader watermark in
  match pages watermark_doc !! 0%nat with
  | None => raise IndexError
  | Some watermark_page =>
      let* pdf_reader := PdfFileReader input_pdf in
      let* pdf_writer :=
        fold_each (seq 0 (length (pages pdf_reader))) [] (fun writer i =>
          match pages pdf_reader !! i with
          | None => raise IndexError
          | Some page =>
              let page := mergePage page watermark_page in
              ret (writer ++ [page])
          end) in
      do Os.write_file output_pdf (PdfFile (Pdf pdf_writer ∅ None)) then
      do when remove_original (Os.remove input_pdf) then
      ret output_pdf
  end.

(** The [except] branch prints a message and raises the error again: the
    error goes to the caller as it is. *)
Definition move_processed_pdf (input_pdf processed_folder : string) : M unit :=
  let file_name := file_name_of input_pdf in
  let new_path_to_input_pdf := Os.path_join processed_folder (file_name +:+ ".pdf") in
  let* taken := Os.path_exists new_path_to_input_pdf in
  if taken then
    let* rnd := random_randint 0 100 in
    let postfix := "_exists_" +:+ pretty rnd +:+ ".pdf" in
    let file_name := file_name +:+ postfix in
    let if_input_pdf_is_exists := Os.path_join processed_folder file_name in
    Os.rename input_pdf if_input_pdf_is_exists
  else
    Os.rename input_pdf new_path_to_input_pdf.

(** [pikepdf.Pdf.open(path)], without a password: a document whose user
    password is empty opens. *)
Definition pikepdf_open (path : string) : M pdf :=
  let* f := Os.read_file path in
  match f with
  | PdfFile d =>
      match encrypted d with
      | Some e => if String.eqb (user e) "" then ret d else raise (PasswordError path)
      | None => ret d
      end
  | PngFile _ => raise (PdfReadError path)
  end.

(** The time stamp pikepdf takes when the metadata are saved: the system
    time at that moment, which the module itself does not read. *)
Definition pikepdf_now : M string :=
  fun w => (Ok (pikepdf_metadata_date (clock w)), w).

Definition encrypt_and_add_metadata (input_pdf output_folder usr_pass owner_pass : string)
    (remove_original : bool) : M unit :=
  let file_name := file_name_of input_pdf in
  let output_pdf := Os.path_join output_folder (file_name +:+ "_final" +:+ ".pdf") in
  let* pdf := pikepdf_open input_pdf in
  let meta := metadata pdf in
  let meta := <["dc:title" := "Lecture Notes"]> meta in
  let meta := <["dc:creator" := "Serhan Yarkan, Tapir Lab."]> meta in
  let meta := <["dc:description" := "Tapir Lab. Fall-2020 Lecture Notes"]> meta in
  let meta := <["dc:subject" := dc_subject]> meta in
  let meta := <["dc:rights" := "Tapir Lab. License"]> meta in
  let* created := today_isoformat in
  let meta := <["xmp:CreateDate" := created]> meta in
  let* modified := today_isoformat in
  let meta := <["xmp:ModifyDate" := modified]> meta in
  let meta := <["xmp:CreatorTool" := "Tapir Lab.'s Automatic Watermarking Script"]> meta in
  let meta := <["xmpRights:WebStatement" := "http://www.tapirlab.com"]> meta in
  (* leaving the [with] block, pikepdf marks the metadata as edited by it *)
  let* stamp := pikepdf_now in
  let meta := <["xmp:MetadataDate" := stamp]> meta in
  let meta := <["pdf:Producer" := pikepdf_producer]> meta in
  let permissions :=
    {| accessibility := false;
       extract := false;
       modify_annotation := false;
       modify_assembly := false;
       modify_form := false;
       modify_other := false;
       print_lowres := true;
       print_highres := true |} in
  do Os.write_file output_pdf
       (PdfFile (Pdf (pages pdf) meta
                     (Some (pikepdf_Encryption usr_pass owner_pass permissions)))) then
  when remove_original (Os.remove input_pdf).

(** The script [add_watermark.py] *)
Definition main : M unit :=
  let orientation := "landscape" in
  let input_folder := Os.path_join "." "sample_input" in
  let tmp_folder := Os.path_join "." "tmp" in
  let output_folder := Os.path_join "." "sample_output" in
  let processed_folder := Os.path_join "." "processed" in
  let watermark :=
    Os.path_join (Os.path_join "." "watermarks") (orientation +:+ "_A4.pdf") in
  let* found := Os.glob (Os.path_join input_folder "*.pdf") in
  let files := sorted found in
  for_each files (fun input_pdf =>
    let* blurred_pdf :=
      blur_pages_of_pdf input_pdf orientation tmp_folder output_folder
                        100 (5, 5)%nat (1 # 2) true in
    let* blurred_watermarked_pdf :=
      add_watermark blurred_pdf watermark output_folder true in
    let* blurred_watermarked_img_pdf :=
      pdf_to_image_to_pdf blurred_watermarked_pdf tmp_folder output_folder
                          orientation true true in
    do encrypt_and_add_metadata blurred_watermarked_img_pdf output_folder
         "" "your_pass" true then
    move_processed_pdf input_pdf processed_folder).

End PdfOperations.


(** * Facts

    ** Strings and paths *)

Lemma app_empty_r (s : string) : s +:+ "" = s.
Proof. induction s; simpl; [done|]. unfold String.app in *. simpl. by f_equal. Qed.

Lemma app_cons (a : ascii) (s t : string) : String a s +:+ t = String a (s +:+ t).
Proof. done. Qed.

Lemma app_assoc' (s t u : string) : (s +:+ t) +:+ u = s +:+ (t +:+ u).
Proof. induction s; [done|]. rewrite !app_cons. by f_equal. Qed.

Lemma split_nonempty c s : Str.split c s <> [].
Proof.
  destruct s as [|a s]; simpl; [done|].
  destruct (decide (a = c)); [done|]. by destruct (Str.split c s).
Qed.

Lemma split_app c a b :
  Str.split c (a +:+ String c b) = Str.split c a ++ Str.split c b.
Proof.
  induction a as [|x a IH]; simpl.
  - rewrite decide_True by done. done.
  - destruct (decide (x = c)); [by rewrite IH|].
    rewrite IH. pose proof (split_nonempty c a).
    by destruct (Str.split c a).
Qed.

Lemma split_no_sep c s : Str.contains c s = false -> Str.split c s = [s].
Proof.
  induction s as [|a s IH]; simpl; [done|].
  intros [Ha Hs]%orb_false_iff. apply bool_decide_eq_false in Ha.
  rewrite decide_False by done. by rewrite IH.
Qed.

Lemma split_elem_no_sep c s x : x ∈ Str.split c s -> Str.contains c x = false.
Proof.
  revert x. induction s as [|a s IH]; simpl; intros x Hx.
  - apply list_elem_of_singleton in Hx as ->. done.
  - destruct (decide (a = c)).
    + apply elem_of_cons in Hx as [->|Hx]; [done|auto].
    + pose proof (split_nonempty c s).
      destruct (Str.split c s) as [|y ys] eqn:E; [done|].
      apply elem_of_cons in Hx as [->|Hx].
      * simpl. rewrite bool_decide_eq_false_2 by done. apply IH. by left.
      * apply IH. by right.
Qed.

Lemma contains_app c s t :
  Str.contains c (s +:+ t) = Str.contains c s || Str.contains c t.
Proof.
  induction s as [|a s IH]; [done|].
  rewrite app_cons. simpl. rewrite IH. by rewrite orb_assoc.
Qed.

Lemma endswith_spec suffix s :
  Str.endswith suffix s = true <-> exists p, s = p +:+ suffix.
Proof.
  split.
  - induction s as [|a s IH]; simpl.
    + rewrite orb_false_r. intros ->%String.eqb_eq. by exists "".
    + intros [->%String.eqb_eq|H]%orb_true_iff; [by exists ""|].
      destruct (IH H) as [p ->]. by exists (String a p).
  - intros [p ->]. induction p as [|a p IH].
    + change ("" +:+ suffix) with suffix.
      destruct suffix; cbn [Str.endswith]; by rewrite String.eqb_refl.
    + rewrite app_cons. simpl. rewrite IH. apply orb_true_r.
Qed.

Lemma startswith_sep s :
  Str.startswith "/" s = true <-> exists t, s = String "/" t.
Proof.
  destruct s as [|a s]; simpl.
  - split; [done|]. by intros [t ?].
  - rewrite andb_true_r, bool_decide_eq_true. split.
    + intros <-. by exists s.
    + by intros [t [= <-]].
Qed.

Lemma startswith_sep_contains s :
  Str.contains Os.sep s = false -> Str.startswith "/" s = false.
Proof.
  intros Hc. destruct (Str.startswith "/" s) eqn:E; [|done].
  apply startswith_sep in E as [t ->]. done.
Qed.

Lemma split_hd c s :
  exists rest, s = hd "" (Str.split c s) +:+ rest /\
               (rest = "" \/ exists r, rest = String c r).
Proof.
  induction s as [|a s (rest & Hs & Hrest)]; simpl.
  - exists "". auto.
  - destruct (decide (a = c)) as [->|Hne].
    + exists (String c s). simpl. eauto.
    + pose proof (split_nonempty c s).
      destruct (Str.split c s) as [|y ys]; [done|]. simpl in *.
      exists rest. rewrite app_cons. by rewrite <- Hs.
Qed.

Lemma last_elem {A} (l : list A) d : l <> [] -> List.last l d ∈ l.
Proof.
  induction l as [|x [|y l] IH]; intros ?; [done|by left|].
  right. by apply IH.
Qed.

Lemma last_filter {A} (P : A -> Prop) `{forall x, Decision (P x)} (l : list A) d :
  l <> [] -> P (List.last l d) -> List.last (filter P l) d = List.last l d.
Proof.
  intros Hne HP. rewrite (app_removelast_last d Hne) at 1.
  rewrite filter_app, filter_cons_True, filter_nil by done. apply last_last.
Qed.

Lemma basename_join folder name :
  Str.contains Os.sep name = false ->
  Os.basename (Os.path_join folder name) = name.
Proof.
  intros Hname. unfold Os.basename, Os.path_join.
  rewrite startswith_sep_contains by done.
  destruct (bool_decide (folder = "") || Str.endswith "/" folder) eqn:E.
  - apply orb_true_iff in E as [->%bool_decide_eq_true|[p ->]%endswith_spec].
    + change ("" +:+ name) with name. by rewrite split_no_sep.
    + rewrite app_assoc'. change ("/" +:+ name) with (String Os.sep name).
      rewrite split_app, (split_no_sep _ name) by done. apply last_last.
  - change ("/" +:+ name) with (String Os.sep name).
    rewrite split_app, (split_no_sep _ name) by done. apply last_last.
Qed.

Lemma components_app p q :
  Os.components (p +:+ String Os.sep q) = Os.components p ++ Os.components q.
Proof. unfold Os.components. by rewrite split_app, filter_app. Qed.

Lemma components_name name :
  Str.contains Os.sep name = false -> ~ Os.skipped name ->
  Os.components name = [name].
Proof.
  intros Hc Hs. unfold Os.components. rewrite split_no_sep by done.
  by rewrite filter_cons_True, filter_nil.
Qed.

Lemma resolve_join folder name :
  Str.contains Os.sep name = false -> ~ Os.skipped name ->
  Os.resolve (Os.path_join folder name) = Os.resolve folder ++ [name].
Proof.
  intros Hc Hs. unfold Os.resolve, Os.path_join.
  rewrite (startswith_sep_contains name) by done.
  destruct (bool_decide (folder = "") || Str.endswith "/" folder) eqn:E.
  - apply orb_true_iff in E as [->%bool_decide_eq_true|[p Hp]%endswith_spec].
    + change ("" +:+ name) with name. rewrite (startswith_sep_contains name) by done.
      simpl. by rewrite components_name.
    + assert (Hstart : Str.startswith "/" (folder +:+ name) = Str.startswith "/" folder).
      { subst folder. destruct p; done. }
      rewrite Hstart, <- app_assoc. f_equal. subst folder.
      rewrite app_assoc'. change ("/" +:+ name) with (String Os.sep name).
      change "/" with (String Os.sep "").
      rewrite !components_app. rewrite (components_name name) by done.
      change (Os.components "") with (@nil string). by rewrite app_nil_r.
  - apply orb_false_iff in E as [Hne%bool_decide_eq_false _].
    assert (Hstart : Str.startswith "/" (folder +:+ "/" +:+ name) = Str.startswith "/" folder).
    { destruct folder; done. }
    rewrite Hstart, <- app_assoc. f_equal.
    change ("/" +:+ name) with (String Os.sep name).
    rewrite components_app, (components_name name) by done. done.
Qed.

Lemma resolve_file_join folder name :
  Str.contains Os.sep name = false -> ~ Os.skipped name ->
  Os.resolve_file (Os.path_join folder name) = Some (Os.resolve folder ++ [name]).
Proof.
  intros Hc Hs. unfold Os.resolve_file.
  rewrite basename_join by done. rewrite decide_False by done.
  by rewrite resolve_join.
Qed.

Lemma resolve_file_last p k :
  Os.resolve_file p = Some k -> List.last k "" = Os.basename p.
Proof.
  unfold Os.resolve_file. destruct (decide (Os.skipped (Os.basename p))) as [|Hs]; [done|].
  intros [= <-]. unfold Os.resolve.
  assert (Hl : List.last (Os.components p) "" = Os.basename p).
  { unfold Os.components. apply (last_filter (fun c => ~ Os.skipped c)); [apply split_nonempty|done]. }
  assert (Hne : Os.components p <> []).
  { intros E. rewrite E in Hl. simpl in Hl. apply Hs. left. done. }
  rewrite <- Hl. destruct (Str.startswith "/" p); [|done].
  simpl. by destruct (Os.components p).
Qed.

(** The name a stage gives its output: the file name up to its first dot,
    then a suffix that starts with an underscore.  It never is the name of
    the input itself. *)
Lemma basename_no_sep p : Str.contains Os.sep (Os.basename p) = false.
Proof.
  apply (split_elem_no_sep Os.sep p). apply last_elem, split_nonempty.
Qed.

Lemma file_name_of_no_sep p : Str.contains Os.sep (file_name_of p) = false.
Proof.
  unfold file_name_of.
  destruct (split_hd "." (Os.basename p)) as (rest & Hb & _).
  pose proof (basename_no_sep p) as Hc. rewrite Hb, contains_app in Hc.
  by apply orb_false_iff in Hc as [? _].
Qed.

Lemma stage_name_no_sep p suffix :
  Str.contains Os.sep suffix = false ->
  Str.contains Os.sep (file_name_of p +:+ suffix) = false.
Proof. intros Hs. by rewrite contains_app, file_name_of_no_sep, Hs. Qed.

Lemma stage_name_not_skipped fn t c : ~ Os.skipped (fn +:+ String "_" (String c t)).
Proof.
  intros [E|E].
  - destruct fn; discriminate E.
  - destruct fn as [|a [|b fn]]; discriminate E.
Qed.

Lemma stage_name_ne_basename p t :
  file_name_of p +:+ String "_" t <> Os.basename p.
Proof.
  unfold file_name_of.
  destruct (split_hd "." (Os.basename p)) as (rest & Hb & Hrest).
  intros E. rewrite Hb in E at 2. apply String.app_inj in E.
  destruct Hrest as [->|[r ->]]; discriminate E.
Qed.

Lemma stage_output_resolve input_pdf output_folder suffix ki :
  Str.contains Os.sep suffix = false ->
  (exists c t, suffix = String "_" (String c t)) ->
  Os.resolve_file input_pdf = Some ki ->
  exists ko,
    Os.resolve_file (Os.path_join output_folder (file_name_of input_pdf +:+ suffix)) = Some ko
    /\ ko <> ki.
Proof.
  intros Hs (c & t & ->) Hki.
  eexists. split.
  - apply resolve_file_join; [|apply stage_name_not_skipped].
    by apply stage_name_no_sep.
  - intros E. apply resolve_file_last in Hki. rewrite <- E, last_last in Hki.
    by apply stage_name_ne_basename in Hki.
Qed.

(** The directory part of a pattern, as [glob] takes it. *)
Fixpoint seps (k : nat) : string :=
  match k with
  | O => ""
  | S k' => String Os.sep (seps k')
  end.

Lemma rstrip_spec s : exists k, s = Str.rstrip Os.sep s +:+ seps k.
Proof.
  induction s as [|a s [k IH]]; [by exists 0%nat|].
  simpl. destruct (Str.rstrip Os.sep s) as [|b r] eqn:E.
  - change ("" +:+ seps k) with (seps k) in IH. subst s.
    destruct (decide (a = Os.sep)) as [->|Hne].
    + by exists (S k).
    + by exists k.
  - exists k. rewrite app_cons. by rewrite <- IH.
Qed.

Lemma components_empty : Os.components "" = [].
Proof. done. Qed.

Lemma components_seps k : Os.components (seps k) = [].
Proof.
  induction k as [|k IH]; [done|].
  change (seps (S k)) with ("" +:+ String Os.sep (seps k)).
  by rewrite components_app, IH.
Qed.

Lemma components_app_seps r k : Os.components (r +:+ seps k) = Os.components r.
Proof.
  destruct k as [|k]; [by rewrite app_empty_r|].
  change (seps (S k)) with (String Os.sep (seps k)).
  by rewrite components_app, components_seps, app_nil_r.
Qed.

Lemma resolve_app_seps r k : r <> "" -> Os.resolve (r +:+ seps k) = Os.resolve r.
Proof.
  intros Hr. unfold Os.resolve. rewrite components_app_seps.
  by destruct r.
Qed.

Lemma resolve_rstrip s :
  Str.rstrip Os.sep s <> "" -> Os.resolve (Str.rstrip Os.sep s) = Os.resolve s.
Proof.
  intros Hne. destruct (rstrip_spec s) as [k Hk].
  rewrite Hk at 2. by rewrite resolve_app_seps.
Qed.

Lemma upto_last_sep_no_sep s : Str.contains Os.sep s = false -> Os.upto_last_sep s = "".
Proof. intros Hs. destruct s; simpl in *; [done|]. by rewrite Hs. Qed.

Lemma contains_app_sep c a b : Str.contains c (a +:+ String c b) = true.
Proof.
  induction a as [|x a IH].
  - change ("" +:+ String c b) with (String c b). cbn [Str.contains].
    by rewrite bool_decide_eq_true_2.
  - rewrite app_cons. cbn [Str.contains]. rewrite IH. apply orb_true_r.
Qed.

Lemma upto_last_sep_app a name :
  Str.contains Os.sep name = false ->
  Os.upto_last_sep (a +:+ String Os.sep name) = a +:+ String Os.sep "".
Proof.
  intros Hn. induction a as [|x a IH].
  - change ("" +:+ String Os.sep name) with (String Os.sep name).
    cbn [Os.upto_last_sep Str.contains]. rewrite bool_decide_eq_true_2 by done.
    by rewrite upto_last_sep_no_sep.
  - rewrite !app_cons. cbn [Os.upto_last_sep].
    rewrite <- app_cons, contains_app_sep. by rewrite IH.
Qed.

Lemma dirname_resolve head :
  head <> "" ->
  Os.resolve match Str.rstrip Os.sep head with
             | EmptyString => head
             | stripped => stripped
             end = Os.resolve head.
Proof.
  intros Hh. destruct (Str.rstrip Os.sep head) as [|b r] eqn:E; [done|].
  rewrite <- E. apply resolve_rstrip. by rewrite E.
Qed.

Lemma resolve_app_sep folder :
  folder <> "" -> Os.resolve (folder +:+ String Os.sep "") = Os.resolve folder.
Proof. intros Hf. by apply (resolve_app_seps folder 1). Qed.

Lemma resolve_dirname_join folder name :
  Str.contains Os.sep name = false ->
  Os.resolve (Os.dirname (Os.path_join folder name)) = Os.resolve folder.
Proof.
  intros Hn. unfold Os.dirname, Os.path_join.
  rewrite startswith_sep_contains by done.
  destruct (bool_decide (folder = "") || Str.endswith "/" folder) eqn:E.
  - apply orb_true_iff in E as [->%bool_decide_eq_true|[p ->]%endswith_spec].
    + change ("" +:+ name) with name. by rewrite upto_last_sep_no_sep.
    + rewrite app_assoc'. change ("/" +:+ name) with (String Os.sep name).
      rewrite upto_last_sep_app by done. apply dirname_resolve. by destruct p.
  - apply orb_false_iff in E as [Hne%bool_decide_eq_false _].
    change ("/" +:+ name) with (String Os.sep name).
    rewrite upto_last_sep_app by done.
    rewrite dirname_resolve by (by destruct folder).
    by apply resolve_app_sep.
Qed.

Lemma path_join_empty name : Os.path_join "" name = name.
Proof. unfold Os.path_join. by destruct (Str.startswith "/" name). Qed.

(** Joining a directory to names puts one prefix before them. *)
Lemma path_join_prefix d :
  exists pre, forall name, Str.startswith "/" name = false -> Os.path_join d name = pre +:+ name.
Proof.
  unfold Os.path_join.
  destruct (bool_decide (d = "") || Str.endswith "/" d).
  - exists d. by intros name ->.
  - exists (d +:+ "/"). intros name ->. by rewrite app_assoc'.
Qed.

Lemma resolve_file_join_dot p :
  Os.resolve_file (Os.path_join "." p) = Os.resolve_file p.
Proof.
  unfold Os.path_join. destruct (Str.startswith "/" p) eqn:E; [done|].
  simpl. change ("." +:+ "/" +:+ p) with ("." +:+ String Os.sep p).
  unfold Os.resolve_file, Os.basename, Os.resolve.
  rewrite split_app, components_app, E.
  change (Str.startswith "/" ("." +:+ String Os.sep p)) with false.
  change (Os.components ".") with (@nil string).
  change (Str.split Os.sep ".") with ["."].
  pose proof (split_nonempty Os.sep p).
  by destruct (Str.split Os.sep p).
Qed.

(** A character that is not in a folder name and is not the separator is
    not in the directory part of a pattern for that folder. *)
Lemma contains_dirname_head c head :
  Str.contains c head = false ->
  Str.contains c match Str.rstrip Os.sep head with
                 | EmptyString => head
                 | stripped => stripped
                 end = false.
Proof.
  intros Hc. destruct (Str.rstrip Os.sep head) as [|b r] eqn:E; [done|].
  destruct (rstrip_spec head) as [k Hk]. rewrite E in Hk.
  rewrite Hk, contains_app in Hc. by apply orb_false_iff in Hc as [? _].
Qed.

Lemma contains_dirname_join c folder name :
  c <> Os.sep ->
  Str.contains c folder = false ->
  Str.contains Os.sep name = false ->
  Str.contains c (Os.dirname (Os.path_join folder name)) = false.
Proof.
  intros Hc Hf Hn. unfold Os.dirname, Os.path_join.
  rewrite startswith_sep_contains by done.
  destruct (bool_decide (folder = "") || Str.endswith "/" folder) eqn:E.
  - apply orb_true_iff in E as [->%bool_decide_eq_true|[p ->]%endswith_spec].
    + change ("" +:+ name) with name. by rewrite upto_last_sep_no_sep.
    + rewrite app_assoc'. change ("/" +:+ name) with (String Os.sep name).
      rewrite upto_last_sep_app by done. by apply contains_dirname_head.
  - change ("/" +:+ name) with (String Os.sep name).
    rewrite upto_last_sep_app by done. apply contains_dirname_head.
    rewrite contains_app, Hf. simpl. by rewrite bool_decide_eq_false_2.
Qed.

(** The patterns the module lists: a folder without wildcards, and [*.png]
    or [*.pdf]. *)
Lemma plain_join folder pat :
  Os.has_magic folder = false ->
  Str.contains Os.sep pat = false ->
  Str.contains "?" pat = false -> Str.contains "[" pat = false ->
  Os.plain (Os.path_join folder pat) = true.
Proof.
  unfold Os.plain, Os.has_magic.
  intros [[H1 H2]%orb_false_iff H3]%orb_false_iff Hs Hq Hb.
  rewrite basename_join, Hq, Hb by done.
  rewrite !contains_dirname_join by done. done.
Qed.

(** The file name of [s.r] in a folder, when [s] has no dot. *)
Lemma file_name_of_dotted folder s r :
  Str.contains "." s = false ->
  Str.contains Os.sep s = false ->
  Str.contains Os.sep r = false ->
  file_name_of (Os.path_join folder (s +:+ "." +:+ r)) = s.
Proof.
  intros Hdot Hs Hr. unfold file_name_of.
  rewrite basename_join.
  - change ("." +:+ r) with (String "." r).
    by rewrite split_app, (split_no_sep _ s).
  - rewrite !contains_app, Hs, Hr. done.
Qed.

(** ** The string and path functions on examples *)

Example split_dots : Str.split "." "a.v1.pdf" = ["a"; "v1"; "pdf"].
Proof. reflexivity. Qed.
Example split_empty : Str.split "." "" = [""].
Proof. reflexivity. Qed.
Example rstrip_ex : Str.rstrip "/" "./tmp//" = "./tmp".
Proof. reflexivity. Qed.
Example endswith_ex : Str.endswith ".png" "_0.png" = true /\ Str.endswith ".png" "png" = false.
Proof. split; reflexivity. Qed.

Example join_ex : Os.path_join "." (Os.path_join "./tmp" "_0.png") = "././tmp/_0.png".
Proof. reflexivity. Qed.
Example dirname_ex : Os.dirname "./tmp//*.png" = "./tmp" /\ Os.dirname "*.png" = "" /\ Os.dirname "/x" = "/".
Proof. repeat split; reflexivity. Qed.
Example resolve_ex : Os.resolve "././tmp/_0.png" = Os.resolve "./tmp/_0.png".
Proof. reflexivity. Qed.
Example fnmatch_ex : Os.fnmatch "*.png" "_10.png" = true /\ Os.fnmatch "*.png" "_10.pdf" = false.
Proof. split; reflexivity. Qed.


(** ** Running computations *)

Lemma bind_ok {A B} (m : M A) (k : A -> M B) w a w' :
  m w = (Ok a, w') -> bind m k w = k a w'.
Proof. unfold bind. by intros ->. Qed.

Lemma bind_raise {A B} (m : M A) (k : A -> M B) w e w' :
  m w = (Raise e, w') -> bind m k w = (Raise e, w').
Proof. unfold bind. by intros ->. Qed.

Lemma bind_ok_inv {A B} (m : M A) (k : A -> M B) w b w' :
  bind m k w = (Ok b, w') -> exists a w1, m w = (Ok a, w1) /\ k a w1 = (Ok b, w').
Proof.
  unfold bind. destruct (m w) as [[a|e] w1]; [eauto|]. intros [=].
Qed.

Lemma read_file_ok p k f w :
  Os.resolve_file p = Some k -> fs w !! k = Some f ->
  Os.read_file p w = (Ok f, w).
Proof. unfold Os.read_file, bind, get_fs, ret. by intros -> ->. Qed.

Lemma read_file_inv p f w w' :
  Os.read_file p w = (Ok f, w') ->
  w' = w /\ exists k, Os.resolve_file p = Some k /\ fs w !! k = Some f.
Proof.
  unfold Os.read_file, bind, get_fs, ret, raise.
  destruct (Os.resolve_file p) as [k|]; [|intros [=]].
  destruct (fs w !! k) as [g|] eqn:E; intros [=]; subst. eauto.
Qed.

Lemma write_file_ok p k f w :
  Os.resolve_file p = Some k ->
  Os.write_file p f w = (Ok tt, with_fs w (<[k := f]> (fs w))).
Proof. unfold Os.write_file, bind, get_fs, set_fs. by intros ->. Qed.

Lemma remove_ok p k w :
  Os.resolve_file p = Some k -> is_Some (fs w !! k) ->
  Os.remove p w = (Ok tt, with_fs w (delete k (fs w))).
Proof.
  unfold Os.remove, bind, get_fs, set_fs. intros -> [f ->]. done.
Qed.

Lemma fs_with_fs w f : fs (with_fs w f) = f.
Proof. done. Qed.

(** Removing the input of a stage leaves its output in place. *)
Lemma read_after_remove p q kq f w :
  Os.resolve_file q = Some kq ->
  fs w !! kq = Some f ->
  forall kp, Os.resolve_file p = Some kp -> kp <> kq -> is_Some (fs w !! kp) ->
  exists w', Os.remove p w = (Ok tt, w') /\ Os.read_file q w' = (Ok f, w').
Proof.
  intros Hq Hf kp Hp Hne Hsome. eexists. split; [by apply remove_ok|].
  apply read_file_ok with kq; [done|].
  rewrite fs_with_fs, lookup_delete_ne; done.
Qed.

(** ** What a computation leaves untouched

    [keeps proj m]: running [m] does not change the part [proj] of the
    world, whether it returns or raises. *)

Definition keeps {A B} (proj : world -> B) (m : M A) : Prop :=
  forall w, proj (m w).2 = proj w.

Section Keeps.

Context {B : Type} (proj : world -> B).

Lemma keeps_ret {A} (a : A) : keeps proj (ret a).
Proof. done. Qed.

Lemma keeps_raise {A} e : keeps proj (@raise A e).
Proof. done. Qed.

Lemma keeps_bind {A C} (m : M A) (k : A -> M C) :
  keeps proj m -> (forall a, keeps proj (k a)) -> keeps proj (bind m k).
Proof.
  intros Hm Hk w. unfold bind. specialize (Hm w).
  destruct (m w) as [[a|e] w1]; simpl in *; [|done].
  by rewrite Hk.
Qed.

Lemma keeps_when c (m : M unit) : keeps proj m -> keeps proj (when c m).
Proof. destruct c; [done|]. intros _. apply keeps_ret. Qed.

Lemma keeps_for_each {A} (l : list A) (body : A -> M unit) :
  (forall x, keeps proj (body x)) -> keeps proj (for_each l body).
Proof.
  intros Hb. induction l as [|x l IH]; simpl; [apply keeps_ret|].
  apply keeps_bind; auto.
Qed.

Lemma keeps_fold_each {A S} (l : list A) (acc : S) (body : S -> A -> M S) :
  (forall s x, keeps proj (body s x)) -> keeps proj (fold_each l acc body).
Proof.
  intros Hb. revert acc. induction l as [|x l IH]; intros acc; simpl; [apply keeps_ret|].
  apply keeps_bind; auto.
Qed.

(** The operations on files touch nothing but the files. *)
Hypothesis proj_fs : forall w f, proj (with_fs w f) = proj w.

Lemma keeps_get_fs : keeps proj get_fs.
Proof. done. Qed.

Lemma keeps_set_fs f : keeps proj (set_fs f).
Proof. intros w. apply proj_fs. Qed.

Lemma keeps_read_file p : keeps proj (Os.read_file p).
Proof.
  unfold Os.read_file. destruct (Os.resolve_file p); [|apply keeps_raise].
  apply keeps_bind; [apply keeps_get_fs|]. intros files.
  destruct (files !! l); [apply keeps_ret|apply keeps_raise].
Qed.

Lemma keeps_write_file p f : keeps proj (Os.write_file p f).
Proof.
  unfold Os.write_file. destruct (Os.resolve_file p); [|apply keeps_raise].
  apply keeps_bind; [apply keeps_get_fs|]. intros files. apply keeps_set_fs.
Qed.

Lemma keeps_remove p : keeps proj (Os.remove p).
Proof.
  unfold Os.remove. destruct (Os.resolve_file p); [|apply keeps_raise].
  apply keeps_bind; [apply keeps_get_fs|]. intros files.
  destruct (files !! l); [apply keeps_set_fs|apply keeps_raise].
Qed.

Lemma keeps_path_exists p : keeps proj (Os.path_exists p).
Proof.
  unfold Os.path_exists. destruct (Os.resolve_file p); [|apply keeps_ret].
  apply keeps_bind; [apply keeps_get_fs|]. intros files. apply keeps_ret.
Qed.

Lemma keeps_rename src dst : keeps proj (Os.rename src dst).
Proof.
  unfold Os.rename.
  destruct (Os.resolve_file src); [|apply keeps_raise].
  destruct (Os.resolve_file dst); [|apply keeps_raise].
  apply keeps_bind; [apply keeps_get_fs|]. intros files.
  destruct (files !! l); [apply keeps_set_fs|apply keeps_raise].
Qed.

Context {L : Libraries}.

Lemma keeps_glob pathname : keeps proj (Os.glob pathname).
Proof.
  unfold Os.glob. apply keeps_bind; [apply keeps_get_fs|]. intros files.
  destruct (Os.plain pathname); apply keeps_ret.
Qed.

Lemma keeps_PdfFileReader p : keeps proj (PdfFileReader p).
Proof.
  unfold PdfFileReader. apply keeps_bind; [apply keeps_read_file|].
  intros [d|img]; [|apply keeps_raise].
  destruct (encrypted d); [apply keeps_raise|apply keeps_ret].
Qed.

Lemma keeps_cv2_imwrite p img : keeps proj (cv2_imwrite p img).
Proof.
  unfold cv2_imwrite. destruct (png_of_array img) as [png|]; [|apply keeps_raise].
  intros w. pose proof (keeps_write_file p (PngFile png) w) as Hw.
  by destruct (Os.write_file p (PngFile png) w) as [[[]|e] w1].
Qed.

Lemma keeps_canvas_save c : keeps proj (canvas_save c).
Proof. apply keeps_write_file. Qed.

Lemma keeps_draw_image c image orientation : keeps proj (draw_image c image orientation).
Proof.
  unfold draw_image, drawImage.
  destruct (String.eqb orientation "landscape");
    (apply keeps_bind; [apply keeps_read_file|]);
    intros [d|img]; (apply keeps_ret || apply keeps_raise).
Qed.

Lemma keeps_image_to_pdf images_folder output_folder orientation remove_artifacts :
  keeps proj (image_to_pdf images_folder output_folder orientation remove_artifacts).
Proof.
  unfold image_to_pdf. apply keeps_bind; [apply keeps_glob|]. intros found.
  apply keeps_for_each. intros [image j].
  apply keeps_bind; [apply keeps_draw_image|]. intros c.
  apply keeps_bind; [apply keeps_canvas_save|]. intros _.
  apply keeps_when, keeps_remove.
Qed.

Lemma keeps_merge_pdfs input_folder path_to_output_pdf remove_artifacts :
  keeps proj (merge_pdfs input_folder path_to_output_pdf remove_artifacts).
Proof.
  unfold merge_pdfs. apply keeps_bind; [apply keeps_glob|]. intros found.
  apply keeps_bind.
  { apply keeps_fold_each. intros merger path.
    apply keeps_bind; [apply keeps_PdfFileReader|]. intros d. apply keeps_ret. }
  intros merger. apply keeps_bind; [apply keeps_write_file|]. intros _.
  apply keeps_when, keeps_for_each. intros x. apply keeps_remove.
Qed.

End Keeps.

(** ** Sealing *)

Section Sealing.

Context {L : Libraries}.

Definition sealed_with (d : pdf) (usr_pass owner_pass : string) (sealed : pdf) : Prop :=
  pages sealed = pages d /\
  encrypted sealed =
    Some (Encryption usr_pass owner_pass
            (Permissions true false false false false false true true)).

Lemma encrypt_and_add_metadata_run w input_pdf output_folder usr_pass owner_pass
      remove_original d :
  Os.read_file input_pdf w = (Ok (PdfFile d), w) ->
  (forall e, encrypted d = Some e -> user e = "") ->
  exists w' sealed ko,
    encrypt_and_add_metadata input_pdf output_folder usr_pass owner_pass remove_original w
      = (Ok tt, w') /\
    Os.read_file (Os.path_join output_folder (file_name_of input_pdf +:+ "_final.pdf")) w'
      = (Ok (PdfFile sealed), w') /\
    sealed_with d usr_pass owner_pass sealed /\
    Os.resolve_file (Os.path_join output_folder (file_name_of input_pdf +:+ "_final.pdf"))
      = Some ko /\
    (remove_original = false -> fs w' = <[ko := PdfFile sealed]> (fs w)).
Proof.
  intros Hread Hpass.
  destruct (read_file_inv _ _ _ _ Hread) as (_ & ki & Hki & Hd).
  destruct (stage_output_resolve input_pdf output_folder "_final.pdf" ki)
    as (ko & Hko & Hne); [done|by eauto|done|].
  unfold encrypt_and_add_metadata.
  assert (Hopen : pikepdf_open input_pdf w = (Ok d, w)).
  { unfold pikepdf_open. rewrite (bind_ok _ _ _ _ _ Hread).
    destruct (encrypted d) as [e|] eqn:E; [|done].
    by rewrite (Hpass e eq_refl). }
  rewrite (bind_ok _ _ _ _ _ Hopen).
  unfold today_isoformat at 1. unfold bind at 1.
  unfold today_isoformat at 1. unfold bind at 1.
  unfold pikepdf_now at 1. unfold bind at 1.
  change (file_name_of input_pdf +:+ "_final" +:+ ".pdf")
    with (file_name_of input_pdf +:+ "_final.pdf").
  erewrite bind_ok by (by apply write_file_ok).
  set (w1 := with_fs _ _).
  set (sealed := Pdf _ _ _) in w1.
  assert (Hout : fs w1 !! ko = Some (PdfFile sealed)) by apply lookup_insert_eq.
  destruct remove_original; simpl.
  - destruct (read_after_remove input_pdf _ ko (PdfFile sealed) w1 Hko Hout ki Hki (not_eq_sym Hne))
      as (w' & Hrm & Hrd).
    { subst w1. rewrite fs_with_fs, lookup_insert_ne by done. simpl. by rewrite Hd. }
    exists w', sealed, ko. by rewrite Hrm.
  - exists w1, sealed, ko. split; [done|]. split; [by apply read_file_ok with ko|].
    done.
Qed.

End Sealing.

(** ** Rasterizer calls *)

Section Rendering.

Context {L : Libraries}.

Lemma rendered_with_fs w f : rendered (with_fs w f) = rendered w.
Proof. done. Qed.

Lemma keeps_rendered_random_normal loc scale n :
  keeps rendered (random_normal loc scale n).
Proof.
  intros w. unfold random_normal. destruct (Qlt_le_dec scale 0); [done|].
  by destruct (np_random_normal (rng w) loc scale n).
Qed.

Lemma keeps_rendered_blur_image page kernel sigma :
  keeps rendered (blur_image page kernel sigma).
Proof.
  unfold blur_image. apply keeps_bind; [apply keeps_rendered_random_normal|].
  intros gauss. destruct page; [|apply keeps_raise].
  apply keeps_bind; [|intros img; apply keeps_ret].
  unfold cv2_GaussianBlur. destruct (gaussian_blur _ _ _); [apply keeps_ret|apply keeps_raise].
Qed.

(** [appends m calls]: running [m] adds exactly [calls] to the record. *)
Definition appends {A} (m : M A) (calls : list (string * nat)) : Prop :=
  forall w, rendered (m w).2 = rendered w ++ calls.

Lemma appends_bind {A C} (m : M A) (k : A -> M C) calls :
  appends m calls -> (forall a, keeps rendered (k a)) -> appends (bind m k) calls.
Proof.
  intros Hm Hk w. unfold bind. specialize (Hm w).
  destruct (m w) as [[a|e] w1]; simpl in *; [|done].
  by rewrite Hk.
Qed.

Lemma appends_convert_from_path path dpi :
  appends (convert_from_path path dpi) [(path, dpi)].
Proof.
  intros w. unfold convert_from_path. unfold bind at 1.
  set (w1 := World _ _ _ _).
  assert (Hk : keeps rendered
            (let* f := Os.read_file path in
             match f with
             | PdfFile d => ret (pdf2image_render d dpi)
             | PngFile _ => raise (PdfReadError path)
             end)).
  { apply keeps_bind; [apply keeps_read_file|].
    intros [d|img]; [apply keeps_ret|apply keeps_raise]. }
  by rewrite (Hk w1).
Qed.

Lemma appends_pdf_to_image path_to_pdf output_folder dpi blur kernel sigma :
  appends (pdf_to_image path_to_pdf output_folder dpi blur kernel sigma)
          [(path_to_pdf, dpi)].
Proof.
  unfold pdf_to_image. apply appends_bind; [apply appends_convert_from_path|].
  intros pages. apply keeps_for_each. intros [page j]. destruct blur.
  - apply keeps_bind; [apply keeps_rendered_blur_image|]. intros img.
    apply keeps_bind; [apply (keeps_cv2_imwrite _ rendered_with_fs)|]. intros _.
    apply keeps_ret.
  - apply (keeps_write_file _ rendered_with_fs).
Qed.

End Rendering.

(** ** The watermarking loop *)

Lemma watermark_loop (ps : list page) (wm : page) (k i : nat) (acc : list page) w :
  (i + k <= length ps)%nat ->
  fold_each (seq i k) acc (fun writer j =>
    match ps !! j with
    | None => raise IndexError
    | Some page => ret (writer ++ [mergePage page wm])
    end) w
  = (Ok (acc ++ ((fun p => mergePage p wm) <$> take k (drop i ps))), w).
Proof.
  revert i acc. induction k as [|k IH]; intros i acc Hlen; simpl.
  - by rewrite app_nil_r.
  - destruct (lookup_lt_is_Some_2 ps i ltac:(lia)) as [p Hp].
    unfold bind at 1. rewrite Hp. simpl.
    rewrite IH by lia. rewrite (drop_S _ _ _ Hp). simpl.
    by rewrite <- app_assoc.
Qed.

(** ** The noise stage *)

Section Blur.

Context {L : Libraries}.

Lemma pixels_cv2_add a b :
  pixels (cv2_add a b) = zip_with (fun x y => saturate_cast (x + y)) (pixels a) (pixels b).
Proof. by destruct a as [h w [|[|c]] px|h w px]. Qed.

Lemma pixels_with_pixels img values : pixels (with_pixels img values) = values.
Proof. by destruct img. Qed.

(** The noisy image has the shape of the image, unless that has one
    channel: then the third dimension is gone. *)
Lemma shape_add_noise h w c px gauss :
  shape (add_noise (Raster h w c px) gauss)
  = if decide (c = 1%nat) then [h; w] else [h; w; c].
Proof. by destruct c as [|[|c]]. Qed.

Lemma depth_add_noise h w c px gauss :
  depth (add_noise (Raster h w c px) gauss) = c.
Proof. by destruct c as [|[|c]]. Qed.

Lemma size_add_noise h w c px gauss :
  size (add_noise (Raster h w c px) gauss) = size (Raster h w c px).
Proof. destruct c as [|[|c]]; simpl; lia. Qed.

(** A run of the filter on an array of three dimensions, when the blur
    accepts the kernel. *)
Lemma blur_image_run h wd c px kernel sigma w blurred :
  (0 <= sigma)%Q ->
  gaussian_blur
    (add_noise (Raster h wd c px)
       (np_random_normal (rng w) 0 sigma (size (Raster h wd c px))).1) kernel sigma
  = Some blurred ->
  blur_image (Raster h wd c px) kernel sigma w
    = (Ok blurred,
       World (fs w) (np_random_normal (rng w) 0 sigma (size (Raster h wd c px))).2
             (clock w) (rendered w)).
Proof.
  intros Hs Hblur. unfold blur_image, random_normal, bind, ret, cv2_GaussianBlur.
  destruct (Qlt_le_dec sigma 0) as [Hlt|_].
  - exfalso. apply (Qlt_not_le _ _ Hlt Hs).
  - destruct (np_random_normal (rng w) 0 sigma (size (Raster h wd c px))) as [g s'].
    simpl in *. by rewrite Hblur.
Qed.

(** Saturated addition of an 8-bit value never lowers a channel. *)
Lemma saturate_cast_add_ge x u :
  (0 <= x <= 255)%Z -> (0 <= u)%Z -> (x <= saturate_cast (x + u))%Z.
Proof. unfold saturate_cast. lia. Qed.

Lemma add_noise_pixel img gauss i y :
  pixels (add_noise img gauss) !! i = Some y ->
  exists x g, pixels img !! i = Some x /\ gauss !! i = Some g /\
              y = saturate_cast (x + np_astype_uint8 g).
Proof.
  unfold add_noise. rewrite pixels_cv2_add, pixels_with_pixels. intros H.
  apply lookup_zip_with_Some in H as (x & u & -> & Hx & Hu).
  rewrite list_lookup_fmap in Hu.
  destruct (gauss !! i) as [g|] eqn:Hg; [|discriminate Hu].
  injection Hu as <-. eauto.
Qed.

(** Whatever the samples are, and however the platform casts the negative
    ones, no channel of the noisy image is below that of the image. *)
Lemma add_noise_never_lowers img gauss i x y :
  pixels img !! i = Some x -> (0 <= x <= 255)%Z ->
  pixels (add_noise img gauss) !! i = Some y ->
  (x <= y)%Z.
Proof.
  intros Hx Hr Hy. apply add_noise_pixel in Hy as (x' & g & Hx' & _ & ->).
  rewrite Hx in Hx'. injection Hx' as <-.
  apply saturate_cast_add_ge; [done|]. apply np_astype_uint8_range.
Qed.

End Blur.

(** ** Page image names and their order *)

(** The name [pdf_to_image] gives the image of page [j]. *)
Definition png_name (j : nat) : string := "_" +:+ pretty j +:+ ".png".

Lemma pretty_N_go_no_char c x s :
  (forall d, pretty_N_char d <> c) ->
  Str.contains c s = false -> Str.contains c (pretty_N_go x s) = false.
Proof.
  intros Hc. revert s. induction (N.lt_wf_0 x) as [x _ IH]. intros s Hs.
  destruct (decide (x = 0)%N) as [->|Hx]; [by rewrite pretty_N_go_0|].
  rewrite pretty_N_go_step by lia. apply IH.
  - apply N.div_lt; lia.
  - cbn [Str.contains]. rewrite Hs, bool_decide_eq_false_2; [done|apply Hc].
Qed.

Lemma pretty_nat_no_char c (n : nat) :
  (forall d, pretty_N_char d <> c) -> Str.contains c (pretty n) = false.
Proof.
  intros Hc. unfold pretty, pretty_nat, pretty, pretty_N.
  destruct (decide (N.of_nat n = 0%N)).
  - cbn [Str.contains]. rewrite bool_decide_eq_false_2; [done|]. apply (Hc 0%N).
  - by apply pretty_N_go_no_char.
Qed.

Lemma digit_not_sep d : pretty_N_char d <> Os.sep.
Proof. unfold pretty_N_char. by repeat case_match. Qed.

Lemma png_name_no_sep j : Str.contains Os.sep (png_name j) = false.
Proof.
  unfold png_name. change ("_" +:+ pretty j +:+ ".png") with (String "_" (pretty j +:+ ".png")).
  cbn [Str.contains]. rewrite contains_app, (pretty_nat_no_char _ _ digit_not_sep). done.
Qed.

Lemma png_name_not_skipped j : ~ Os.skipped (png_name j).
Proof. intros [E|E]; discriminate E. Qed.

Lemma png_name_not_absolute j : Str.startswith "/" (png_name j) = false.
Proof. done. Qed.

Lemma length_app (s t : string) :
  String.length (s +:+ t) = (String.length s + String.length t)%nat.
Proof. induction s as [|a s IH]; [done|]. rewrite app_cons. simpl. by rewrite IH. Qed.

Lemma app_inv_tail_string (a b t : string) : a +:+ t = b +:+ t -> a = b.
Proof.
  revert b. induction a as [|x a IH]; intros [|y b] Hab.
  - done.
  - exfalso. apply (f_equal String.length) in Hab.
    rewrite app_cons in Hab. cbn [String.length] in Hab.
    rewrite !length_app in Hab. simpl in Hab. lia.
  - exfalso. apply (f_equal String.length) in Hab.
    rewrite app_cons in Hab. cbn [String.length] in Hab.
    rewrite !length_app in Hab. simpl in Hab. lia.
  - rewrite !app_cons in Hab. injection Hab as -> Hab. f_equal. by apply IH.
Qed.

Global Instance png_name_inj : Inj (=) (=) png_name.
Proof.
  intros i j E. unfold png_name in E. injection E as E.
  change (pretty i +:+ ".png" = pretty j +:+ ".png") in E.
  apply app_inv_tail_string in E. by apply (inj pretty) in E.
Qed.

Lemma some_tail_app rest s t : rest t = true -> Os.some_tail rest (s +:+ t) = true.
Proof.
  intros Ht. induction s as [|a s IH].
  - change ("" +:+ t) with t. destruct t; cbn [Os.some_tail]; by rewrite Ht.
  - rewrite app_cons. cbn [Os.some_tail]. rewrite IH. apply orb_true_r.
Qed.

Lemma fnmatch_star pat s t :
  Os.fnmatch pat t = true -> Os.fnmatch (String "*" pat) (s +:+ t) = true.
Proof. intros Ht. cbn [Os.fnmatch]. rewrite decide_True by done. by apply some_tail_app. Qed.

Lemma png_name_matches j : Os.fnmatch "*.png" (png_name j) = true.
Proof.
  unfold png_name.
  change ("_" +:+ pretty j +:+ ".png") with (String "_" (pretty j) +:+ ".png").
  by apply fnmatch_star.
Qed.

Lemma png_name_visible j : Os.visible "*.png" (png_name j) = true.
Proof. done. Qed.

(** Strings with a common prefix compare as their remainders. *)
Lemma compare_app_prefix pre a b :
  String.compare (pre +:+ a) (pre +:+ b) = String.compare a b.
Proof.
  induction pre as [|x pre IH]; [done|].
  rewrite !app_cons. cbn [String.compare].
  assert (Hx : Ascii.compare x x = Eq) by (unfold Ascii.compare; apply N.compare_refl).
  by rewrite Hx.
Qed.

Lemma le_app_prefix pre a b : String.le (pre +:+ a) (pre +:+ b) <-> String.le a b.
Proof. unfold String.le, String.leb. by rewrite compare_app_prefix. Qed.

Lemma png_2_after_10 pre : ~ String.le (pre +:+ png_name 2) (pre +:+ png_name 10).
Proof. rewrite le_app_prefix. vm_compute. tauto. Qed.

Lemma png_names_sorted (n : nat) :
  (n <= 10)%nat -> StronglySorted String.le (png_name <$> seq 0 n).
Proof.
  intros Hn.
  assert (H10 : StronglySorted String.le (png_name <$> seq 0 10)).
  { refine (bool_decide_unpack _ _). vm_compute. exact I. }
  replace (seq 0 10) with (seq 0 n ++ seq n (10 - n)) in H10.
  - rewrite fmap_app in H10. by apply StronglySorted_app_1_l in H10.
  - rewrite <- seq_app. f_equal. lia.
Qed.

Lemma prefixed_sorted pre (l : list string) :
  StronglySorted String.le l -> StronglySorted String.le ((fun x => pre +:+ x) <$> l).
Proof.
  apply StronglySorted_fmap. intros x y Hxy. by apply le_app_prefix.
Qed.

(** ** Writing several files *)

Definition write_all (kvs : list (list string * file)) (m : gmap (list string) file) :
    gmap (list string) file :=
  foldl (fun m kv => <[kv.1 := kv.2]> m) m kvs.

Lemma write_all_cons k v kvs m : write_all ((k, v) :: kvs) m = write_all kvs (<[k := v]> m).
Proof. done. Qed.

Lemma write_all_lookup_notin kvs m k :
  k ∉ kvs.*1 -> write_all kvs m !! k = m !! k.
Proof.
  revert m. induction kvs as [|[k' v] kvs IH]; intros m Hk; [done|].
  rewrite write_all_cons. rewrite fmap_cons in Hk.
  apply not_elem_of_cons in Hk as [Hne Hk].
  rewrite IH by done. by rewrite lookup_insert_ne.
Qed.

Lemma write_all_lookup kvs m i k v :
  NoDup kvs.*1 -> kvs !! i = Some (k, v) -> write_all kvs m !! k = Some v.
Proof.
  revert m i. induction kvs as [|[k' v'] kvs IH]; intros m i Hnd Hi; [done|].
  rewrite fmap_cons in Hnd. apply NoDup_cons in Hnd as [Hk' Hnd].
  rewrite write_all_cons. destruct i as [|i]; simpl in Hi.
  - injection Hi as -> ->. rewrite write_all_lookup_notin by done.
    apply lookup_insert_eq.
  - by apply IH with i.
Qed.

Lemma dom_write_all kvs m : dom (write_all kvs m) = list_to_set kvs.*1 ∪ dom m.
Proof.
  revert m. induction kvs as [|[k v] kvs IH]; intros m.
  - simpl. by rewrite (left_id_L ∅ (∪)).
  - rewrite write_all_cons, IH, dom_insert_L. simpl.
    by rewrite (assoc_L (∪)), (comm_L (∪) _ {[k]}).
Qed.

(** ** Directory listings *)

Lemma entry_of_Some d k x : Os.entry_of d k = Some x <-> k = d ++ [x].
Proof.
  unfold Os.entry_of. split.
  - destruct k as [|y k]; [done|].
    assert (Hne : y :: k <> []) by done. revert Hne.
    generalize (y :: k). intros k' Hne.
    destruct (decide (removelast k' = d)) as [<-|]; [|done].
    intros Hx. injection Hx as <-. by apply app_removelast_last.
  - intros ->. destruct (d ++ [x]) as [|y k] eqn:E.
    { by destruct d. }
    rewrite <- E, removelast_last, last_last. by rewrite decide_True.
Qed.

Lemma elem_of_listdir files d x :
  x ∈ Os.listdir files d <-> is_Some (files !! (Os.resolve d ++ [x])).
Proof.
  unfold Os.listdir. rewrite elem_of_set_omap. split.
  - intros (k & Hk & He). apply entry_of_Some in He as ->. by apply elem_of_dom.
  - intros Hs. exists (Os.resolve d ++ [x]). split; [by apply elem_of_dom|].
    by apply entry_of_Some.
Qed.

Lemma glob_run `{Libraries} pathname w :
  Os.plain pathname = true ->
  Os.glob pathname w
  = (Ok (Os.path_join (Os.dirname pathname) <$>
           filter (fun n => Os.visible (Os.basename pathname) n
                            && Os.fnmatch (Os.basename pathname) n = true)
                  (elements (Os.listdir (fs w) (Os.dirname pathname)))),
     w).
Proof.
  intros Hplain. unfold Os.glob, bind, get_fs. rewrite Hplain. unfold ret.
  f_equal. f_equal.
  destruct (Os.dirname pathname) eqn:E; [|done].
  induction (filter _ _) as [|x l IH]; [done|].
  rewrite fmap_cons, path_join_empty. by f_equal.
Qed.

Lemma StronglySorted_lookup_le {A} (R : relation A) (l : list A) i j x y :
  StronglySorted R l -> (i < j)%nat -> l !! i = Some x -> l !! j = Some y -> R x y.
Proof.
  intros Hs. revert i j. induction Hs as [|a l Hs IH Hall]; intros i j Hij Hi Hj; [done|].
  destruct j as [|j]; [lia|]. simpl in Hj. destruct i as [|i]; simpl in Hi.
  - injection Hi as <-. rewrite Forall_forall in Hall. apply Hall.
    by apply list_elem_of_lookup_2 in Hj.
  - apply (IH i j); [lia|done..].
Qed.

(** ** Rasterizing *)

Section Rasterizing.

Context {L : Libraries}.

Definition image_key (output_folder : string) (j : nat) : list string :=
  Os.resolve output_folder ++ [png_name j].

Global Instance image_key_inj output_folder : Inj (=) (=) (image_key output_folder).
Proof.
  intros i j E. unfold image_key in E. apply app_inv_head in E.
  injection E as E. apply png_name_inj. unfold png_name.
  change (String "_" ("" +:+ pretty i +:+ ".png") = String "_" ("" +:+ pretty j +:+ ".png")).
  by rewrite E.
Qed.

Lemma png_output_resolve output_folder j :
  Os.resolve_file
    (Os.path_join "." (Os.path_join output_folder ("_" +:+ pretty j +:+ ".png")))
  = Some (image_key output_folder j).
Proof.
  rewrite resolve_file_join_dot.
  apply (resolve_file_join output_folder (png_name j));
    [apply png_name_no_sep|apply png_name_not_skipped].
Qed.

Lemma listed_resolve output_folder j :
  Os.resolve_file
    (Os.path_join (Os.dirname (Os.path_join output_folder "*.png")) (png_name j))
  = Some (image_key output_folder j).
Proof.
  rewrite resolve_file_join by (apply png_name_no_sep || apply png_name_not_skipped).
  by rewrite resolve_dirname_join.
Qed.

Lemma convert_from_path_run path dpi d w :
  Os.read_file path w = (Ok (PdfFile d), w) ->
  convert_from_path path dpi w
  = (Ok (pdf2image_render d dpi),
     World (fs w) (rng w) (clock w) (rendered w ++ [(path, dpi)])).
Proof.
  intros Hr. destruct (read_file_inv _ _ _ _ Hr) as (_ & k & Hk & Hf).
  unfold convert_from_path. unfold bind at 1.
  erewrite bind_ok; [|by apply read_file_ok with k]. done.
Qed.

(** What [pdf_to_image] puts into the file of a page: the rendered page as
    it is, or, when it blurs, the blur of the page with noise added, one
    sample for each channel of each pixel, with red and blue exchanged by
    [cv2.imwrite]. *)
Definition rasterized (blur : bool) (kernel : nat * nat) (sigma : Q)
    (img page : raster) : Prop :=
  if blur then
    exists gauss h w px,
      shape page = [h; w; 3%nat] /\
      length gauss = size page /\
      gaussian_blur (add_noise page gauss) kernel sigma = Some (Raster h w 3 px) /\
      img = Raster h w 3 (bgr3 px)
  else img = page.

Lemma rasterized_rgb blur kernel sigma img page :
  rgb page -> rasterized blur kernel sigma img page ->
  rgb img /\ shape img = shape page.
Proof.
  intros (h & w & px & -> & Hh & Hw). destruct blur; simpl; [|intros ->; split; [|done]].
  - intros (gauss & h' & w' & px' & [= <- <-] & _ & _ & ->). split; [|done].
    by exists h, w, (bgr3 px').
  - by exists h, w, px.
Qed.

Lemma png_of_rgb h w px :
  h <> 0%nat -> w <> 0%nat -> png_of_array (Raster h w 3 px) = Some (Raster h w 3 (bgr3 px)).
Proof.
  intros Hh Hw. unfold png_of_array. rewrite decide_False; [done|]. simpl. nia.
Qed.

(** The blur of a colour image with a kernel of odd sides. *)
Lemma blur_rgb h w px gauss kernel sigma :
  h <> 0%nat -> w <> 0%nat ->
  Nat.odd kernel.1 = true -> Nat.odd kernel.2 = true ->
  exists px',
    gaussian_blur (add_noise (Raster h w 3 px) gauss) kernel sigma
    = Some (Raster h w 3 px').
Proof.
  intros Hh Hw Hk1 Hk2.
  destruct (gaussian_blur_odd (add_noise (Raster h w 3 px) gauss) kernel sigma)
    as (dst & Hdst & Hshape); [|simpl; lia|done|done|].
  - rewrite size_add_noise. simpl. nia.
  - rewrite shape_add_noise in Hshape. simpl in Hshape.
    destruct dst as [h' w' c' px'|h' w' px']; [|discriminate Hshape].
    injection Hshape as -> -> ->. by exists px'.
Qed.

Lemma pdf_to_image_step output_folder (blur : bool) kernel sigma page (j : nat) w :
  rgb page ->
  (blur = true ->
   (0 <= sigma)%Q /\ Nat.odd kernel.1 = true /\ Nat.odd kernel.2 = true) ->
  exists img w',
    ((let png_output :=
        Os.path_join "." (Os.path_join output_folder ("_" +:+ pretty j +:+ ".png")) in
      if blur then
        let* blurred_image := blur_image page kernel sigma in
        do cv2_imwrite png_output blurred_image then ret tt
      else image_save png_output page) : M unit) w = (Ok tt, w') /\
    fs w' = <[image_key output_folder j := PngFile img]> (fs w) /\
    rasterized blur kernel sigma img page /\
    (blur = false -> rng w' = rng w) /\
    clock w' = clock w /\ rendered w' = rendered w.
Proof.
  intros (h & wd & px & -> & Hh & Hw) Hblur. cbv zeta. destruct blur.
  - destruct (Hblur eq_refl) as (Hs & Hk1 & Hk2).
    destruct (blur_rgb h wd px
                (np_random_normal (rng w) 0 sigma (size (Raster h wd 3 px))).1
                kernel sigma Hh Hw Hk1 Hk2) as [px' Hpx'].
    rewrite (bind_ok _ _ _ _ _ (blur_image_run h wd 3 px kernel sigma w _ Hs Hpx')).
    unfold cv2_imwrite. rewrite (png_of_rgb h wd px' Hh Hw). unfold bind at 1.
    rewrite (write_file_ok _ _ _ _ (png_output_resolve output_folder j)).
    eexists. eexists. split; [reflexivity|]. split; [done|]. split.
    + eexists. exists h, wd, px'. split; [done|].
      split; [apply np_random_normal_length|]. split; [exact Hpx'|done].
    + split; [intros [=]|done].
  - unfold image_save.
    rewrite (write_file_ok _ _ _ _ (png_output_resolve output_folder j)).
    eexists. eexists. split; [reflexivity|]. done.
Qed.

Lemma pdf_to_image_loop output_folder (blur : bool) kernel sigma
    (l : list (raster * nat)) w :
  Forall rgb l.*1 ->
  (blur = true ->
   (0 <= sigma)%Q /\ Nat.odd kernel.1 = true /\ Nat.odd kernel.2 = true) ->
  exists w' imgs,
    for_each l (fun '(page, j) =>
      let png_output :=
        Os.path_join "." (Os.path_join output_folder ("_" +:+ pretty j +:+ ".png")) in
      if blur then
        let* blurred_image := blur_image page kernel sigma in
        do cv2_imwrite png_output blurred_image then ret tt
      else image_save png_output page) w = (Ok tt, w') /\
    Forall2 (rasterized blur kernel sigma) imgs l.*1 /\
    fs w' = write_all (zip (image_key output_folder <$> l.*2) (PngFile <$> imgs)) (fs w) /\
    (blur = false -> rng w' = rng w) /\
    clock w' = clock w /\ rendered w' = rendered w.
Proof.
  intros Hrgb Hblur. revert w. induction l as [|[page j] l IH]; intros w.
  - exists w, []. split; [done|]. split; [constructor|done].
  - rewrite fmap_cons in Hrgb. apply Forall_cons in Hrgb as [Hpage Hrgb].
    destruct (pdf_to_image_step output_folder blur kernel sigma page j w Hpage Hblur)
      as (img & w1 & Hstep & Hfs1 & Himg & Hsame & Hclock1 & Hrendered1).
    destruct (IH Hrgb w1) as (w' & imgs & Hrun & Hall & Hfs & Hrng & Hclock & Hrendered).
    exists w', (img :: imgs). cbn [for_each].
    rewrite (bind_ok _ _ _ _ _ Hstep). split; [done|]. split; [|split; [|split; [|split]]].
    + rewrite fmap_cons. by constructor.
    + rewrite Hfs, Hfs1. done.
    + intros Hb. rewrite (Hrng Hb). by apply Hsame.
    + congruence.
    + congruence.
Qed.

(** What [pdf_to_image] leaves: the [j]-th page of the rasterized document is
    written to [_j.png] of the output folder, as it is or blurred. *)
Lemma pdf_to_image_world (w : world) (path_to_pdf output_folder : string) (dpi : nat)
    (blur : bool) (kernel : nat * nat) (sigma : Q) (d : pdf) :
  Os.read_file path_to_pdf w = (Ok (PdfFile d), w) ->
  dpi <> 0%nat ->
  (blur = true ->
   (0 <= sigma)%Q /\ Nat.odd kernel.1 = true /\ Nat.odd kernel.2 = true) ->
  exists w' imgs,
    pdf_to_image path_to_pdf output_folder dpi blur kernel sigma w = (Ok tt, w') /\
    Forall2 (rasterized blur kernel sigma) imgs (pdf2image_render d dpi) /\
    fs w' = write_all (zip (image_key output_folder <$> seq 0 (length imgs))
                           (PngFile <$> imgs)) (fs w) /\
    (blur = false -> rng w' = rng w) /\
    clock w' = clock w /\ rendered w' = rendered w ++ [(path_to_pdf, dpi)].
Proof.
  intros Hread Hdpi Hblur. unfold pdf_to_image.
  rewrite (bind_ok _ _ _ _ _ (convert_from_path_run path_to_pdf dpi d w Hread)).
  set (w0 := World _ _ _ _). set (rendered_pages := pdf2image_render d dpi).
  assert (Hfst : (enumerate rendered_pages).*1 = rendered_pages).
  { unfold enumerate. apply fst_zip. by rewrite length_seq. }
  destruct (pdf_to_image_loop output_folder blur kernel sigma
              (enumerate rendered_pages) w0)
    as (w' & imgs & Hrun & Hall & Hfs & Hrng & Hclock & Hrendered); [|done|].
  { rewrite Hfst. by apply pdf2image_render_rgb. }
  assert (Hsnd : (enumerate rendered_pages).*2 = seq 0 (length imgs)).
  { unfold enumerate. rewrite snd_zip by (by rewrite length_seq).
    rewrite Hfst in Hall. by rewrite (Forall2_length _ _ _ Hall). }
  exists w', imgs. split; [exact Hrun|]. rewrite Hfst in Hall. rewrite Hsnd in Hfs.
  done.
Qed.

End Rasterizing.
(** ** A small instance of the libraries, to run the functions on examples

    The generator is a linear congruential one whose samples are multiples
    of one half of [scale] around [loc]; the cast to [uint8] is the one x86
    performs (truncate toward zero, keep the low eight bits); the blur
    accepts the kernels with two odd sides and leaves the image as it is; a
    page renders to a row of pixels, a white one and one for each thing drawn
    on it; no pattern is listed beyond the plain ones. *)

Module Sample.

Definition next (s : N) : N := ((s * 1103515245 + 12345) mod 2147483648)%N.

Definition sample (s : N) (loc scale : Q) : Q :=
  (loc + scale * ((Z.of_N (s mod 9) - 4) # 2))%Q.

Fixpoint normal (s : N) (loc scale : Q) (n : nat) : list Q * N :=
  match n with
  | O => ([], s)
  | S n' =>
      let '(rest, s') := normal (next s) loc scale n' in
      (sample s loc scale :: rest, s')
  end.

Definition astype_uint8 (x : Q) : Z :=
(Z.quot (Qnum x) (Zpos (Qden x))) mod 256.

Definition randint (s : N) (low high : Z) : Z * N :=
  ((low + Z.of_N s mod (high - low))%Z, next s).

Definition colour (dpi : nat) (d : drawing) : list Z :=
  match d with
  | Mark id => [(Z.of_N id + Z.of_nat dpi) mod 256; 0; 255]%Z
  | DrawImage img _ _ _ _ =>
      match pixels img with
      | r :: g :: b :: _ => [r; g; b]
      | _ => [0; 0; 0]%Z
      end
  end.

Definition render_page (dpi : nat) (p : page) : raster :=
  Raster 1 (S (length (contents p))) 3
         ([255; 255; 255]%Z ++ concat (colour dpi <$> contents p)).

Definition blur (src : raster) (ksize : nat * nat) (sigma : Q) : option raster :=
  if Nat.odd ksize.1 && Nat.odd ksize.2
  then if decide (size src = 0%nat) then None else Some src
  else None.

Definition render (d : pdf) (dpi : nat) : list raster :=
  render_page dpi <$> pages d.

Lemma normal_length s loc scale n : length (normal s loc scale n).1 = n.
Proof.
  revert s. induction n as [|n IH]; intros s; simpl; [done|].
  specialize (IH (next s)). destruct (normal (next s) loc scale n) as [rest s'].
  simpl in *. by rewrite IH.
Qed.

Lemma randint_range s low high :
  (low < high)%Z -> (low <= (randint s low high).1 < high)%Z.
Proof.
  intros Hlt. unfold randint. simpl.
  pose proof (Z.mod_pos_bound (Z.of_N s) (high - low)). lia.
Qed.

Lemma astype_uint8_range x : (0 <= astype_uint8 x <= 255)%Z.
Proof. unfold astype_uint8. pose proof (Z.mod_pos_bound (Qnum x ÷ Z.pos (Qden x)) 256). lia. Qed.

Lemma astype_uint8_trunc x :
  (0 <= x)%Q -> (x < 256)%Q -> astype_uint8 x = Qfloor x.
Proof.
  destruct x as [n d]. unfold astype_uint8, Qfloor, Qle, Qlt. simpl.
  intros Hn Hd. assert (0 <= n)%Z by lia.
  rewrite Z.quot_div_nonneg by lia.
  apply Z.mod_small. split; [apply Z.div_pos; lia|].
  apply Z.div_lt_upper_bound; lia.
Qed.

Lemma render_length d dpi :
  dpi <> 0%nat -> length (render d dpi) = length (pages d).
Proof. intros _. unfold render. by rewrite length_fmap. Qed.

Lemma render_rgb d dpi : dpi <> 0%nat -> Forall rgb (render d dpi).
Proof.
  intros _. unfold render. apply Forall_fmap, Forall_forall. intros p _.
  by exists 1%nat, (S (length (contents p))),
            ([255; 255; 255]%Z ++ concat (colour dpi <$> contents p)).
Qed.

Lemma blur_odd src ksize sigma :
  size src <> 0%nat -> (depth src <= 4)%nat ->
  Nat.odd ksize.1 = true -> Nat.odd ksize.2 = true ->
  exists dst, blur src ksize sigma = Some dst /\ shape dst = shape src.
Proof.
  intros Hsize _ H1 H2. exists src. unfold blur. by rewrite H1, H2, decide_False.
Qed.

Lemma blur_even src ksize sigma :
  (1 < height src)%nat -> (1 < width src)%nat ->
  (ksize.1 <> 0%nat /\ Nat.even ksize.1 = true) \/
  (ksize.2 <> 0%nat /\ Nat.even ksize.2 = true) ->
  blur src ksize sigma = None.
Proof.
  intros _ _ [[_ He]|[_ He]]; unfold blur.
  - by rewrite <- (Nat.negb_even ksize.1), He.
  - rewrite <- (Nat.negb_even ksize.2), He. by rewrite andb_false_r.
Qed.

Definition libraries : Libraries :=
  {| np_random_normal := normal;
     np_random_normal_length := normal_length;
     np_random_randint := randint;
     np_random_randint_range := randint_range;
     np_astype_uint8 := astype_uint8;
     np_astype_uint8_range := astype_uint8_range;
     np_astype_uint8_trunc := astype_uint8_trunc;
     gaussian_blur := blur;
     gaussian_blur_odd := blur_odd;
     gaussian_blur_even := blur_even;
     pdf2image_render := render;
     pdf2image_render_length := render_length;
     pdf2image_render_rgb := render_rgb;
     isoformat := fun t => pretty t;
     tick := N.succ;
     pikepdf_metadata_date := fun t => pretty t +:+ "+00:00";
     pikepdf_producer := "pikepdf 2.5.1";
     glob_beyond := fun _ _ => [] |}.

End Sample.

(** Worlds to run the functions on. *)

Module Demo.

Definition lecture : pdf :=
  Pdf [Page A4 [Mark 1]; Page A4 [Mark 2; Mark 3]] ∅ None.

Definition stamp : pdf := Pdf [Page A4 [Mark 99]] ∅ None.

Definition files : gmap (list string) file :=
  <[ ["sample_input"; "lecture1.pdf"] := PdfFile lecture ]>
    (<[ ["watermarks"; "landscape_A4.pdf"] := PdfFile stamp ]> ∅).

Definition start : world := World files 5 0 [].

End Demo.

(** Documents of ten and of eleven pages. *)

Module Long.

Definition numbered (n : nat) : pdf :=
  Pdf ((fun j => Page A4 [Mark (N.of_nat j)]) <$> seq 0 n) ∅ None.

Definition start (n : nat) : world :=
  World (<[ ["sample_input"; "notes.pdf"] := PdfFile (numbered n) ]> ∅) 5 0 [].

End Long.

(** A scratch folder with two documents, and one where the second file is
    not a PDF. *)

Module Scratch.

Definition two : world :=
  World (<[ ["tmp"; "tmp_1.pdf"] := PdfFile Demo.stamp ]>
           (<[ ["tmp"; "tmp_0.pdf"] := PdfFile Demo.lecture ]> ∅)) 5 0 [].

Definition broken : world :=
  World (<[ ["tmp"; "tmp_1.pdf"] := PngFile (Raster 1 1 3 [0; 0; 0]%Z) ]>
           (<[ ["tmp"; "tmp_0.pdf"] := PdfFile Demo.lecture ]> ∅)) 5 0 [].

(** A scratch folder with the images of two pages. *)
Definition first_image : raster := Raster 1 1 3 [3; 4; 5]%Z.

Definition second_image : raster := Raster 1 1 3 [7; 8; 9]%Z.

Definition images : world :=
  World (<[ ["tmp"; "_1.png"] := PngFile second_image ]>
           (<[ ["tmp"; "_0.png"] := PngFile first_image ]> ∅)) 5 0 [].

End Scratch.

(** * The claims *)

(** ** Sealing: permissions *)

Lemma pikepdf_open_inv path d w w' :
  pikepdf_open path w = (Ok d, w') ->
  Os.read_file path w = (Ok (PdfFile d), w) /\
  (forall e, encrypted d = Some e -> user e = "").
Proof.
  unfold pikepdf_open. intros H.
  apply bind_ok_inv in H as (f & w1 & Hr & H2).
  destruct (read_file_inv _ _ _ _ Hr) as [-> _].
  destruct f as [d'|img]; [|discriminate H2].
  destruct (encrypted d') as [e|] eqn:E.
  - destruct (String.eqb (user e) "") eqn:Eu; [|discriminate H2].
    injection H2 as -> ->. split; [done|].
    intros e' Heq. rewrite E in Heq. injection Heq as <-. by apply String.eqb_eq.
  - injection H2 as -> ->. split; [done|]. intros e' Heq. rewrite E in Heq. discriminate Heq.
Qed.

(** C1. Whenever the input can be opened, sealing returns and the document
    at the [_final] path is encrypted with permissions that allow printing
    in low and in high resolution and deny extraction, annotation, assembly,
    form filling and other modification, whatever the input holds. *)
Theorem sealed_document_permissions `{Libraries}
    (w : world) (input_pdf output_folder usr_pass owner_pass : string)
    (remove_original : bool) (d : pdf) :
  pikepdf_open input_pdf w = (Ok d, w) ->
  exists w' sealed e,
    encrypt_and_add_metadata input_pdf output_folder usr_pass owner_pass remove_original w
      = (Ok tt, w') /\
    Os.read_file (Os.path_join output_folder (file_name_of input_pdf +:+ "_final.pdf")) w'
      = (Ok (PdfFile sealed), w') /\
    encrypted sealed = Some e /\
    print_lowres (allow e) = true /\
    print_highres (allow e) = true /\
    extract (allow e) = false /\
    modify_annotation (allow e) = false /\
    modify_assembly (allow e) = false /\
    modify_form (allow e) = false /\
    modify_other (allow e) = false.
Proof.
  intros Hopen. apply pikepdf_open_inv in Hopen as [Hread Hpass].
  destruct (encrypt_and_add_metadata_run w input_pdf output_folder usr_pass owner_pass
              remove_original d Hread Hpass) as (w' & sealed & ko & Hrun & Hout & (_ & Henc) & _).
  exists w', sealed. eexists. repeat split; [apply Hrun|apply Hout|apply Henc|..]; done.
Qed.

Lemma sealed_document_permissions_witness :
  pikepdf_open "./sample_input/lecture1.pdf" Demo.start = (Ok Demo.lecture, Demo.start) /\
  exists w' sealed e,
    @encrypt_and_add_metadata Sample.libraries
      "./sample_input/lecture1.pdf" "./sample_output" "" "your_pass" true Demo.start
      = (Ok tt, w') /\
    Os.read_file
      (Os.path_join "./sample_output" (file_name_of "./sample_input/lecture1.pdf" +:+ "_final.pdf")) w'
      = (Ok (PdfFile sealed), w') /\
    encrypted sealed = Some e /\
    print_lowres (allow e) = true /\
    print_highres (allow e) = true /\
    extract (allow e) = false /\
    modify_annotation (allow e) = false /\
    modify_assembly (allow e) = false /\
    modify_form (allow e) = false /\
    modify_other (allow e) = false.
Proof.
  split; [reflexivity|].
  apply (@sealed_document_permissions Sample.libraries Demo.start _ _ _ _ _ Demo.lecture).
  reflexivity.
Defined.

(** C10, as the code has it. The sealer passes [accessibility=False] with
    the other permissions, but the encryption is written at pikepdf's default
    revision, 6, where that flag is not honoured: whenever the input can be
    opened, the sealed document allows accessibility, whatever the input
    holds.  What it allows is printing and accessibility, as the comment in
    the script says. *)
Theorem sealed_document_allows_accessibility `{Libraries}
    (w : world) (input_pdf output_folder usr_pass owner_pass : string)
    (remove_original : bool) (d : pdf) :
  pikepdf_open input_pdf w = (Ok d, w) ->
  exists w' sealed e,
    encrypt_and_add_metadata input_pdf output_folder usr_pass owner_pass remove_original w
      = (Ok tt, w') /\
    Os.read_file (Os.path_join output_folder (file_name_of input_pdf +:+ "_final.pdf")) w'
      = (Ok (PdfFile sealed), w') /\
    encrypted sealed = Some e /\
    e = pikepdf_Encryption usr_pass owner_pass
          {| accessibility := false; extract := false; modify_annotation := false;
             modify_assembly := false; modify_form := false; modify_other := false;
             print_lowres := true; print_highres := true |} /\
    accessibility (allow e) = true /\
    allow e = {| accessibility := true; extract := false; modify_annotation := false;
                 modify_assembly := false; modify_form := false; modify_other := false;
                 print_lowres := true; print_highres := true |}.
Proof.
  intros Hopen. apply pikepdf_open_inv in Hopen as [Hread Hpass].
  destruct (encrypt_and_add_metadata_run w input_pdf output_folder usr_pass owner_pass
              remove_original d Hread Hpass) as (w' & sealed & ko & Hrun & Hout & (_ & Henc) & _).
  exists w', sealed. eexists. repeat split; [apply Hrun|apply Hout|apply Henc|..]; done.
Qed.

Lemma sealed_document_allows_accessibility_witness :
  pikepdf_open "./sample_input/lecture1.pdf" Demo.start = (Ok Demo.lecture, Demo.start) /\
  exists w' sealed e,
    @encrypt_and_add_metadata Sample.libraries
      "./sample_input/lecture1.pdf" "./sample_output" "" "your_pass" false Demo.start
      = (Ok tt, w') /\
    Os.read_file
      (Os.path_join "./sample_output" (file_name_of "./sample_input/lecture1.pdf" +:+ "_final.pdf")) w'
      = (Ok (PdfFile sealed), w') /\
    encrypted sealed = Some e /\
    accessibility (allow e) = true.
Proof.
  split; [reflexivity|].
  destruct (@sealed_document_allows_accessibility Sample.libraries Demo.start
              "./sample_input/lecture1.pdf" "./sample_output" "" "your_pass" false
              Demo.lecture eq_refl)
    as (w' & sealed & e & Hrun & Hread & Henc & _ & Hacc & _).
  exists w', sealed, e. split; [exact Hrun|]. split; [exact Hread|].
  split; [exact Henc|exact Hacc].
Defined.

(** C10, as stated, fails: the document sealed as the script seals it does
    not deny accessibility. *)
Lemma sealed_document_denies_accessibility_counterexample :
  exists w' sealed e,
    @encrypt_and_add_metadata Sample.libraries
      "./sample_input/lecture1.pdf" "./sample_output" "" "your_pass" true Demo.start
      = (Ok tt, w') /\
    Os.read_file "./sample_output/lecture1_final.pdf" w' = (Ok (PdfFile sealed), w') /\
    encrypted sealed = Some e /\
    accessibility (allow e) <> false.
Proof.
  destruct (@encrypt_and_add_metadata_run Sample.libraries Demo.start
              "./sample_input/lecture1.pdf" "./sample_output" "" "your_pass" true
              Demo.lecture eq_refl)
    as (w' & sealed & ko & Hrun & Hread & (_ & Henc) & _); [by intros e|].
  exists w', sealed. eexists. split; [exact Hrun|]. split; [exact Hread|].
  split; [exact Henc|]. discriminate.
Qed.

(** ** Flattening: the resolution of the second rasterization *)

(** C9. The flattening stage takes no resolution: the one call it makes to
    the rasterizer asks for 100 DPI, on every input and whether or not the
    stage then succeeds, while the blurring stage asks for the resolution it
    is given. *)
Theorem flattening_rasterizes_at_100_dpi `{Libraries}
    (w : world) (input_pdf tmp_folder output_folder orientation : string)
    (remove_original remove_artifacts : bool) :
  rendered (pdf_to_image_to_pdf input_pdf tmp_folder output_folder orientation
                                remove_original remove_artifacts w).2
    = rendered w ++ [(input_pdf, 100%nat)] /\
  forall (dpi : nat) kernel sigma,
    rendered (blur_pages_of_pdf input_pdf orientation tmp_folder output_folder
                                dpi kernel sigma remove_artifacts w).2
      = rendered w ++ [(input_pdf, dpi)].
Proof.
  split; [|intros dpi kernel sigma]; revert w.
  - unfold pdf_to_image_to_pdf.
    apply appends_bind; [apply appends_pdf_to_image|]. intros _.
    apply keeps_bind; [apply keeps_image_to_pdf, rendered_with_fs|]. intros _.
    apply keeps_bind; [apply keeps_merge_pdfs, rendered_with_fs|]. intros _.
    apply keeps_bind; [apply keeps_when, keeps_remove, rendered_with_fs|]. intros _.
    apply keeps_ret.
  - unfold blur_pages_of_pdf.
    apply appends_bind; [apply appends_pdf_to_image|]. intros _.
    apply keeps_bind; [apply keeps_image_to_pdf, rendered_with_fs|]. intros _.
    apply keeps_bind; [apply keeps_merge_pdfs, rendered_with_fs|]. intros _.
    apply keeps_ret.
Qed.

(** ** Watermarking: page count, order, overlay *)

Lemma PdfFileReader_inv path d w w' :
  PdfFileReader path w = (Ok d, w') ->
  w' = w /\ Os.read_file path w = (Ok (PdfFile d), w) /\ encrypted d = None.
Proof.
  unfold PdfFileReader. intros H.
  apply bind_ok_inv in H as (f & w1 & Hr & Hf).
  destruct (read_file_inv _ _ _ _ Hr) as [-> _].
  destruct f as [d'|img]; [|discriminate Hf].
  destruct (encrypted d') eqn:E; [discriminate Hf|]. by injection Hf as -> ->.
Qed.

Lemma PdfFileReader_ok path d w :
  Os.read_file path w = (Ok (PdfFile d), w) -> encrypted d = None ->
  PdfFileReader path w = (Ok d, w).
Proof.
  intros Hr He. unfold PdfFileReader. rewrite (bind_ok _ _ _ _ _ Hr). by rewrite He.
Qed.

(** C6. When the watermark file and the input can be read (neither is
    encrypted) and the watermark has a first page, the compositor returns,
    and the document it writes has as many pages as the input, in the order
    of the input: the i-th page has the box of the i-th page of the input,
    and its content is the content of that page followed by the content of
    the watermark page, which is so drawn over it. *)
Theorem watermark_keeps_pages
    (w : world) (input_pdf watermark output_folder : string) (remove_original : bool)
    (d stamp : pdf) (watermark_page : page) :
  PdfFileReader watermark w = (Ok stamp, w) ->
  pages stamp !! 0%nat = Some watermark_page ->
  PdfFileReader input_pdf w = (Ok d, w) ->
  exists w' output_pdf marked,
    add_watermark input_pdf watermark output_folder remove_original w = (Ok output_pdf, w') /\
    PdfFileReader output_pdf w' = (Ok marked, w') /\
    length (pages marked) = length (pages d) /\
    forall i p, pages d !! i = Some p ->
                pages marked !! i
                = Some (Page (mediabox p) (contents p ++ contents watermark_page)).
Proof.
  intros Hstamp Hpage Hd.
  destruct (PdfFileReader_inv _ _ _ _ Hd) as (_ & Hread & _).
  destruct (read_file_inv _ _ _ _ Hread) as (_ & ki & Hki & Hfile).
  destruct (stage_output_resolve input_pdf output_folder "_watermarked.pdf" ki)
    as (ko & Hko & Hne); [done|by eauto|done|].
  set (marked := Pdf ((fun p => mergePage p watermark_page) <$> pages d) ∅ None).
  assert (Hpages : length (pages marked) = length (pages d) /\
            forall i p, pages d !! i = Some p ->
                        pages marked !! i
                        = Some (Page (mediabox p) (contents p ++ contents watermark_page))).
  { split; [apply length_fmap|]. intros i p Hp. simpl.
    by rewrite list_lookup_fmap, Hp. }
  unfold add_watermark.
  rewrite (bind_ok _ _ _ _ _ Hstamp), Hpage, (bind_ok _ _ _ _ _ Hd).
  erewrite bind_ok by (apply watermark_loop; simpl; lia).
  rewrite drop_0, firstn_all. simpl app.
  change (file_name_of input_pdf +:+ "_watermarked" +:+ ".pdf")
    with (file_name_of input_pdf +:+ "_watermarked.pdf").
  erewrite bind_ok by (by apply write_file_ok).
  fold marked. set (w1 := with_fs _ _).
  assert (Hout : fs w1 !! ko = Some (PdfFile marked)) by apply lookup_insert_eq.
  destruct remove_original; simpl.
  - destruct (read_after_remove input_pdf _ ko (PdfFile marked) w1 Hko Hout ki Hki
                (not_eq_sym Hne)) as (w' & Hrm & Hrd).
    { subst w1. rewrite fs_with_fs, lookup_insert_ne by done. by rewrite Hfile. }
    exists w'. eexists. exists marked.
    rewrite (bind_ok _ _ _ _ _ Hrm). split; [reflexivity|].
    split; [by apply PdfFileReader_ok|done].
  - exists w1. eexists. exists marked. split; [reflexivity|].
    split; [|done]. apply PdfFileReader_ok; [|done]. by apply read_file_ok with ko.
Qed.

Lemma watermark_keeps_pages_witness :
  PdfFileReader "./watermarks/landscape_A4.pdf" Demo.start = (Ok Demo.stamp, Demo.start) /\
  pages Demo.stamp !! 0%nat = Some (Page A4 [Mark 99]) /\
  PdfFileReader "./sample_input/lecture1.pdf" Demo.start = (Ok Demo.lecture, Demo.start) /\
  exists w' output_pdf marked,
    add_watermark "./sample_input/lecture1.pdf" "./watermarks/landscape_A4.pdf"
                  "./sample_output" true Demo.start = (Ok output_pdf, w') /\
    PdfFileReader output_pdf w' = (Ok marked, w') /\
    length (pages marked) = length (pages Demo.lecture) /\
    forall i p, pages Demo.lecture !! i = Some p ->
                pages marked !! i = Some (Page (mediabox p) (contents p ++ [Mark 99])).
Proof.
  split; [reflexivity|]. split; [reflexivity|]. split; [reflexivity|].
  exact (watermark_keeps_pages Demo.start "./sample_input/lecture1.pdf"
           "./watermarks/landscape_A4.pdf" "./sample_output" true
           Demo.lecture Demo.stamp (Page A4 [Mark 99]) eq_refl eq_refl eq_refl).
Defined.

(** ** Merging an empty folder *)

(** C3, as the code has it. When no single-page document is found, the
    merger raises nothing: it writes a document without pages to the output
    path, and removes nothing. *)
Theorem merge_pdfs_of_nothing_writes_empty_document `{Libraries}
    (w : world) (input_folder path_to_output_pdf : string) (remove_artifacts : bool)
    (k : list string) :
  Os.glob (Os.path_join input_folder "*.pdf") w = (Ok [], w) ->
  Os.resolve_file path_to_output_pdf = Some k ->
  merge_pdfs input_folder path_to_output_pdf remove_artifacts w
    = (Ok tt, with_fs w (<[k := PdfFile (Pdf [] ∅ None)]> (fs w))).
Proof.
  intros Hglob Hout. unfold merge_pdfs.
  rewrite (bind_ok _ _ _ _ _ Hglob).
  change (sorted []) with (@nil string). simpl fold_each.
  unfold bind at 1. simpl.
  rewrite (bind_ok _ _ _ _ _ (write_file_ok _ _ _ _ Hout)).
  by destruct remove_artifacts.
Qed.

Lemma merge_pdfs_of_nothing_writes_empty_document_witness :
  @Os.glob Sample.libraries (Os.path_join "./tmp" "*.pdf") Demo.start
    = (Ok [], Demo.start) /\
  Os.resolve_file "./sample_output/lecture1_blurred.pdf"
    = Some ["sample_output"; "lecture1_blurred.pdf"] /\
  @merge_pdfs Sample.libraries "./tmp" "./sample_output/lecture1_blurred.pdf" true Demo.start
    = (Ok tt, with_fs Demo.start
                (<[ ["sample_output"; "lecture1_blurred.pdf"] := PdfFile (Pdf [] ∅ None) ]>
                   (fs Demo.start))).
Proof.
  split; [reflexivity|]. split; [reflexivity|].
  apply (@merge_pdfs_of_nothing_writes_empty_document Sample.libraries); reflexivity.
Defined.

(** C3, as stated, fails: with no [*.pdf] in the input folder the merger
    returns normally and leaves a document of zero pages at the output
    path. *)
Lemma merge_pdfs_of_nothing_raises_counterexample :
  @Os.glob Sample.libraries (Os.path_join "./tmp" "*.pdf") Demo.start
    = (Ok [], Demo.start) /\
  exists w',
    @merge_pdfs Sample.libraries "./tmp" "./sample_output/lecture1_blurred.pdf" false
                Demo.start = (Ok tt, w') /\
    PdfFileReader "./sample_output/lecture1_blurred.pdf" w' = (Ok (Pdf [] ∅ None), w').
Proof.
  split; [reflexivity|].
  exists (with_fs Demo.start
            (<[ ["sample_output"; "lecture1_blurred.pdf"] := PdfFile (Pdf [] ∅ None) ]>
               (fs Demo.start))).
  split.
  - unfold merge_pdfs.
    assert (Hglob : @Os.glob Sample.libraries (Os.path_join "./tmp" "*.pdf") Demo.start
                    = (Ok [], Demo.start)) by reflexivity.
    rewrite (bind_ok _ _ _ _ _ Hglob).
    change (sorted []) with (@nil string). simpl fold_each. unfold bind at 1. simpl.
    erewrite bind_ok; [|apply write_file_ok; reflexivity]. reflexivity.
  - apply PdfFileReader_ok; [|done].
    apply read_file_ok with ["sample_output"; "lecture1_blurred.pdf"];
      [reflexivity|apply lookup_insert_eq].
Qed.

(** ** The noise and blur filter *)


(** C7, as the code has it. On an array of three dimensions that is not
    empty and has at most four channels, for a standard deviation that is not
    negative and a kernel whose two sides are odd, the filter returns a
    raster of the height and width of its input, with the channels of its
    input unless there is one: then the result has two dimensions.  It
    touches no file, not the clock and not the record of rasterizer calls,
    but it draws from numpy's global generator and leaves it advanced; every
    run that starts from the same state of the generator returns the same
    raster. *)
Theorem blur_image_shape_and_effects `{Libraries}
    (w : world) (h wd c : nat) (px : list Z) (kernel : nat * nat) (sigma : Q) :
  size (Raster h wd c px) <> 0%nat -> (c <= 4)%nat ->
  (0 <= sigma)%Q ->
  Nat.odd kernel.1 = true -> Nat.odd kernel.2 = true ->
  exists blurred w',
    blur_image (Raster h wd c px) kernel sigma w = (Ok blurred, w') /\
    shape blurred = (if decide (c = 1%nat) then [h; wd] else [h; wd; c]) /\
    fs w' = fs w /\ clock w' = clock w /\ rendered w' = rendered w /\
    rng w' = (np_random_normal (rng w) 0 sigma (size (Raster h wd c px))).2 /\
    forall v, rng v = rng w ->
              (blur_image (Raster h wd c px) kernel sigma v).1 = Ok blurred.
Proof.
  intros Hsize Hc Hs Hk1 Hk2.
  destruct (gaussian_blur_odd
              (add_noise (Raster h wd c px)
                 (np_random_normal (rng w) 0 sigma (size (Raster h wd c px))).1)
              kernel sigma) as (blurred & Hblur & Hshape); [| |done|done|].
  - by rewrite size_add_noise.
  - by rewrite depth_add_noise.
  - exists blurred. eexists. split; [by apply blur_image_run|].
    split; [by rewrite Hshape, shape_add_noise|].
    repeat split. intros v Hv.
    rewrite (blur_image_run h wd c px kernel sigma v blurred); [done|done|].
    by rewrite Hv.
Qed.

Lemma blur_image_shape_and_effects_witness :
  size (Raster 1 1 3 [100; 0; 255]%Z) <> 0%nat /\ (3 <= 4)%nat /\ (0 <= 1)%Q /\
  Nat.odd (5, 5).1 = true /\ Nat.odd (5, 5).2 = true /\
  exists blurred w',
    @blur_image Sample.libraries (Raster 1 1 3 [100; 0; 255]%Z) (5, 5)%nat 1 Demo.start
      = (Ok blurred, w') /\
    shape blurred = [1; 1; 3]%nat /\
    fs w' = fs Demo.start /\ clock w' = clock Demo.start /\
    rendered w' = rendered Demo.start /\
    rng w' = (@np_random_normal Sample.libraries (rng Demo.start) 0 1
                (size (Raster 1 1 3 [100; 0; 255]%Z))).2 /\
    forall v, rng v = rng Demo.start ->
              (@blur_image Sample.libraries (Raster 1 1 3 [100; 0; 255]%Z) (5, 5)%nat 1 v).1
                = Ok blurred.
Proof.
  split; [discriminate|]. split; [lia|]. split; [discriminate|].
  split; [reflexivity|]. split; [reflexivity|].
  apply (@blur_image_shape_and_effects Sample.libraries Demo.start 1 1 3
           [100; 0; 255]%Z (5, 5)%nat 1); [discriminate|lia|discriminate|reflexivity..].
Defined.

(** C7, as stated, fails: two runs of the filter on the same image, kernel
    and standard deviation, one after the other, return different rasters,
    and the first run has changed the state of the generator. *)
Lemma blur_image_pure_counterexample :
  let page := Raster 1 1 3 [100; 0; 255]%Z in
  let w := World ∅ 0 0 [] in
  exists first second w1 w2,
    @blur_image Sample.libraries page (5, 5)%nat 1 w = (Ok first, w1) /\
    @blur_image Sample.libraries page (5, 5)%nat 1 w1 = (Ok second, w2) /\
    first <> second /\ rng w1 <> rng w.
Proof.
  simpl. do 4 eexists. split; [vm_compute; reflexivity|].
  split; [vm_compute; reflexivity|]. split; [|discriminate]. discriminate.
Qed.

(** C5, at the failing input. A channel of value 100 that receives the noise
    sample -2 should become 98; the sample is cast to [uint8] before it is
    added (254 on x86), the saturated sum is 255, and that is what the
    filter returns for the channel. *)
Theorem noise_stage_on_a_negative_sample :
  (@np_random_normal Sample.libraries 0 0 1 1).1 = [(-4 # 2)%Q] /\
  saturate_cast (100 + -2) = 98%Z /\
  pixels (@add_noise Sample.libraries (Raster 1 1 1 [100%Z]) [(-4 # 2)%Q]) = [255%Z] /\
  (@blur_image Sample.libraries (Raster 1 1 1 [100%Z]) (5, 5)%nat 1 (World ∅ 0 0 [])).1
    = Ok (Raster2D 1 1 [255%Z]).
Proof. repeat split. Qed.

(** ** Archiving *)

Lemma rename_ok src dst ks kd f w :
  Os.resolve_file src = Some ks -> Os.resolve_file dst = Some kd ->
  fs w !! ks = Some f ->
  Os.rename src dst w = (Ok tt, with_fs w (<[kd := f]> (delete ks (fs w)))).
Proof.
  intros Hs Hd Hf. unfold Os.rename. rewrite Hs, Hd.
  unfold bind, get_fs, set_fs. by rewrite Hf.
Qed.

Lemma path_exists_run p k w :
  Os.resolve_file p = Some k ->
  Os.path_exists p w = (Ok (bool_decide (is_Some (fs w !! k))), w).
Proof. intros Hk. unfold Os.path_exists. by rewrite Hk. Qed.

Lemma archive_name_not_skipped fn : ~ Os.skipped (fn +:+ ".pdf").
Proof.
  intros [E|E].
  - destruct fn; discriminate E.
  - destruct fn as [|a [|b fn]]; discriminate E.
Qed.

Lemma postfix_no_sep (rnd : Z) :
  (0 <= rnd < 100)%Z ->
  Str.contains Os.sep ("_exists_" +:+ pretty rnd +:+ ".pdf") = false.
Proof.
  intros Hr.
  assert (Hall : forallb (fun n : nat =>
            negb (Str.contains Os.sep ("_exists_" +:+ pretty (Z.of_nat n) +:+ ".pdf")))
            (seq 0 100) = true) by (vm_compute; reflexivity).
  rewrite forallb_forall in Hall.
  specialize (Hall (Z.to_nat rnd)). rewrite Z2Nat.id in Hall by lia.
  apply negb_true_iff, Hall, in_seq. lia.
Qed.

Section Archiving.

Context {L : Libraries}.

(** The archive when the target name is taken: the file goes to the name
    with the random postfix.  The file at the target name stays, and so does
    every file other than the one that had the postfixed name. *)
Lemma move_processed_pdf_taken w input_pdf processed_folder ki f old :
  Os.resolve_file input_pdf = Some ki ->
  fs w !! ki = Some f ->
  let kt := Os.resolve processed_folder ++ [file_name_of input_pdf +:+ ".pdf"] in
  let rnd := (np_random_randint (rng w) 0 100).1 in
  let ks := Os.resolve processed_folder
            ++ [file_name_of input_pdf +:+ "_exists_" +:+ pretty rnd +:+ ".pdf"] in
  fs w !! kt = Some old ->
  ki <> kt ->
  exists w',
    move_processed_pdf input_pdf processed_folder w = (Ok tt, w') /\
    fs w' = <[ks := f]> (delete ki (fs w)) /\
    ks <> kt /\
    fs w' !! kt = Some old /\
    fs w' !! ks = Some f.
Proof.
  intros Hki Hf kt rnd ks Hold Hne.
  assert (Hrange : (0 <= rnd < 100)%Z) by (apply np_random_randint_range; lia).
  assert (Hkt : Os.resolve_file (Os.path_join processed_folder (file_name_of input_pdf +:+ ".pdf"))
                = Some kt).
  { apply resolve_file_join; [|apply archive_name_not_skipped].
    by apply stage_name_no_sep. }
  assert (Hks : Os.resolve_file
                  (Os.path_join processed_folder
                     (file_name_of input_pdf +:+ "_exists_" +:+ pretty rnd +:+ ".pdf"))
                = Some ks).
  { apply resolve_file_join.
    - apply stage_name_no_sep. by apply postfix_no_sep.
    - apply (stage_name_not_skipped _ ("xists_" +:+ pretty rnd +:+ ".pdf") "e"). }
  assert (Hst : ks <> kt).
  { intros E. apply app_inv_head in E. injection E as E.
    apply String.app_inj in E. discriminate E. }
  unfold move_processed_pdf.
  rewrite (bind_ok _ _ _ _ _ (path_exists_run _ _ _ Hkt)).
  fold kt. rewrite Hold. rewrite bool_decide_eq_true_2 by eauto.
  unfold random_randint, bind at 1.
  destruct (decide (0 < 100)%Z) as [_|Hn]; [|lia].
  subst rnd. destruct (np_random_randint (rng w) 0 100) as [r s'] eqn:Er. simpl in *.
  erewrite rename_ok; [|exact Hki|exact Hks|exact Hf].
  eexists. split; [reflexivity|]. simpl.
  split; [done|]. split; [done|]. split.
  - rewrite lookup_insert_ne, lookup_delete_ne by done. done.
  - apply lookup_insert_eq.
Qed.

End Archiving.

(** C2, at the failing input. The archive holds [lecture1.pdf] and, from an
    earlier collision, [lecture1_exists_7.pdf]; the generator draws 7.
    Archiving [lecture1.pdf] again returns normally, and the file that had
    the postfixed name is gone: [os.rename] has put the new file in its
    place. *)
Theorem archive_replaces_file_with_drawn_postfix :
  let older := Pdf [Page A4 [Mark 10]] ∅ None in
  let old := Pdf [Page A4 [Mark 20]] ∅ None in
  let new := Demo.lecture in
  let w :=
    World (<[ ["sample_input"; "lecture1.pdf"] := PdfFile new ]>
             (<[ ["processed"; "lecture1.pdf"] := PdfFile old ]>
                (<[ ["processed"; "lecture1_exists_7.pdf"] := PdfFile older ]> ∅)))
          7 0 [] in
  (@np_random_randint Sample.libraries (rng w) 0 100).1 = 7%Z /\
  fs w !! ["processed"; "lecture1_exists_7.pdf"] = Some (PdfFile older) /\
  exists w',
    @move_processed_pdf Sample.libraries "./sample_input/lecture1.pdf" "./processed" w
      = (Ok tt, w') /\
    fs w' !! ["processed"; "lecture1.pdf"] = Some (PdfFile old) /\
    fs w' !! ["processed"; "lecture1_exists_7.pdf"] = Some (PdfFile new) /\
    forall k, fs w' !! k <> Some (PdfFile older).
Proof.
  intros older old new w.
  split; [reflexivity|].
  split. { subst w. cbn [fs]. rewrite !lookup_insert_ne by done. apply lookup_insert_eq. }
  destruct (@move_processed_pdf_taken Sample.libraries w
              "./sample_input/lecture1.pdf" "./processed"
              ["sample_input"; "lecture1.pdf"] (PdfFile new) (PdfFile old))
    as (w' & Hrun & Hfs & _ & Hold & Hnew).
  - reflexivity.
  - apply lookup_insert_eq.
  - subst w. cbn [fs]. rewrite lookup_insert_ne by done. apply lookup_insert_eq.
  - done.
  - exists w'. split; [exact Hrun|]. split; [exact Hold|]. split; [exact Hnew|].
    intros k. rewrite Hfs.
    change (Os.resolve "./processed" ++
            [file_name_of "./sample_input/lecture1.pdf" +:+ "_exists_" +:+
             pretty (@np_random_randint Sample.libraries (rng w) 0 100).1 +:+ ".pdf"])
      with ["processed"; "lecture1_exists_7.pdf"].
    destruct (decide (k = ["processed"; "lecture1_exists_7.pdf"])) as [->|Hk1].
    { rewrite lookup_insert_eq. discriminate. }
    rewrite lookup_insert_ne by done.
    destruct (decide (k = ["sample_input"; "lecture1.pdf"])) as [->|Hk2].
    { rewrite lookup_delete_eq. discriminate. }
    rewrite lookup_delete_ne by done. subst w. cbn [fs].
    rewrite lookup_insert_ne by done.
    destruct (decide (k = ["processed"; "lecture1.pdf"])) as [->|Hk3].
    { rewrite lookup_insert_eq. discriminate. }
    rewrite !lookup_insert_ne, lookup_empty by done. discriminate.
Qed.

(** ** Rasterizing: one image per page, and the order of the listing *)

Section Listing.

Context {L : Libraries}.

(** The [*.png] entries of the output folder after the pages are written,
    when there was none before: the images of the pages, in some order. *)
Lemma listing_after_writes (files files' : gmap (list string) file)
    (output_folder : string) (n : nat) (imgs : list raster) :
  length imgs = n ->
  filter (fun x => Os.visible "*.png" x && Os.fnmatch "*.png" x = true)
         (elements (Os.listdir files (Os.dirname (Os.path_join output_folder "*.png")))) = [] ->
  files' = write_all (zip (image_key output_folder <$> seq 0 n) (PngFile <$> imgs)) files ->
  filter (fun x => Os.visible "*.png" x && Os.fnmatch "*.png" x = true)
         (elements (Os.listdir files' (Os.dirname (Os.path_join output_folder "*.png"))))
  ≡ₚ png_name <$> seq 0 n.
Proof.
  intros Hlen Hnone ->.
  set (d := Os.dirname (Os.path_join output_folder "*.png")) in *.
  assert (Hd : Os.resolve d = Os.resolve output_folder) by (by apply resolve_dirname_join).
  set (kvs := zip (image_key output_folder <$> seq 0 n) (PngFile <$> imgs)).
  assert (Hkeys : kvs.*1 = image_key output_folder <$> seq 0 n).
  { apply fst_zip. by rewrite !length_fmap, length_seq, Hlen. }
  apply NoDup_Permutation.
  - apply NoDup_filter, NoDup_elements.
  - apply NoDup_fmap_2; [apply _|apply NoDup_seq].
  - intros x. rewrite list_elem_of_filter, elem_of_elements, elem_of_listdir, Hd.
    rewrite <- elem_of_dom, dom_write_all, Hkeys, elem_of_union, elem_of_list_to_set.
    rewrite list_elem_of_fmap. split.
    + intros [HP [(j & Hj & Hin) | Hold]].
      * unfold image_key in Hj. apply app_inv_head in Hj.
        assert (x = png_name j) as -> by congruence.
        by apply list_elem_of_fmap_2.
      * exfalso. assert (Hin : x ∈ @nil string); [|by apply elem_of_nil in Hin].
        rewrite <- Hnone. apply list_elem_of_filter. split; [done|].
        apply elem_of_elements, elem_of_listdir. rewrite Hd. by apply elem_of_dom.
    + intros (j & -> & Hj)%list_elem_of_fmap. split.
      * by rewrite png_name_visible, png_name_matches.
      * left. exists j. done.
Qed.

End Listing.

Section Listed.

Context {L : Libraries}.

(** What rasterizing into a folder without images leaves there. *)
Lemma pdf_to_image_run (w : world) (path_to_pdf output_folder : string) (dpi : nat)
    (blur : bool) (kernel : nat * nat) (sigma : Q) (d : pdf) :
  Os.read_file path_to_pdf w = (Ok (PdfFile d), w) ->
  dpi <> 0%nat ->
  (blur = true ->
   (0 <= sigma)%Q /\ Nat.odd kernel.1 = true /\ Nat.odd kernel.2 = true) ->
  Os.has_magic output_folder = false ->
  Os.glob (Os.path_join output_folder "*.png") w = (Ok [], w) ->
  exists w' listing,
    pdf_to_image path_to_pdf output_folder dpi blur kernel sigma w = (Ok tt, w') /\
    (forall j, (j < length (pages d))%nat ->
       exists img,
         fs w' !! image_key output_folder j = Some (PngFile img) /\
         (blur = false -> pdf2image_render d dpi !! j = Some img)) /\
    Os.glob (Os.path_join output_folder "*.png") w' = (Ok listing, w') /\
    listing ≡ₚ Os.path_join (Os.dirname (Os.path_join output_folder "*.png"))
                 <$> (png_name <$> seq 0 (length (pages d))).
Proof.
  intros Hread Hdpi Hblur Hfolder Hnone. set (n := length (pages d)).
  set (pattern := Os.path_join output_folder "*.png") in *.
  assert (Hplain : Os.plain pattern = true) by (by apply plain_join).
  assert (Hbase : Os.basename pattern = "*.png") by (by apply basename_join).
  set (dir := Os.dirname pattern).
  rewrite glob_run in Hnone by done. injection Hnone as Hnone.
  apply fmap_nil_inv in Hnone. rewrite Hbase in Hnone. fold dir in Hnone.
  destruct (pdf_to_image_world w path_to_pdf output_folder dpi blur kernel sigma d
              Hread Hdpi Hblur)
    as (w' & imgs & Hrun & Hall & Hfs & _).
  assert (Hlen : length imgs = n).
  { rewrite (Forall2_length _ _ _ Hall). by apply pdf2image_render_length. }
  rewrite Hlen in Hfs.
  set (kvs := zip (image_key output_folder <$> seq 0 n) (PngFile <$> imgs)) in Hfs.
  assert (Hkeys : kvs.*1 = image_key output_folder <$> seq 0 n).
  { apply fst_zip. by rewrite !length_fmap, length_seq, Hlen. }
  assert (Hnd : NoDup kvs.*1).
  { rewrite Hkeys. apply NoDup_fmap_2; [apply _|apply NoDup_seq]. }
  pose proof (listing_after_writes (fs w) (fs w') output_folder n imgs Hlen Hnone Hfs)
    as Hperm.
  fold pattern dir in Hperm.
  set (names := filter _ _) in Hperm.
  exists w', (Os.path_join dir <$> names).
  split; [exact Hrun|]. split; [|split].
  - intros j Hj.
    destruct (lookup_lt_is_Some_2 imgs j ltac:(lia)) as [img Himg].
    exists img. split.
    + rewrite Hfs. apply write_all_lookup with j; [done|].
      subst kvs. rewrite lookup_zip_with.
      rewrite !list_lookup_fmap, Himg, lookup_seq_lt by lia. done.
    + intros ->. destruct (Forall2_lookup_l _ _ _ _ _ Hall Himg) as (page & Hpage & Himg').
      simpl in Himg'. by subst.
  - rewrite glob_run, Hbase by done. done.
  - by rewrite Hperm.
Qed.

End Listed.

(** Sorting does not depend on the order the listing came in. *)
Lemma sorted_Permutation (l1 l2 : list string) : l1 ≡ₚ l2 -> sorted l1 = sorted l2.
Proof.
  intros Hp. apply (StronglySorted_unique String.le).
  - apply StronglySorted_merge_sort; apply _.
  - apply StronglySorted_merge_sort; apply _.
  - unfold sorted. by rewrite !merge_sort_Permutation.
Qed.

(** C4, as the code has it. Rasterizing a document that can be read and is
    not encrypted, at a resolution that is not zero, with a kernel of odd
    sides and a standard deviation that is not negative when it blurs, into
    a folder whose name has no wildcard of [glob] and that holds no image
    yet, returns and leaves one image per
    page there, the image of page [j] under the name [_j.png], counted from
    zero.  The sorted listing of the folder, as [image_to_pdf] takes it, has
    as many entries as the document has pages; its [j]-th entry is the image
    of page [j], for every page, exactly when the document has at most 10
    pages. *)
Theorem rasterized_pages_and_listing_order `{Libraries}
    (w : world) (path_to_pdf output_folder : string) (dpi : nat) (blur : bool)
    (kernel : nat * nat) (sigma : Q) (d : pdf) :
  PdfFileReader path_to_pdf w = (Ok d, w) ->
  dpi <> 0%nat ->
  (blur = true ->
   (0 <= sigma)%Q /\ Nat.odd kernel.1 = true /\ Nat.odd kernel.2 = true) ->
  Os.has_magic output_folder = false ->
  Os.glob (Os.path_join output_folder "*.png") w = (Ok [], w) ->
  let n := length (pages d) in
  let png_output (j : nat) :=
    Os.path_join "." (Os.path_join output_folder ("_" +:+ pretty j +:+ ".png")) in
  exists w' listing,
    pdf_to_image path_to_pdf output_folder dpi blur kernel sigma w = (Ok tt, w') /\
    (forall j, (j < n)%nat ->
       exists img, Os.read_file (png_output j) w' = (Ok (PngFile img), w') /\
                   (blur = false -> pdf2image_render d dpi !! j = Some img)) /\
    Os.glob (Os.path_join output_folder "*.png") w' = (Ok listing, w') /\
    length listing = n /\
    ((forall j, (j < n)%nat ->
        exists p, sorted listing !! j = Some p /\
                  Os.resolve_file p = Os.resolve_file (png_output j))
     <-> (n <= 10)%nat).
Proof.
  intros Hd Hdpi Hblur Hfolder Hnone n png_output.
  destruct (PdfFileReader_inv _ _ _ _ Hd) as (_ & Hread & _).
  destruct (pdf_to_image_run w path_to_pdf output_folder dpi blur kernel sigma d
              Hread Hdpi Hblur Hfolder Hnone)
    as (w' & listing & Hrun & Hfiles & Hglob & Hperm).
  fold n in Hfiles, Hperm.
  set (dir := Os.dirname (Os.path_join output_folder "*.png")) in *.
  exists w', listing.
  split; [exact Hrun|]. split; [|split; [exact Hglob|split]].
  - intros j Hj. destruct (Hfiles j Hj) as (img & Himg & Hb).
    exists img. split; [|exact Hb].
    apply read_file_ok with (image_key output_folder j); [apply png_output_resolve|done].
  - by rewrite Hperm, !length_fmap, length_seq.
  - destruct (path_join_prefix dir) as [pre Hpre].
    set (target := (fun x => pre +:+ x) <$> (png_name <$> seq 0 n)).
    assert (Htarget : listing ≡ₚ target).
    { rewrite Hperm. unfold target. rewrite <- !list_fmap_compose.
      assert (Hmap : Os.path_join dir ∘ png_name <$> seq 0 n
                     = (fun x => pre +:+ x) ∘ png_name <$> seq 0 n).
      { apply list_fmap_ext. intros _ j _. simpl. by apply Hpre. }
      by rewrite Hmap. }
    assert (Hsorted : StronglySorted String.le (sorted listing)).
    { apply StronglySorted_merge_sort; apply _. }
    assert (Hsp : sorted listing ≡ₚ target).
    { unfold sorted. by rewrite merge_sort_Permutation. }
    assert (Hkey : forall j,
               Os.resolve_file (pre +:+ png_name j) = Os.resolve_file (png_output j)).
    { intros j. rewrite <- Hpre by done. unfold png_output.
      rewrite png_output_resolve. apply listed_resolve. }
    split.
    + intros Horder. destruct (decide (n <= 10)%nat) as [|Hn]; [done|]. exfalso.
      assert (Hat : forall j, (j < n)%nat ->
                 sorted listing !! j = Some (pre +:+ png_name j)).
      { intros j Hj. destruct (Horder j Hj) as (p & Hp & Hres).
        rewrite Hp. f_equal.
        assert (Hin : p ∈ target).
        { rewrite <- Hsp. by apply list_elem_of_lookup_2 in Hp. }
        unfold target in Hin. rewrite <- list_fmap_compose in Hin.
        apply list_elem_of_fmap in Hin as (j' & -> & _). simpl in *.
        rewrite !Hkey in Hres. unfold png_output in Hres.
        rewrite !png_output_resolve in Hres. injection Hres as Hres.
        by apply (inj (image_key output_folder)) in Hres as ->. }
      apply (png_2_after_10 pre).
      apply (StronglySorted_lookup_le String.le _ 2 10 _ _ Hsorted);
        [lia|apply Hat; lia|apply Hat; lia].
    + intros Hn j Hj.
      assert (Heq : sorted listing = target).
      { apply (StronglySorted_unique String.le); [done| |done].
        apply prefixed_sorted. by apply png_names_sorted. }
      exists (pre +:+ png_name j). split; [|apply Hkey].
      rewrite Heq. unfold target.
      rewrite !list_lookup_fmap, lookup_seq_lt by lia. done.
Qed.

Lemma rasterized_pages_and_listing_order_witness :
  PdfFileReader "./sample_input/lecture1.pdf" Demo.start = (Ok Demo.lecture, Demo.start) /\
  100%nat <> 0%nat /\
  (true = true ->
   (0 <= 1 # 2)%Q /\ Nat.odd (5, 5).1 = true /\ Nat.odd (5, 5).2 = true) /\
  Os.has_magic "./tmp" = false /\
  @Os.glob Sample.libraries (Os.path_join "./tmp" "*.png") Demo.start
    = (Ok [], Demo.start) /\
  exists w' listing,
    @pdf_to_image Sample.libraries "./sample_input/lecture1.pdf" "./tmp" 100 true
                  (5, 5)%nat (1 # 2) Demo.start = (Ok tt, w') /\
    (forall j, (j < length (pages Demo.lecture))%nat ->
       exists img,
         Os.read_file (Os.path_join "." (Os.path_join "./tmp" ("_" +:+ pretty j +:+ ".png"))) w'
           = (Ok (PngFile img), w') /\
         (true = false -> @pdf2image_render Sample.libraries Demo.lecture 100 !! j = Some img)) /\
    @Os.glob Sample.libraries (Os.path_join "./tmp" "*.png") w' = (Ok listing, w') /\
    length listing = length (pages Demo.lecture) /\
    ((forall j, (j < length (pages Demo.lecture))%nat ->
        exists p, sorted listing !! j = Some p /\
                  Os.resolve_file p
                  = Os.resolve_file
                      (Os.path_join "." (Os.path_join "./tmp" ("_" +:+ pretty j +:+ ".png"))))
     <-> (length (pages Demo.lecture) <= 10)%nat).
Proof.
  assert (Hblur : true = true ->
                  (0 <= 1 # 2)%Q /\ Nat.odd (5, 5).1 = true /\ Nat.odd (5, 5).2 = true).
  { intros _. split; [discriminate|]. split; reflexivity. }
  assert (Hdpi : 100%nat <> 0%nat) by discriminate.
  split; [reflexivity|]. split; [exact Hdpi|]. split; [exact Hblur|].
  split; [reflexivity|]. split; [reflexivity|].
  exact (@rasterized_pages_and_listing_order Sample.libraries Demo.start
           "./sample_input/lecture1.pdf" "./tmp" 100 true (5, 5)%nat (1 # 2) Demo.lecture
           eq_refl Hdpi Hblur eq_refl eq_refl).
Defined.

(** C4, as stated, fails at ten pages: the page count is not under 10, and
    yet the sorted listing of the folder is in page order. *)
Lemma listing_order_only_under_10_counterexample :
  length (pages (Long.numbered 10)) = 10%nat /\
  ~ (length (pages (Long.numbered 10)) < 10)%nat /\
  exists w' listing,
    @pdf_to_image Sample.libraries "./sample_input/notes.pdf" "./tmp" 100 false
                  (5, 5)%nat 1 (Long.start 10) = (Ok tt, w') /\
    @Os.glob Sample.libraries (Os.path_join "./tmp" "*.png") w' = (Ok listing, w') /\
    sorted listing
    = ["./tmp/_0.png"; "./tmp/_1.png"; "./tmp/_2.png"; "./tmp/_3.png"; "./tmp/_4.png";
       "./tmp/_5.png"; "./tmp/_6.png"; "./tmp/_7.png"; "./tmp/_8.png"; "./tmp/_9.png"].
Proof.
  split; [reflexivity|]. split; [simpl; lia|].
  destruct (@pdf_to_image_run Sample.libraries (Long.start 10) "./sample_input/notes.pdf"
              "./tmp" 100 false (5, 5)%nat 1 (Long.numbered 10))
    as (w' & listing & Hrun & _ & Hglob & Hperm);
    [reflexivity|discriminate|discriminate|reflexivity|reflexivity|].
  exists w', listing. split; [exact Hrun|]. split; [exact Hglob|].
  rewrite (sorted_Permutation _ _ Hperm). vm_compute. reflexivity.
Qed.

(** At eleven pages the listing is out of page order: [_10.png] comes third. *)
Example listing_of_eleven_pages :
  exists w' listing,
    @pdf_to_image Sample.libraries "./sample_input/notes.pdf" "./tmp" 100 false
                  (5, 5)%nat 1 (Long.start 11) = (Ok tt, w') /\
    @Os.glob Sample.libraries (Os.path_join "./tmp" "*.png") w' = (Ok listing, w') /\
    sorted listing
    = ["./tmp/_0.png"; "./tmp/_1.png"; "./tmp/_10.png"; "./tmp/_2.png"; "./tmp/_3.png";
       "./tmp/_4.png"; "./tmp/_5.png"; "./tmp/_6.png"; "./tmp/_7.png"; "./tmp/_8.png";
       "./tmp/_9.png"].
Proof.
  destruct (@pdf_to_image_run Sample.libraries (Long.start 11) "./sample_input/notes.pdf"
              "./tmp" 100 false (5, 5)%nat 1 (Long.numbered 11))
    as (w' & listing & Hrun & _ & Hglob & Hperm);
    [reflexivity|discriminate|discriminate|reflexivity|reflexivity|].
  exists w', listing. split; [exact Hrun|]. split; [exact Hglob|].
  rewrite (sorted_Permutation _ _ Hperm). vm_compute. reflexivity.
Qed.


(** * Further properties of the functions *)

(** ** The page compositor: [set_page], [draw_image], [canvas.save] *)

(** X1. An image put on a page as [image_to_pdf] does it becomes a document of
    one page; the page is A4, turned when the orientation is ['landscape']
    and upright for every other string, and the image is stretched over the
    whole of it. *)
Theorem composed_page_is_filled_by_image
    (name orientation image : string) (img : raster) (k : list string) (w : world) :
  Os.read_file image w = (Ok (PngFile img), w) ->
  Os.resolve_file name = Some k ->
  let size := if String.eqb orientation "landscape" then (A4.2, A4.1) else A4 in
  (let* canvas_ := draw_image (set_page name orientation) image orientation in
   canvas_save canvas_) w
  = (Ok tt,
     with_fs w (<[k := PdfFile (Pdf [Page size [DrawImage img 0 0 size.1 size.2]] ∅ None)]>
                  (fs w))).
Proof.
  intros Hread Hk. unfold draw_image, set_page, drawImage.
  destruct (String.eqb orientation "landscape"); simpl;
    rewrite (bind_ok _ _ _ _ _ (bind_ok _ _ _ _ _ Hread)); simpl;
    unfold canvas_save; simpl; by rewrite (write_file_ok _ _ _ _ Hk).
Qed.

(** ** The noise stage *)

Section Noise.

Context {L : Libraries}.

(** X2. Whatever the samples are, a channel of the noisy image lies between the
    channel of the image and 255: the noise stage only brightens. *)
Theorem noisy_channel_bounds (img : raster) (gauss : list Q) (i : nat) (x y : Z) :
  pixels img !! i = Some x ->
  (0 <= x <= 255)%Z ->
  pixels (add_noise img gauss) !! i = Some y ->
  (x <= y <= 255)%Z.
Proof.
  intros Hx Hr Hy. apply add_noise_pixel in Hy as (x' & g & Hx' & _ & ->).
  rewrite Hx in Hx'. injection Hx' as <-.
  pose proof (np_astype_uint8_range g). unfold saturate_cast. lia.
Qed.

Lemma Qfloor_small (g : Q) : (0 <= g)%Q -> (g < 1)%Q -> Qfloor g = 0%Z.
Proof.
  intros H0 H1.
  assert (Hlo : (0 <= Qfloor g)%Z) by (apply (Qfloor_resp_le 0 g H0)).
  assert (Hhi : (Qfloor g < 1)%Z).
  { rewrite Zlt_Qlt. apply Qle_lt_trans with g; [apply Qfloor_le|exact H1]. }
  lia.
Qed.

(** X3. A sample that lies in the range of [uint8] is truncated and added with
    saturation; in particular a sample in [0, 1) leaves the channel as it
    is. *)
Theorem noise_in_range_is_truncated_and_added
    (img : raster) (gauss : list Q) (i : nat) (x : Z) (g : Q) :
  pixels img !! i = Some x ->
  gauss !! i = Some g ->
  (0 <= x <= 255)%Z ->
  (0 <= g)%Q -> (g < 256)%Q ->
  pixels (add_noise img gauss) !! i = Some (Z.min 255 (x + Qfloor g)) /\
  ((g < 1)%Q -> pixels (add_noise img gauss) !! i = Some x).
Proof.
  intros Hx Hg Hr H0 H256.
  assert (Hy : pixels (add_noise img gauss) !! i
               = Some (saturate_cast (x + np_astype_uint8 g))).
  { unfold add_noise. rewrite pixels_cv2_add, pixels_with_pixels.
    rewrite lookup_zip_with, Hx. simpl. by rewrite list_lookup_fmap, Hg. }
  rewrite np_astype_uint8_trunc in Hy by done.
  assert (Hfl : (0 <= Qfloor g)%Z) by (apply (Qfloor_resp_le 0 g H0)).
  split.
  - rewrite Hy. f_equal. unfold saturate_cast. lia.
  - intros H1. rewrite Hy, (Qfloor_small g H0 H1). f_equal.
    unfold saturate_cast. lia.
Qed.

End Noise.

Lemma noisy_channel_bounds_witness :
  pixels (Raster 1 1 3 [100; 0; 255]%Z) !! 0%nat = Some 100%Z /\
  (0 <= 100 <= 255)%Z /\
  pixels (@add_noise Sample.libraries (Raster 1 1 3 [100; 0; 255]%Z) [-4 # 2; 2 # 2; -3 # 2]%Q)
    !! 0%nat = Some 255%Z /\
  (100 <= 255 <= 255)%Z.
Proof.
  split; [reflexivity|]. split; [lia|]. split; [reflexivity|].
  apply (@noisy_channel_bounds Sample.libraries (Raster 1 1 3 [100; 0; 255]%Z)
           [-4 # 2; 2 # 2; -3 # 2]%Q 0 100 255); [reflexivity|lia|reflexivity].
Defined.

Lemma noise_in_range_is_truncated_and_added_witness :
  pixels (Raster 1 1 3 [100; 0; 255]%Z) !! 1%nat = Some 0%Z /\
  [-4 # 2; 3 # 2; -3 # 2]%Q !! 1%nat = Some (3 # 2)%Q /\
  (0 <= 0 <= 255)%Z /\ (0 <= 3 # 2)%Q /\ (3 # 2 < 256)%Q /\
  pixels (@add_noise Sample.libraries (Raster 1 1 3 [100; 0; 255]%Z) [-4 # 2; 3 # 2; -3 # 2]%Q)
    !! 1%nat = Some (Z.min 255 (0 + Qfloor (3 # 2))).
Proof.
  split; [reflexivity|]. split; [reflexivity|]. split; [lia|].
  split; [discriminate|]. split; [reflexivity|].
  apply (@noise_in_range_is_truncated_and_added Sample.libraries
           (Raster 1 1 3 [100; 0; 255]%Z) [-4 # 2; 3 # 2; -3 # 2]%Q 1 0 (3 # 2));
    [reflexivity|reflexivity|lia|discriminate|reflexivity].
Defined.

Lemma composed_page_is_filled_by_image_witness :
  let w := World (<[ ["tmp"; "_0.png"] := PngFile (Raster 1 1 3 [100; 0; 255]%Z) ]> ∅) 5 0 [] in
  Os.read_file "./tmp/_0.png" w = (Ok (PngFile (Raster 1 1 3 [100; 0; 255]%Z)), w) /\
  Os.resolve_file "./tmp/tmp_0.pdf" = Some ["tmp"; "tmp_0.pdf"] /\
  (let* canvas_ := draw_image (set_page "./tmp/tmp_0.pdf" "landscape") "./tmp/_0.png" "landscape" in
   canvas_save canvas_) w
  = (Ok tt,
     with_fs w (<[ ["tmp"; "tmp_0.pdf"] :=
                    PdfFile (Pdf [Page (A4.2, A4.1)
                                    [DrawImage (Raster 1 1 3 [100; 0; 255]%Z) 0 0 A4.2 A4.1]]
                                 ∅ None) ]>
                  (fs w))).
Proof.
  intros w. split; [reflexivity|]. split; [reflexivity|].
  apply (composed_page_is_filled_by_image "./tmp/tmp_0.pdf" "landscape" "./tmp/_0.png");
    reflexivity.
Defined.

(** ** The watermark compositor *)

(** X4. A watermark document without pages makes [getPage(0)] fail: the
    compositor raises [IndexError] before it reads the input, and no file is
    written or removed. *)
Theorem add_watermark_without_watermark_page
    (w : world) (input_pdf watermark output_folder : string) (remove_original : bool)
    (stamp : pdf) :
  PdfFileReader watermark w = (Ok stamp, w) ->
  pages stamp = [] ->
  add_watermark input_pdf watermark output_folder remove_original w = (Raise IndexError, w).
Proof.
  intros Hstamp Hnil. unfold add_watermark.
  rewrite (bind_ok _ _ _ _ _ Hstamp), Hnil. done.
Qed.

Lemma add_watermark_without_watermark_page_witness :
  let w := with_fs Demo.start
             (<[ ["watermarks"; "blank.pdf"] := PdfFile (Pdf [] ∅ None) ]> (fs Demo.start)) in
  PdfFileReader "./watermarks/blank.pdf" w = (Ok (Pdf [] ∅ None), w) /\
  pages (Pdf [] ∅ None) = [] /\
  add_watermark "./sample_input/lecture1.pdf" "./watermarks/blank.pdf" "./sample_output" true w
    = (Raise IndexError, w).
Proof.
  intros w. split; [reflexivity|]. split; [reflexivity|].
  apply (add_watermark_without_watermark_page w _ _ _ _ (Pdf [] ∅ None)); reflexivity.
Defined.

(** The world a successful run of the watermark compositor leaves. *)
Lemma add_watermark_run
    (w : world) (input_pdf watermark output_folder : string) (remove_original : bool)
    (d stamp : pdf) (watermark_page : page) (ki : list string) :
  PdfFileReader watermark w = (Ok stamp, w) ->
  pages stamp !! 0%nat = Some watermark_page ->
  PdfFileReader input_pdf w = (Ok d, w) ->
  Os.resolve_file input_pdf = Some ki ->
  let output_pdf := Os.path_join output_folder (file_name_of input_pdf +:+ "_watermarked.pdf") in
  let marked :=
    Pdf ((fun p => Page (mediabox p) (contents p ++ contents watermark_page)) <$> pages d)
        ∅ None in
  exists ko,
    Os.resolve_file output_pdf = Some ko /\ ko <> ki /\
    add_watermark input_pdf watermark output_folder remove_original w
    = (Ok output_pdf,
       with_fs w (if remove_original
                  then delete ki (<[ko := PdfFile marked]> (fs w))
                  else <[ko := PdfFile marked]> (fs w))).
Proof.
  intros Hstamp Hpage Hd Hki output_pdf marked.
  destruct (PdfFileReader_inv _ _ _ _ Hd) as (_ & Hread & _).
  destruct (read_file_inv _ _ _ _ Hread) as (_ & ki' & Hki' & Hfile).
  rewrite Hki in Hki'. injection Hki' as <-.
  destruct (stage_output_resolve input_pdf output_folder "_watermarked.pdf" ki)
    as (ko & Hko & Hne); [done|by eauto|done|].
  exists ko. split; [exact Hko|]. split; [exact Hne|].
  unfold add_watermark.
  rewrite (bind_ok _ _ _ _ _ Hstamp), Hpage, (bind_ok _ _ _ _ _ Hd).
  erewrite bind_ok by (apply watermark_loop; simpl; lia).
  rewrite drop_0, firstn_all. simpl app.
  change (file_name_of input_pdf +:+ "_watermarked" +:+ ".pdf")
    with (file_name_of input_pdf +:+ "_watermarked.pdf").
  erewrite bind_ok by (by apply write_file_ok).
  fold marked output_pdf. destruct remove_original; simpl.
  - erewrite bind_ok; [reflexivity|].
    erewrite remove_ok; [reflexivity|exact Hki|].
    rewrite fs_with_fs, lookup_insert_ne by done. by rewrite Hfile.
  - reflexivity.
Qed.

(** X5. The whole effect of the compositor, when the watermark and the input
    can be read and neither is encrypted: it writes the output, a document
    without metadata and without encryption whose pages are those of the
    input, each with its own box and with the content of the first page of
    the watermark drawn after its own; it removes the input when asked to,
    and leaves every other file, the generator and the clock as they
    were. *)
Theorem add_watermark_effect
    (w : world) (input_pdf watermark output_folder : string) (remove_original : bool)
    (d stamp : pdf) (watermark_page : page) (ki : list string) :
  PdfFileReader watermark w = (Ok stamp, w) ->
  pages stamp !! 0%nat = Some watermark_page ->
  PdfFileReader input_pdf w = (Ok d, w) ->
  Os.resolve_file input_pdf = Some ki ->
  let output_pdf := Os.path_join output_folder (file_name_of input_pdf +:+ "_watermarked.pdf") in
  let marked :=
    Pdf ((fun p => Page (mediabox p) (contents p ++ contents watermark_page)) <$> pages d)
        ∅ None in
  exists ko,
    Os.resolve_file output_pdf = Some ko /\ ko <> ki /\
    add_watermark input_pdf watermark output_folder remove_original w
    = (Ok output_pdf,
       with_fs w (if remove_original
                  then delete ki (<[ko := PdfFile marked]> (fs w))
                  else <[ko := PdfFile marked]> (fs w))).
Proof. apply add_watermark_run. Qed.

Lemma add_watermark_effect_witness :
  PdfFileReader "./watermarks/landscape_A4.pdf" Demo.start = (Ok Demo.stamp, Demo.start) /\
  pages Demo.stamp !! 0%nat = Some (Page A4 [Mark 99]) /\
  PdfFileReader "./sample_input/lecture1.pdf" Demo.start = (Ok Demo.lecture, Demo.start) /\
  Os.resolve_file "./sample_input/lecture1.pdf" = Some ["sample_input"; "lecture1.pdf"] /\
  exists ko,
    Os.resolve_file
      (Os.path_join "./sample_output"
         (file_name_of "./sample_input/lecture1.pdf" +:+ "_watermarked.pdf")) = Some ko /\
    ko <> ["sample_input"; "lecture1.pdf"] /\
    add_watermark "./sample_input/lecture1.pdf" "./watermarks/landscape_A4.pdf"
                  "./sample_output" true Demo.start
    = (Ok (Os.path_join "./sample_output"
             (file_name_of "./sample_input/lecture1.pdf" +:+ "_watermarked.pdf")),
       with_fs Demo.start
         (delete ["sample_input"; "lecture1.pdf"]
            (<[ko := PdfFile (Pdf [Page A4 [Mark 1; Mark 99];
                                   Page A4 [Mark 2; Mark 3; Mark 99]] ∅ None)]>
               (fs Demo.start)))).
Proof.
  split; [reflexivity|]. split; [reflexivity|]. split; [reflexivity|].
  split; [reflexivity|].
  apply (add_watermark_effect Demo.start "./sample_input/lecture1.pdf"
           "./watermarks/landscape_A4.pdf" "./sample_output" true
           Demo.lecture Demo.stamp (Page A4 [Mark 99]) ["sample_input"; "lecture1.pdf"]);
    reflexivity.
Defined.

(** ** The sealer *)

Section Sealer.

Context {L : Libraries}.

(** The world a successful sealing leaves. *)
Lemma encrypt_and_add_metadata_world
    (w : world) (input_pdf output_folder usr_pass owner_pass : string)
    (remove_original : bool) (d : pdf) (ki : list string) :
  pikepdf_open input_pdf w = (Ok d, w) ->
  Os.resolve_file input_pdf = Some ki ->
  exists ko sealed,
    Os.resolve_file (Os.path_join output_folder (file_name_of input_pdf +:+ "_final.pdf"))
      = Some ko /\ ko <> ki /\
    pages sealed = pages d /\
    encrypted sealed
      = Some (Encryption usr_pass owner_pass
                (Permissions true false false false false false true true)) /\
    metadata sealed
      = <["pdf:Producer" := pikepdf_producer]>
          (<["xmp:MetadataDate" := pikepdf_metadata_date (tick (tick (clock w)))]>
             (<["xmpRights:WebStatement" := "http://www.tapirlab.com"]>
                (<["xmp:CreatorTool" := "Tapir Lab.'s Automatic Watermarking Script"]>
                   (<["xmp:ModifyDate" := isoformat (tick (clock w))]>
                      (<["xmp:CreateDate" := isoformat (clock w)]>
                         (<["dc:rights" := "Tapir Lab. License"]>
                            (<["dc:subject" := dc_subject]>
                               (<["dc:description" := "Tapir Lab. Fall-2020 Lecture Notes"]>
                                  (<["dc:creator" := "Serhan Yarkan, Tapir Lab."]>
                                     (<["dc:title" := "Lecture Notes"]>
                                        (metadata d))))))))))) /\
    encrypt_and_add_metadata input_pdf output_folder usr_pass owner_pass remove_original w
    = (Ok tt,
       World (if remove_original
              then delete ki (<[ko := PdfFile sealed]> (fs w))
              else <[ko := PdfFile sealed]> (fs w))
             (rng w) (tick (tick (clock w))) (rendered w)).
Proof.
  intros Hopen Hki.
  destruct (pikepdf_open_inv _ _ _ _ Hopen) as [Hread _].
  destruct (read_file_inv _ _ _ _ Hread) as (_ & ki' & Hki' & Hd).
  rewrite Hki in Hki'. injection Hki' as <-.
  destruct (stage_output_resolve input_pdf output_folder "_final.pdf" ki)
    as (ko & Hko & Hne); [done|by eauto|done|].
  exists ko.
  exists (Pdf (pages d)
            (<["pdf:Producer" := pikepdf_producer]>
               (<["xmp:MetadataDate" := pikepdf_metadata_date (tick (tick (clock w)))]>
                  (<["xmpRights:WebStatement" := "http://www.tapirlab.com"]>
                     (<["xmp:CreatorTool" := "Tapir Lab.'s Automatic Watermarking Script"]>
                        (<["xmp:ModifyDate" := isoformat (tick (clock w))]>
                           (<["xmp:CreateDate" := isoformat (clock w)]>
                              (<["dc:rights" := "Tapir Lab. License"]>
                                 (<["dc:subject" := dc_subject]>
                                    (<["dc:description"
                                         := "Tapir Lab. Fall-2020 Lecture Notes"]>
                                       (<["dc:creator" := "Serhan Yarkan, Tapir Lab."]>
                                          (<["dc:title" := "Lecture Notes"]>
                                             (metadata d))))))))))))
            (Some (Encryption usr_pass owner_pass
                     (Permissions true false false false false false true true)))).
  split; [exact Hko|]. split; [exact Hne|].
  split; [|split; [|split]]; cycle 3.
  - unfold encrypt_and_add_metadata.
    rewrite (bind_ok _ _ _ _ _ Hopen).
    unfold today_isoformat at 1. unfold bind at 1.
    unfold today_isoformat at 1. unfold bind at 1.
    unfold pikepdf_now at 1. unfold bind at 1.
    change (file_name_of input_pdf +:+ "_final" +:+ ".pdf")
      with (file_name_of input_pdf +:+ "_final.pdf").
    erewrite bind_ok by (by apply write_file_ok).
    destruct remove_original; simpl.
    + erewrite remove_ok; [reflexivity|exact Hki|].
      rewrite fs_with_fs. simpl. rewrite lookup_insert_ne by done. by rewrite Hd.
    + reflexivity.
  - reflexivity.
  - reflexivity.
  - reflexivity.
Qed.

(** X6. The descriptive fields of a sealed document: the nine fields the
    sealer sets have the values it gives them, whatever the input had there;
    the two dates are two readings of the clock, the creation date the
    earlier one.  pikepdf marks the record as edited by it: [xmp:MetadataDate]
    is its time stamp, taken after the two readings, and [pdf:Producer] its
    name and version.  Every other field, and the pages, are those of the
    input; the passwords are the ones given. *)
Theorem sealed_document_metadata
    (w : world) (input_pdf output_folder usr_pass owner_pass : string)
    (remove_original : bool) (d : pdf) :
  pikepdf_open input_pdf w = (Ok d, w) ->
  exists w' sealed e,
    encrypt_and_add_metadata input_pdf output_folder usr_pass owner_pass remove_original w
      = (Ok tt, w') /\
    Os.read_file (Os.path_join output_folder (file_name_of input_pdf +:+ "_final.pdf")) w'
      = (Ok (PdfFile sealed), w') /\
    pages sealed = pages d /\
    encrypted sealed = Some e /\ user e = usr_pass /\ owner e = owner_pass /\
    metadata sealed !! "dc:title" = Some "Lecture Notes" /\
    metadata sealed !! "dc:creator" = Some "Serhan Yarkan, Tapir Lab." /\
    metadata sealed !! "dc:description" = Some "Tapir Lab. Fall-2020 Lecture Notes" /\
    metadata sealed !! "dc:subject" = Some dc_subject /\
    metadata sealed !! "dc:rights" = Some "Tapir Lab. License" /\
    metadata sealed !! "xmp:CreateDate" = Some (isoformat (clock w)) /\
    metadata sealed !! "xmp:ModifyDate" = Some (isoformat (tick (clock w))) /\
    metadata sealed !! "xmp:CreatorTool" = Some "Tapir Lab.'s Automatic Watermarking Script" /\
    metadata sealed !! "xmpRights:WebStatement" = Some "http://www.tapirlab.com" /\
    metadata sealed !! "xmp:MetadataDate"
      = Some (pikepdf_metadata_date (tick (tick (clock w)))) /\
    metadata sealed !! "pdf:Producer" = Some pikepdf_producer /\
    forall key,
      key ∉ ["dc:title"; "dc:creator"; "dc:description"; "dc:subject"; "dc:rights";
             "xmp:CreateDate"; "xmp:ModifyDate"; "xmp:CreatorTool";
             "xmpRights:WebStatement"; "xmp:MetadataDate"; "pdf:Producer"] ->
      metadata sealed !! key = metadata d !! key.
Proof.
  intros Hopen.
  destruct (pikepdf_open_inv _ _ _ _ Hopen) as [Hread _].
  destruct (read_file_inv _ _ _ _ Hread) as (_ & ki & Hki & Hd).
  destruct (encrypt_and_add_metadata_world w input_pdf output_folder usr_pass owner_pass
              remove_original d ki Hopen Hki)
    as (ko & sealed & Hko & Hne & Hpages & Henc & Hmeta & Hrun).
  eexists. exists sealed. eexists. split; [exact Hrun|].
  split.
  { apply read_file_ok with ko; [exact Hko|]. cbn [fs].
    destruct remove_original.
    - rewrite lookup_delete_ne by done. apply lookup_insert_eq.
    - apply lookup_insert_eq. }
  split; [exact Hpages|]. split; [exact Henc|]. split; [done|]. split; [done|].
  rewrite Hmeta.
  repeat (split; [by repeat (rewrite lookup_insert_ne by done); rewrite lookup_insert_eq|]).
  intros key Hkey. rewrite !not_elem_of_cons in Hkey.
  destruct Hkey as (?&?&?&?&?&?&?&?&?&?&?&_).
  by rewrite !lookup_insert_ne.
Qed.

(** X7. What sealing leaves alone: every file other than the output and the
    input, the generator and the record of rasterizer calls.  The input is
    removed exactly when that is asked for, and the clock has been read
    twice. *)
Theorem sealing_touches_output_and_input
    (w : world) (input_pdf output_folder usr_pass owner_pass : string)
    (remove_original : bool) (d : pdf) (ki : list string) :
  pikepdf_open input_pdf w = (Ok d, w) ->
  Os.resolve_file input_pdf = Some ki ->
  exists w' ko,
    encrypt_and_add_metadata input_pdf output_folder usr_pass owner_pass remove_original w
      = (Ok tt, w') /\
    Os.resolve_file (Os.path_join output_folder (file_name_of input_pdf +:+ "_final.pdf"))
      = Some ko /\
    (forall k, k <> ko -> k <> ki -> fs w' !! k = fs w !! k) /\
    fs w' !! ki = (if remove_original then None else Some (PdfFile d)) /\
    rng w' = rng w /\ rendered w' = rendered w /\ clock w' = tick (tick (clock w)).
Proof.
  intros Hopen Hki.
  destruct (pikepdf_open_inv _ _ _ _ Hopen) as [Hread _].
  destruct (read_file_inv _ _ _ _ Hread) as (_ & ki' & Hki' & Hd).
  rewrite Hki in Hki'. injection Hki' as <-.
  destruct (encrypt_and_add_metadata_world w input_pdf output_folder usr_pass owner_pass
              remove_original d ki Hopen Hki)
    as (ko & sealed & Hko & Hne & _ & _ & _ & Hrun).
  eexists. exists ko. split; [exact Hrun|]. split; [exact Hko|]. cbn [fs rng rendered clock].
  split; [|split; [|done]].
  - intros k Hk1 Hk2. destruct remove_original.
    + by rewrite lookup_delete_ne, lookup_insert_ne.
    + by rewrite lookup_insert_ne.
  - destruct remove_original.
    + apply lookup_delete_eq.
    + by rewrite lookup_insert_ne.
Qed.

End Sealer.

Lemma sealed_document_metadata_witness :
  let w :=
    World (<[ ["sample_input"; "lecture1.pdf"] :=
                PdfFile (Pdf (pages Demo.lecture)
                             (<["dc:title" := "Draft"]> (<["pdf:Keywords" := "notes"]> ∅))
                             None) ]> ∅) 5 7 [] in
  pikepdf_open "./sample_input/lecture1.pdf" w
    = (Ok (Pdf (pages Demo.lecture)
               (<["dc:title" := "Draft"]> (<["pdf:Keywords" := "notes"]> ∅)) None), w) /\
  exists w' sealed,
    @encrypt_and_add_metadata Sample.libraries
      "./sample_input/lecture1.pdf" "./sample_output" "" "your_pass" true w
      = (Ok tt, w') /\
    Os.read_file
      (Os.path_join "./sample_output" (file_name_of "./sample_input/lecture1.pdf" +:+ "_final.pdf")) w'
      = (Ok (PdfFile sealed), w') /\
    pages sealed = pages Demo.lecture /\
    metadata sealed !! "dc:title" = Some "Lecture Notes" /\
    metadata sealed !! "xmp:CreateDate" = Some (@isoformat Sample.libraries 7) /\
    metadata sealed !! "xmp:ModifyDate" = Some (@isoformat Sample.libraries 8) /\
    metadata sealed !! "xmp:MetadataDate" = Some "9+00:00" /\
    metadata sealed !! "pdf:Producer" = Some "pikepdf 2.5.1" /\
    metadata sealed !! "pdf:Keywords" = Some "notes".
Proof.
  intros w. split; [reflexivity|].
  destruct (@sealed_document_metadata Sample.libraries w
              "./sample_input/lecture1.pdf" "./sample_output" "" "your_pass" true
              _ eq_refl)
    as (w' & sealed & e & Hrun & Hout & Hpages & _ & _ & _ & Htitle & _ & _ & _ & _
        & Hcreate & Hmodify & _ & _ & Hdate & Hproducer & Hother).
  exists w', sealed. split; [exact Hrun|]. split; [exact Hout|].
  split; [exact Hpages|]. split; [exact Htitle|]. split; [exact Hcreate|].
  split; [exact Hmodify|]. split; [exact Hdate|]. split; [exact Hproducer|].
  rewrite Hother; [reflexivity|].
  intros Hin. repeat (apply elem_of_cons in Hin as [Hin|Hin]; [discriminate Hin|]).
  by apply elem_of_nil in Hin.
Defined.

Lemma sealing_touches_output_and_input_witness :
  pikepdf_open "./sample_input/lecture1.pdf" Demo.start = (Ok Demo.lecture, Demo.start) /\
  Os.resolve_file "./sample_input/lecture1.pdf" = Some ["sample_input"; "lecture1.pdf"] /\
  exists w',
    @encrypt_and_add_metadata Sample.libraries
      "./sample_input/lecture1.pdf" "./sample_output" "" "your_pass" true Demo.start
      = (Ok tt, w') /\
    fs w' !! ["sample_input"; "lecture1.pdf"] = None /\
    rng w' = rng Demo.start.
Proof.
  split; [reflexivity|]. split; [reflexivity|].
  destruct (@sealing_touches_output_and_input Sample.libraries Demo.start
              "./sample_input/lecture1.pdf" "./sample_output" "" "your_pass" true
              Demo.lecture ["sample_input"; "lecture1.pdf"] eq_refl eq_refl)
    as (w' & ko & Hrun & _ & _ & Hin & Hrng & _).
  exists w'. split; [exact Hrun|]. split; [exact Hin|exact Hrng].
Defined.

(** ** The archive *)

Lemma archive_target_resolve input_pdf processed_folder :
  Os.resolve_file (Os.path_join processed_folder (file_name_of input_pdf +:+ ".pdf"))
  = Some (Os.resolve processed_folder ++ [file_name_of input_pdf +:+ ".pdf"]).
Proof.
  apply resolve_file_join; [|apply archive_name_not_skipped].
  by apply stage_name_no_sep.
Qed.

Section Archive.

Context {L : Libraries}.

(** Archiving under a free name. *)
Lemma move_processed_pdf_free
    (w : world) (input_pdf processed_folder : string) (ki : list string) (f : file) :
  Os.resolve_file input_pdf = Some ki ->
  fs w !! ki = Some f ->
  let kt := Os.resolve processed_folder ++ [file_name_of input_pdf +:+ ".pdf"] in
  fs w !! kt = None ->
  move_processed_pdf input_pdf processed_folder w
    = (Ok tt, with_fs w (<[kt := f]> (delete ki (fs w)))) /\
  kt <> ki.
Proof.
  intros Hki Hf kt Hfree. split.
  - unfold move_processed_pdf.
    rewrite (bind_ok _ _ _ _ _
               (path_exists_run _ _ _ (archive_target_resolve input_pdf processed_folder))).
    fold kt. rewrite Hfree.
    rewrite bool_decide_eq_false_2 by (by intros [? ?]).
    by apply rename_ok; [|apply archive_target_resolve|].
  - intros E. rewrite E, Hf in Hfree. discriminate Hfree.
Qed.

(** X8. When nothing has the target name, archiving is a plain move: the file
    gets the name [<file_name>.pdf] in the archive folder, its old name is
    free, every other file is as before, and no random number is drawn. *)
Theorem archive_to_free_name_is_a_move
    (w : world) (input_pdf processed_folder : string) (ki : list string) (f : file) :
  Os.resolve_file input_pdf = Some ki ->
  fs w !! ki = Some f ->
  let kt := Os.resolve processed_folder ++ [file_name_of input_pdf +:+ ".pdf"] in
  fs w !! kt = None ->
  move_processed_pdf input_pdf processed_folder w
    = (Ok tt, with_fs w (<[kt := f]> (delete ki (fs w)))) /\
  kt <> ki.
Proof. apply move_processed_pdf_free. Qed.

(** X9. Archiving a file that does not exist raises [FileNotFoundError] and
    changes no file, whether or not the target name is taken. *)
Theorem archive_of_missing_file_raises
    (w : world) (input_pdf processed_folder : string) (ki : list string) :
  Os.resolve_file input_pdf = Some ki ->
  fs w !! ki = None ->
  exists w',
    move_processed_pdf input_pdf processed_folder w
      = (Raise (FileNotFoundError input_pdf), w') /\
    fs w' = fs w.
Proof.
  intros Hki Hnone. unfold move_processed_pdf.
  rewrite (bind_ok _ _ _ _ _
             (path_exists_run _ _ _ (archive_target_resolve input_pdf processed_folder))).
  destruct (bool_decide _).
  - unfold random_randint, bind at 1.
    destruct (decide (0 < 100)%Z) as [_|Hn]; [|lia].
    pose proof (np_random_randint_range (rng w) 0 100 ltac:(lia)) as Hrange.
    destruct (np_random_randint (rng w) 0 100) as [r s'] eqn:Er. simpl in Hrange.
    exists (World (fs w) s' (clock w) (rendered w)). split; [|reflexivity].
    unfold Os.rename. rewrite Hki.
    rewrite (resolve_file_join processed_folder
               (file_name_of input_pdf +:+ "_exists_" +:+ pretty r +:+ ".pdf")).
    + unfold bind, get_fs. cbn [fs]. by rewrite Hnone.
    + apply stage_name_no_sep. by apply postfix_no_sep.
    + apply (stage_name_not_skipped _ ("xists_" +:+ pretty r +:+ ".pdf") "e").
  - exists w. split; [|done].
    unfold Os.rename. rewrite Hki, archive_target_resolve.
    unfold bind, get_fs. by rewrite Hnone.
Qed.

(** X10. When the target name is taken the file goes to
    [<file_name>_exists_<r>.pdf] with 0 <= r < 100: one of a hundred names,
    99 the largest.  The file that has the target name stays, and the
    generator has moved on. *)
Theorem archive_postfix_is_below_100
    (w : world) (input_pdf processed_folder : string) (ki : list string) (f old : file) :
  Os.resolve_file input_pdf = Some ki ->
  fs w !! ki = Some f ->
  let kt := Os.resolve processed_folder ++ [file_name_of input_pdf +:+ ".pdf"] in
  fs w !! kt = Some old ->
  ki <> kt ->
  exists (r : Z) w',
    (0 <= r < 100)%Z /\
    move_processed_pdf input_pdf processed_folder w = (Ok tt, w') /\
    fs w' !! (Os.resolve processed_folder
              ++ [file_name_of input_pdf +:+ "_exists_" +:+ pretty r +:+ ".pdf"]) = Some f /\
    fs w' !! kt = Some old /\
    rng w' = (np_random_randint (rng w) 0 100).2.
Proof.
  intros Hki Hf kt Hold Hne.
  exists (np_random_randint (rng w) 0 100).1.
  assert (Hrange : (0 <= (np_random_randint (rng w) 0 100).1 < 100)%Z)
    by (apply np_random_randint_range; lia).
  assert (Hks : Os.resolve_file
                  (Os.path_join processed_folder
                     (file_name_of input_pdf +:+ "_exists_"
                      +:+ pretty (np_random_randint (rng w) 0 100).1 +:+ ".pdf"))
                = Some (Os.resolve processed_folder
                        ++ [file_name_of input_pdf +:+ "_exists_"
                            +:+ pretty (np_random_randint (rng w) 0 100).1 +:+ ".pdf"])).
  { apply resolve_file_join.
    - apply stage_name_no_sep. by apply postfix_no_sep.
    - apply (stage_name_not_skipped _
               ("xists_" +:+ pretty (np_random_randint (rng w) 0 100).1 +:+ ".pdf") "e"). }
  set (ks := Os.resolve processed_folder ++ _) in Hks.
  assert (Hst : ks <> kt).
  { intros E. apply app_inv_head in E. injection E as E.
    apply String.app_inj in E. discriminate E. }
  exists (World (<[ks := f]> (delete ki (fs w)))
                (np_random_randint (rng w) 0 100).2 (clock w) (rendered w)).
  split; [exact Hrange|]. split.
  - unfold move_processed_pdf.
    rewrite (bind_ok _ _ _ _ _
               (path_exists_run _ _ _ (archive_target_resolve input_pdf processed_folder))).
    fold kt. rewrite Hold, bool_decide_eq_true_2 by eauto.
    unfold random_randint, bind at 1.
    destruct (decide (0 < 100)%Z) as [_|Hn]; [|lia].
    destruct (np_random_randint (rng w) 0 100) as [r s'] eqn:Er.
    cbn [fst snd] in *.
    erewrite rename_ok; [reflexivity|exact Hki|exact Hks|exact Hf].
  - cbn [fs rng]. split; [apply lookup_insert_eq|]. split; [|done].
    rewrite lookup_insert_ne, lookup_delete_ne by done. done.
Qed.

End Archive.

Lemma archive_to_free_name_is_a_move_witness :
  Os.resolve_file "./sample_input/lecture1.pdf" = Some ["sample_input"; "lecture1.pdf"] /\
  fs Demo.start !! ["sample_input"; "lecture1.pdf"] = Some (PdfFile Demo.lecture) /\
  fs Demo.start !! (Os.resolve "./processed"
                    ++ [file_name_of "./sample_input/lecture1.pdf" +:+ ".pdf"]) = None /\
  @move_processed_pdf Sample.libraries "./sample_input/lecture1.pdf" "./processed" Demo.start
    = (Ok tt,
       with_fs Demo.start
         (<[Os.resolve "./processed" ++ [file_name_of "./sample_input/lecture1.pdf" +:+ ".pdf"]
            := PdfFile Demo.lecture]>
            (delete ["sample_input"; "lecture1.pdf"] (fs Demo.start)))).
Proof.
  split; [reflexivity|]. split; [reflexivity|]. split; [reflexivity|].
  apply (@archive_to_free_name_is_a_move Sample.libraries Demo.start
           "./sample_input/lecture1.pdf" "./processed"); reflexivity.
Defined.

Lemma archive_of_missing_file_raises_witness :
  Os.resolve_file "./sample_input/absent.pdf" = Some ["sample_input"; "absent.pdf"] /\
  fs Demo.start !! ["sample_input"; "absent.pdf"] = None /\
  exists w',
    @move_processed_pdf Sample.libraries "./sample_input/absent.pdf" "./processed" Demo.start
      = (Raise (FileNotFoundError "./sample_input/absent.pdf"), w') /\
    fs w' = fs Demo.start.
Proof.
  split; [reflexivity|]. split; [reflexivity|].
  apply (@archive_of_missing_file_raises Sample.libraries Demo.start
           "./sample_input/absent.pdf" "./processed" ["sample_input"; "absent.pdf"]);
    reflexivity.
Defined.

Lemma archive_postfix_is_below_100_witness :
  let w := with_fs Demo.start
             (<[ ["processed"; "lecture1.pdf"] := PdfFile Demo.stamp ]> (fs Demo.start)) in
  Os.resolve_file "./sample_input/lecture1.pdf" = Some ["sample_input"; "lecture1.pdf"] /\
  fs w !! ["sample_input"; "lecture1.pdf"] = Some (PdfFile Demo.lecture) /\
  fs w !! (Os.resolve "./processed" ++ [file_name_of "./sample_input/lecture1.pdf" +:+ ".pdf"])
    = Some (PdfFile Demo.stamp) /\
  ["sample_input"; "lecture1.pdf"]
    <> Os.resolve "./processed" ++ [file_name_of "./sample_input/lecture1.pdf" +:+ ".pdf"] /\
  exists (r : Z) w',
    (0 <= r < 100)%Z /\
    @move_processed_pdf Sample.libraries "./sample_input/lecture1.pdf" "./processed" w
      = (Ok tt, w') /\
    fs w' !! (Os.resolve "./processed"
              ++ [file_name_of "./sample_input/lecture1.pdf" +:+ "_exists_" +:+ pretty r
                  +:+ ".pdf"]) = Some (PdfFile Demo.lecture) /\
    fs w' !! (Os.resolve "./processed" ++ [file_name_of "./sample_input/lecture1.pdf" +:+ ".pdf"])
      = Some (PdfFile Demo.stamp) /\
    rng w' = (@np_random_randint Sample.libraries (rng w) 0 100).2.
Proof.
  intros w.
  assert (H1 : fs w !! ["sample_input"; "lecture1.pdf"] = Some (PdfFile Demo.lecture)).
  { subst w. cbn [fs with_fs]. rewrite lookup_insert_ne by done. reflexivity. }
  assert (H2 : fs w !! (Os.resolve "./processed"
                        ++ [file_name_of "./sample_input/lecture1.pdf" +:+ ".pdf"])
               = Some (PdfFile Demo.stamp)).
  { subst w. cbn [fs with_fs]. apply lookup_insert_eq. }
  split; [reflexivity|]. split; [exact H1|]. split; [exact H2|]. split; [discriminate|].
  apply (@archive_postfix_is_below_100 Sample.libraries w
           "./sample_input/lecture1.pdf" "./processed" ["sample_input"; "lecture1.pdf"]
           (PdfFile Demo.lecture) (PdfFile Demo.stamp)); [reflexivity|exact H1|exact H2|discriminate].
Defined.

(** ** The merger *)

Definition delete_all (ks : list (list string)) (m : gmap (list string) file) :
    gmap (list string) file :=
  foldl (fun m k => delete k m) m ks.

Lemma delete_all_lookup_notin ks m k : k ∉ ks -> delete_all ks m !! k = m !! k.
Proof.
  revert m. induction ks as [|k' ks IH]; intros m Hk; [done|].
  apply not_elem_of_cons in Hk as [Hne Hk]. simpl.
  rewrite IH by done. by rewrite lookup_delete_ne.
Qed.

Lemma delete_all_lookup_in ks m k : k ∈ ks -> delete_all ks m !! k = None.
Proof.
  revert m. induction ks as [|k' ks IH]; intros m Hk; [by apply elem_of_nil in Hk|].
  simpl. destruct (decide (k ∈ ks)) as [Hin|Hnin]; [by apply IH|].
  apply elem_of_cons in Hk as [->|?]; [|done].
  rewrite delete_all_lookup_notin by done. apply lookup_delete_eq.
Qed.

Section Merger.

Context {L : Libraries}.

(** Reading leaves the world as it is. *)
Lemma PdfFileReader_world path w : (PdfFileReader path w).2 = w.
Proof. apply (keeps_PdfFileReader (fun w => w)). Qed.

Lemma merger_appends_all (paths : list string) (docs : list pdf) (acc : list page) w :
  Forall2 (fun p d => PdfFileReader p w = (Ok d, w)) paths docs ->
  fold_each paths acc (fun merger path =>
    let* d := PdfFileReader path in ret (merger ++ pages d)) w
  = (Ok (acc ++ concat (pages <$> docs)), w).
Proof.
  intros Hall. revert acc. induction Hall as [|p d paths docs Hp _ IH]; intros acc.
  - simpl. by rewrite app_nil_r.
  - cbn [fold_each]. rewrite (bind_ok _ _ _ _ _ (bind_ok _ _ _ _ _ Hp)).
    cbn [ret]. rewrite IH. simpl. by rewrite <- app_assoc.
Qed.

Lemma merger_stops_at_unreadable (paths : list string) (acc : list page) w p e :
  p ∈ paths ->
  PdfFileReader p w = (Raise e, w) ->
  exists e',
    fold_each paths acc (fun merger path =>
      let* d := PdfFileReader path in ret (merger ++ pages d)) w
    = (Raise e', w).
Proof.
  intros Hin Hp. revert acc. induction paths as [|q paths IH]; intros acc.
  - by apply elem_of_nil in Hin.
  - cbn [fold_each]. pose proof (PdfFileReader_world q w) as Hw.
    destruct (PdfFileReader q w) as [[d|e1] w1] eqn:Hq; simpl in Hw; subst w1.
    + rewrite (bind_ok _ _ _ _ _ (bind_ok _ _ _ _ _ Hq)). cbn [ret].
      apply elem_of_cons in Hin as [->|Hin]; [congruence|]. by apply IH.
    + exists e1. by rewrite (bind_raise _ _ _ _ _ (bind_raise _ _ _ _ _ Hq)).
Qed.

Lemma remove_each (paths : list string) (ks : list (list string)) w :
  Forall2 (fun p k => Os.resolve_file p = Some k) paths ks ->
  NoDup ks ->
  (forall k, k ∈ ks -> is_Some (fs w !! k)) ->
  for_each paths Os.remove w = (Ok tt, with_fs w (delete_all ks (fs w))).
Proof.
  intros Hall. revert w. induction Hall as [|p k paths ks Hp _ IH]; intros w Hnd Hin.
  - simpl. by destruct w.
  - apply NoDup_cons in Hnd as [Hk Hnd]. cbn [for_each].
    rewrite (bind_ok _ _ _ _ _ (remove_ok p k w Hp (Hin k ltac:(by left)))).
    rewrite IH; [done|done|].
    intros k' Hk'. rewrite fs_with_fs, lookup_delete_ne; [apply Hin; by right|].
    intros ->. done.
Qed.

(** X11. When every document found can be read and none is encrypted, and
    the output path is not one of them, the merged document holds the pages
    of the documents found, in the order of their sorted path names; it is
    written to the output path, without metadata and without encryption, and
    the documents found are then removed when that is asked for. *)
Theorem merge_pdfs_concatenates_in_name_order
    (w : world) (input_folder path_to_output_pdf : string) (remove_artifacts : bool)
    (found : list string) (docs : list pdf) (ks : list (list string)) (ko : list string) :
  Os.glob (Os.path_join input_folder "*.pdf") w = (Ok found, w) ->
  Forall2 (fun p d => PdfFileReader p w = (Ok d, w)) (sorted found) docs ->
  Forall2 (fun p k => Os.resolve_file p = Some k) (sorted found) ks ->
  NoDup ks ->
  Os.resolve_file path_to_output_pdf = Some ko ->
  ko ∉ ks ->
  let merged := PdfFile (Pdf (concat (pages <$> docs)) ∅ None) in
  merge_pdfs input_folder path_to_output_pdf remove_artifacts w
  = (Ok tt,
     with_fs w (if remove_artifacts
                then delete_all ks (<[ko := merged]> (fs w))
                else <[ko := merged]> (fs w))).
Proof.
  intros Hglob Hdocs Hks Hnd Hko _ merged. unfold merge_pdfs.
  rewrite (bind_ok _ _ _ _ _ Hglob).
  rewrite (bind_ok _ _ _ _ _ (merger_appends_all _ _ [] w Hdocs)).
  rewrite app_nil_l.
  rewrite (bind_ok _ _ _ _ _ (write_file_ok _ _ _ _ Hko)). fold merged.
  destruct remove_artifacts; [|done]. cbn [when].
  rewrite (remove_each (sorted found) ks _ Hks Hnd); [done|].
  intros k Hk. rewrite fs_with_fs.
  destruct (decide (k = ko)) as [->|Hne]; [rewrite lookup_insert_eq; eauto|].
  rewrite lookup_insert_ne by done.
  apply list_elem_of_lookup in Hk as [i Hi].
  destruct (Forall2_lookup_r _ _ _ _ _ Hks Hi) as (p & Hp & Hres).
  destruct (Forall2_lookup_l _ _ _ _ _ Hdocs Hp) as (d & _ & Hread).
  apply PdfFileReader_inv in Hread as (_ & Hread & _).
  apply read_file_inv in Hread as (_ & k' & Hk' & Hf).
  rewrite Hres in Hk'. injection Hk' as <-. eauto.
Qed.

(** X12. The merger reads every document before it opens the output: when one of
    the files found cannot be read as a PDF it raises, and no file has been
    written or removed. *)
Theorem merge_pdfs_unreadable_input_writes_nothing
    (w : world) (input_folder path_to_output_pdf : string) (remove_artifacts : bool)
    (found : list string) (p : string) (e : exn) :
  Os.glob (Os.path_join input_folder "*.pdf") w = (Ok found, w) ->
  p ∈ found ->
  PdfFileReader p w = (Raise e, w) ->
  exists e', merge_pdfs input_folder path_to_output_pdf remove_artifacts w = (Raise e', w).
Proof.
  intros Hglob Hin Hp. unfold merge_pdfs.
  rewrite (bind_ok _ _ _ _ _ Hglob).
  assert (Hin' : p ∈ sorted found).
  { unfold sorted. by rewrite merge_sort_Permutation. }
  destruct (merger_stops_at_unreadable (sorted found) [] w p e Hin' Hp) as [e' He'].
  exists e'. by rewrite (bind_raise _ _ _ _ _ He').
Qed.

End Merger.

Lemma merge_pdfs_concatenates_in_name_order_witness :
  @Os.glob Sample.libraries (Os.path_join "./tmp" "*.pdf") Scratch.two
    = (Ok ["./tmp/tmp_1.pdf"; "./tmp/tmp_0.pdf"], Scratch.two) /\
  Forall2 (fun p d => PdfFileReader p Scratch.two = (Ok d, Scratch.two))
          (sorted ["./tmp/tmp_1.pdf"; "./tmp/tmp_0.pdf"]) [Demo.lecture; Demo.stamp] /\
  Forall2 (fun p k => Os.resolve_file p = Some k)
          (sorted ["./tmp/tmp_1.pdf"; "./tmp/tmp_0.pdf"])
          [["tmp"; "tmp_0.pdf"]; ["tmp"; "tmp_1.pdf"]] /\
  NoDup [["tmp"; "tmp_0.pdf"]; ["tmp"; "tmp_1.pdf"]] /\
  Os.resolve_file "./sample_output/lecture1_blurred.pdf"
    = Some ["sample_output"; "lecture1_blurred.pdf"] /\
  (["sample_output"; "lecture1_blurred.pdf"]
     ∉ [["tmp"; "tmp_0.pdf"]; ["tmp"; "tmp_1.pdf"]]) /\
  @merge_pdfs Sample.libraries "./tmp" "./sample_output/lecture1_blurred.pdf" true Scratch.two
  = (Ok tt,
     with_fs Scratch.two
       (delete_all [["tmp"; "tmp_0.pdf"]; ["tmp"; "tmp_1.pdf"]]
          (<[ ["sample_output"; "lecture1_blurred.pdf"] :=
                PdfFile (Pdf (concat (pages <$> [Demo.lecture; Demo.stamp])) ∅ None) ]>
             (fs Scratch.two)))).
Proof.
  assert (H1 : @Os.glob Sample.libraries (Os.path_join "./tmp" "*.pdf") Scratch.two
               = (Ok ["./tmp/tmp_1.pdf"; "./tmp/tmp_0.pdf"], Scratch.two)) by reflexivity.
  assert (H2 : Forall2 (fun p d => PdfFileReader p Scratch.two = (Ok d, Scratch.two))
                 (sorted ["./tmp/tmp_1.pdf"; "./tmp/tmp_0.pdf"]) [Demo.lecture; Demo.stamp])
    by (repeat constructor).
  assert (H3 : Forall2 (fun p k => Os.resolve_file p = Some k)
                 (sorted ["./tmp/tmp_1.pdf"; "./tmp/tmp_0.pdf"])
                 [["tmp"; "tmp_0.pdf"]; ["tmp"; "tmp_1.pdf"]])
    by (repeat constructor).
  assert (H4 : NoDup [["tmp"; "tmp_0.pdf"]; ["tmp"; "tmp_1.pdf"]]).
  { apply NoDup_cons. split; [|apply NoDup_singleton].
    intros Hin. apply list_elem_of_singleton in Hin. discriminate Hin. }
  assert (H5 : ["sample_output"; "lecture1_blurred.pdf"]
               ∉ [["tmp"; "tmp_0.pdf"]; ["tmp"; "tmp_1.pdf"]]).
  { intros Hin. repeat (apply elem_of_cons in Hin as [Hin|Hin]; [discriminate Hin|]).
    by apply elem_of_nil in Hin. }
  split; [exact H1|]. split; [exact H2|]. split; [exact H3|]. split; [exact H4|].
  split; [reflexivity|]. split; [exact H5|].
  exact (@merge_pdfs_concatenates_in_name_order Sample.libraries Scratch.two "./tmp"
           "./sample_output/lecture1_blurred.pdf" true _ _ _ _ H1 H2 H3 H4 eq_refl H5).
Defined.

Lemma merge_pdfs_unreadable_input_writes_nothing_witness :
  @Os.glob Sample.libraries (Os.path_join "./tmp" "*.pdf") Scratch.broken
    = (Ok ["./tmp/tmp_1.pdf"; "./tmp/tmp_0.pdf"], Scratch.broken) /\
  "./tmp/tmp_1.pdf" ∈ ["./tmp/tmp_1.pdf"; "./tmp/tmp_0.pdf"] /\
  PdfFileReader "./tmp/tmp_1.pdf" Scratch.broken
    = (Raise (PdfReadError "./tmp/tmp_1.pdf"), Scratch.broken) /\
  exists e',
    @merge_pdfs Sample.libraries "./tmp" "./sample_output/lecture1_blurred.pdf" true
                Scratch.broken
      = (Raise e', Scratch.broken).
Proof.
  assert (H1 : @Os.glob Sample.libraries (Os.path_join "./tmp" "*.pdf") Scratch.broken
               = (Ok ["./tmp/tmp_1.pdf"; "./tmp/tmp_0.pdf"], Scratch.broken)) by reflexivity.
  assert (H2 : "./tmp/tmp_1.pdf" ∈ ["./tmp/tmp_1.pdf"; "./tmp/tmp_0.pdf"]) by (by left).
  split; [exact H1|]. split; [exact H2|]. split; [reflexivity|].
  exact (@merge_pdfs_unreadable_input_writes_nothing Sample.libraries Scratch.broken
           "./tmp" "./sample_output/lecture1_blurred.pdf" true _ _ _ H1 H2 eq_refl).
Defined.

(** ** Listings, by what the files are *)

Section Listings.

Context {L : Libraries}.

Lemma glob_none_lookup (w : world) (folder pat x : string) :
  Os.plain (Os.path_join folder pat) = true ->
  Str.contains Os.sep pat = false ->
  Os.glob (Os.path_join folder pat) w = (Ok [], w) ->
  Os.visible pat x && Os.fnmatch pat x = true ->
  fs w !! (Os.resolve folder ++ [x]) = None.
Proof.
  intros Hplain Hpat Hglob Hx. rewrite glob_run in Hglob by done.
  injection Hglob as Hnone.
  apply fmap_nil_inv in Hnone. rewrite basename_join in Hnone by done.
  destruct (fs w !! (Os.resolve folder ++ [x])) as [f|] eqn:E; [|done]. exfalso.
  assert (Hin : x ∈ @nil string); [|by apply elem_of_nil in Hin].
  rewrite <- Hnone. apply list_elem_of_filter. split; [done|].
  apply elem_of_elements, elem_of_listdir.
  rewrite resolve_dirname_join by done. by rewrite E.
Qed.

Lemma glob_listing (w : world) (folder pat : string) (names : list string) :
  Os.plain (Os.path_join folder pat) = true ->
  Str.contains Os.sep pat = false ->
  NoDup names ->
  (forall x, (Os.visible pat x && Os.fnmatch pat x = true
              /\ is_Some (fs w !! (Os.resolve folder ++ [x]))) <-> x ∈ names) ->
  exists listing,
    Os.glob (Os.path_join folder pat) w = (Ok listing, w) /\
    listing ≡ₚ Os.path_join (Os.dirname (Os.path_join folder pat)) <$> names.
Proof.
  intros Hplain Hpat Hnd Hnames. eexists. split; [by apply glob_run|].
  rewrite basename_join by done. apply fmap_Permutation.
  apply NoDup_Permutation; [apply NoDup_filter, NoDup_elements|done|].
  intros x. rewrite list_elem_of_filter, elem_of_elements, elem_of_listdir.
  rewrite resolve_dirname_join by done. apply Hnames.
Qed.

End Listings.

Lemma listed_file_resolve (folder pat name : string) :
  Str.contains Os.sep pat = false ->
  Str.contains Os.sep name = false -> ~ Os.skipped name ->
  Os.resolve_file (Os.path_join (Os.dirname (Os.path_join folder pat)) name)
  = Some (Os.resolve folder ++ [name]).
Proof.
  intros Hpat Hname Hskip. rewrite resolve_file_join by done.
  by rewrite resolve_dirname_join.
Qed.

Lemma sorted_of_sorted (l : list string) : StronglySorted String.le l -> sorted l = l.
Proof.
  intros Hs. apply (StronglySorted_unique String.le); [|done|].
  - apply StronglySorted_merge_sort; apply _.
  - unfold sorted. by rewrite merge_sort_Permutation.
Qed.

(** ** The names of the one-page documents *)

(** The name [image_to_pdf] gives the page made of the [j]-th image. *)
Definition tmp_name (j : nat) : string := "tmp_" +:+ pretty j +:+ ".pdf".

Definition pdf_key (output_folder : string) (j : nat) : list string :=
  Os.resolve output_folder ++ [tmp_name j].

Lemma tmp_name_no_sep j : Str.contains Os.sep (tmp_name j) = false.
Proof.
  unfold tmp_name. rewrite !contains_app, (pretty_nat_no_char _ _ digit_not_sep). done.
Qed.

Lemma tmp_name_not_skipped j : ~ Os.skipped (tmp_name j).
Proof. intros [E|E]; discriminate E. Qed.

Global Instance tmp_name_inj : Inj (=) (=) tmp_name.
Proof.
  intros i j E. unfold tmp_name in E. injection E as E.
  change (pretty i +:+ ".pdf" = pretty j +:+ ".pdf") in E.
  apply app_inv_tail_string in E. by apply (inj pretty) in E.
Qed.

Global Instance pdf_key_inj output_folder : Inj (=) (=) (pdf_key output_folder).
Proof.
  intros i j E. unfold pdf_key in E. apply app_inv_head in E.
  apply tmp_name_inj. congruence.
Qed.

Lemma tmp_name_matches j : Os.visible "*.pdf" (tmp_name j) && Os.fnmatch "*.pdf" (tmp_name j) = true.
Proof.
  unfold tmp_name.
  change ("tmp_" +:+ pretty j +:+ ".pdf") with (String "t" ("mp_" +:+ pretty j +:+ ".pdf")).
  cbn [Os.visible Str.startswith orb negb andb bool_decide].
  change (String "t" ("mp_" +:+ pretty j +:+ ".pdf")) with (("tmp_" +:+ pretty j) +:+ ".pdf").
  by apply fnmatch_star.
Qed.

Lemma png_name_matches_visible j :
  Os.visible "*.png" (png_name j) && Os.fnmatch "*.png" (png_name j) = true.
Proof. by rewrite png_name_visible, png_name_matches. Qed.

Lemma tmp_names_sorted (n : nat) :
  (n <= 10)%nat -> StronglySorted String.le (tmp_name <$> seq 0 n).
Proof.
  intros Hn.
  assert (H10 : StronglySorted String.le (tmp_name <$> seq 0 10)).
  { refine (bool_decide_unpack _ _). vm_compute. exact I. }
  replace (seq 0 10) with (seq 0 n ++ seq n (10 - n)) in H10.
  - rewrite fmap_app in H10. by apply StronglySorted_app_1_l in H10.
  - rewrite <- seq_app. f_equal. lia.
Qed.

Lemma image_key_ne_pdf_key folder folder' i j : image_key folder i <> pdf_key folder' j.
Proof.
  unfold image_key, pdf_key. intros E.
  apply (f_equal (fun l => List.last l "")) in E. rewrite !last_last in E.
  discriminate E.
Qed.

(** The listing of a folder in sorted order, when its entries are numbered
    names that sort in the order of their numbers. *)
Lemma sorted_numbered_listing (dir : string) (name : nat -> string) (n : nat)
    (listing : list string) :
  (forall j, Str.startswith "/" (name j) = false) ->
  StronglySorted String.le (name <$> seq 0 n) ->
  listing ≡ₚ Os.path_join dir <$> (name <$> seq 0 n) ->
  sorted listing = Os.path_join dir <$> (name <$> seq 0 n).
Proof.
  intros Hrel Hs Hperm. rewrite (sorted_Permutation _ _ Hperm).
  apply sorted_of_sorted.
  destruct (path_join_prefix dir) as [pre Hpre].
  assert (Hmap : Os.path_join dir <$> (name <$> seq 0 n)
                 = (fun x => pre +:+ x) <$> (name <$> seq 0 n)).
  { rewrite <- !list_fmap_compose. apply list_fmap_ext. intros _ j _. simpl.
    by apply Hpre. }
  rewrite Hmap. by apply prefixed_sorted.
Qed.

(** ** From images to one-page documents *)

Definition page_size (orientation : string) : Q * Q :=
  if String.eqb orientation "landscape" then (A4.2, A4.1) else A4.

(** The page [image_to_pdf] makes of an image. *)
Definition page_of (orientation : string) (img : raster) : page :=
  Page (page_size orientation)
       [DrawImage img 0 0 (page_size orientation).1 (page_size orientation).2].

(** What one round of the loop of [image_to_pdf] does to the files. *)
Definition compose_step (images_folder output_folder orientation : string)
    (remove_artifacts : bool) (m : gmap (list string) file) (item : raster * nat) :
    gmap (list string) file :=
  let m' := <[pdf_key output_folder item.2
              := PdfFile (Pdf [page_of orientation item.1] ∅ None)]> m in
  if remove_artifacts then delete (image_key images_folder item.2) m' else m'.

Lemma tmp_output_resolve output_folder j :
  Os.resolve_file (Os.path_join output_folder ("tmp_" +:+ pretty j +:+ ".pdf"))
  = Some (pdf_key output_folder j).
Proof.
  apply (resolve_file_join output_folder (tmp_name j));
    [apply tmp_name_no_sep|apply tmp_name_not_skipped].
Qed.

Lemma image_to_pdf_step (images_folder output_folder orientation : string)
    (remove_artifacts : bool) (image : string) (j : nat) (img : raster) (w : world) :
  Os.resolve_file image = Some (image_key images_folder j) ->
  fs w !! image_key images_folder j = Some (PngFile img) ->
  (let canvas_ :=
     set_page (Os.path_join output_folder ("tmp_" +:+ pretty j +:+ ".pdf")) orientation in
   let* canvas_ := draw_image canvas_ image orientation in
   do canvas_save canvas_ then
   when remove_artifacts (Os.remove image)) w
  = (Ok tt,
     with_fs w (compose_step images_folder output_folder orientation remove_artifacts
                  (fs w) (img, j))).
Proof.
  intros Hres Himg.
  assert (Hread : Os.read_file image w = (Ok (PngFile img), w))
    by (by apply read_file_ok with (image_key images_folder j)).
  cbv zeta. unfold draw_image, set_page, drawImage, compose_step, page_of, page_size.
  destruct (String.eqb orientation "landscape"); cbn [filename pagesize drawn app];
    rewrite (bind_ok _ _ _ _ _ (bind_ok _ _ _ _ _ Hread)); cbn [ret];
    unfold canvas_save; cbn [filename pagesize drawn app fst snd];
    rewrite (bind_ok _ _ _ _ _ (write_file_ok _ _ _ _ (tmp_output_resolve output_folder j)));
    (destruct remove_artifacts; cbn [when];
     [ rewrite (remove_ok image (image_key images_folder j)); [done|done|];
       rewrite fs_with_fs, lookup_insert_ne by (apply not_eq_sym, image_key_ne_pdf_key);
       by rewrite Himg
     | done ]).
Qed.

Lemma image_to_pdf_loop (images_folder output_folder orientation : string)
    (remove_artifacts : bool) (path : nat -> string) (items : list (raster * nat)) (w : world) :
  (forall j, Os.resolve_file (path j) = Some (image_key images_folder j)) ->
  NoDup items.*2 ->
  (forall img j, (img, j) ∈ items -> fs w !! image_key images_folder j = Some (PngFile img)) ->
  for_each ((fun item : raster * nat => (path item.2, item.2)) <$> items)
    (fun '(image, j) =>
       let canvas_ :=
         set_page (Os.path_join output_folder ("tmp_" +:+ pretty j +:+ ".pdf")) orientation in
       let* canvas_ := draw_image canvas_ image orientation in
       do canvas_save canvas_ then
       when remove_artifacts (Os.remove image)) w
  = (Ok tt,
     with_fs w (foldl (compose_step images_folder output_folder orientation remove_artifacts)
                  (fs w) items)).
Proof.
  intros Hpath. revert w. induction items as [|[img j] items IH]; intros w Hnd Himgs.
  - simpl. by destruct w.
  - rewrite fmap_cons in Hnd. apply NoDup_cons in Hnd as [Hj Hnd].
    rewrite fmap_cons. cbn [for_each fst snd].
    rewrite (bind_ok _ _ _ _ _
               (image_to_pdf_step images_folder output_folder orientation remove_artifacts
                  (path j) j img w (Hpath j) (Himgs img j ltac:(by left)))).
    rewrite IH; [done|done|].
    intros img' j' Hin. rewrite fs_with_fs. unfold compose_step. cbn [fst snd].
    assert (Hne : j' <> j).
    { intros ->. apply Hj. apply list_elem_of_fmap. by exists (img', j). }
    assert (Hk : image_key images_folder j' <> image_key images_folder j)
      by (intros E; by apply (inj _) in E).
    destruct remove_artifacts.
    + rewrite lookup_delete_ne, lookup_insert_ne
        by (done || apply not_eq_sym, image_key_ne_pdf_key).
      apply Himgs. by right.
    + rewrite lookup_insert_ne by (apply not_eq_sym, image_key_ne_pdf_key).
      apply Himgs. by right.
Qed.

Section Composed.

Context (images_folder output_folder orientation : string) (remove_artifacts : bool).

Lemma composed_lookup_other (items : list (raster * nat)) m k :
  (forall j, j ∈ items.*2 -> k <> pdf_key output_folder j) ->
  (remove_artifacts = true ->
   forall j, j ∈ items.*2 -> k <> image_key images_folder j) ->
  foldl (compose_step images_folder output_folder orientation remove_artifacts) m items !! k = m !! k.
Proof.
  revert m. induction items as [|[img j] items IH]; intros m Hpdf Himg; [done|].
  cbn [foldl]. rewrite IH.
  - unfold compose_step. cbn [fst snd].
    assert (Hk : k <> pdf_key output_folder j) by (apply Hpdf; rewrite fmap_cons; by left).
    destruct remove_artifacts eqn:Er.
    + rewrite lookup_delete_ne, lookup_insert_ne; [done|done|].
      apply not_eq_sym, Himg; [done|]. rewrite fmap_cons. by left.
    + by rewrite lookup_insert_ne.
  - intros j' Hj'. apply Hpdf. rewrite fmap_cons. by right.
  - intros Hr j' Hj'. apply Himg; [done|]. rewrite fmap_cons. by right.
Qed.

Lemma composed_lookup_pdf (items : list (raster * nat)) m img j :
  NoDup items.*2 -> (img, j) ∈ items ->
  foldl (compose_step images_folder output_folder orientation remove_artifacts) m items !! pdf_key output_folder j
  = Some (PdfFile (Pdf [page_of orientation img] ∅ None)).
Proof.
  revert m. induction items as [|[img' j'] items IH]; intros m Hnd Hin.
  - by apply elem_of_nil in Hin.
  - rewrite fmap_cons in Hnd. apply NoDup_cons in Hnd as [Hj' Hnd]. cbn [foldl].
    apply elem_of_cons in Hin as [Heq|Hin]; [|by apply IH].
    injection Heq as -> ->. rewrite composed_lookup_other.
    + unfold compose_step. cbn [fst snd]. destruct remove_artifacts.
      * rewrite lookup_delete_ne by apply image_key_ne_pdf_key. apply lookup_insert_eq.
      * apply lookup_insert_eq.
    + intros i Hi E. apply (inj _) in E. by subst i.
    + intros _ i Hi E. by apply (image_key_ne_pdf_key images_folder output_folder i j').
Qed.

Lemma composed_lookup_image (items : list (raster * nat)) m j :
  remove_artifacts = true -> NoDup items.*2 -> j ∈ items.*2 ->
  foldl (compose_step images_folder output_folder orientation remove_artifacts) m items !! image_key images_folder j = None.
Proof.
  intros Hr. revert m. induction items as [|[img' j'] items IH]; intros m Hnd Hin.
  - by apply elem_of_nil in Hin.
  - rewrite fmap_cons in Hnd, Hin. apply NoDup_cons in Hnd as [Hj' Hnd]. cbn [foldl].
    apply elem_of_cons in Hin as [->|Hin]; [|by apply IH].
    rewrite composed_lookup_other.
    + unfold compose_step. rewrite Hr. apply lookup_delete_eq.
    + intros i Hi. apply image_key_ne_pdf_key.
    + intros _ i Hi E. apply (inj _) in E. by subst i.
Qed.

End Composed.

Lemma enumerate_numbered {A} (f : nat -> A) (n : nat) :
  enumerate (f <$> seq 0 n) = (fun j => (f j, j)) <$> seq 0 n.
Proof.
  unfold enumerate. rewrite length_fmap, length_seq.
  generalize 0%nat. induction n as [|n IH]; intros s; [done|].
  simpl. by rewrite IH.
Qed.

Lemma elem_of_zip_seq {A} (l : list A) (x : A) (j : nat) :
  (x, j) ∈ zip l (seq 0 (length l)) -> l !! j = Some x.
Proof.
  intros Hin. apply list_elem_of_lookup in Hin as [i Hi].
  apply lookup_zip_with_Some in Hi as (x' & j' & E & Hx & Hj).
  injection E as -> ->. apply lookup_seq in Hj as [-> _]. done.
Qed.

Lemma snd_zip_seq {A} (l : list A) : (zip l (seq 0 (length l))).*2 = seq 0 (length l).
Proof. apply snd_zip. by rewrite length_seq. Qed.

(** The images of a folder are the [n] page images [_0.png] ... when those
    are there and no other file of the folder ends in [.png]. *)
Definition page_images (w : world) (folder : string) (imgs : list raster) : Prop :=
  (forall j img, imgs !! j = Some img ->
     fs w !! image_key folder j = Some (PngFile img)) /\
  (forall x, Os.visible "*.png" x && Os.fnmatch "*.png" x = true ->
     is_Some (fs w !! (Os.resolve folder ++ [x])) ->
     exists j, (j < length imgs)%nat /\ x = png_name j).

Section Composing.

Context {L : Libraries}.

Lemma page_images_listing (w : world) (folder : string) (imgs : list raster) :
  Os.has_magic folder = false ->
  (length imgs <= 10)%nat ->
  page_images w folder imgs ->
  exists found,
    Os.glob (Os.path_join folder "*.png") w = (Ok found, w) /\
    sorted found
    = (fun j => Os.path_join (Os.dirname (Os.path_join folder "*.png")) (png_name j))
        <$> seq 0 (length imgs).
Proof.
  intros Hfolder Hn [Himgs Honly].
  destruct (glob_listing w folder "*.png" (png_name <$> seq 0 (length imgs)))
    as (found & Hglob & Hperm); [by apply plain_join|done| |..].
  - apply (NoDup_fmap_2 _), NoDup_seq.
  - intros x. rewrite list_elem_of_fmap. split.
    + intros [Hm Hs]. destruct (Honly x Hm Hs) as (j & Hj & ->).
      exists j. split; [done|]. apply elem_of_seq. lia.
    + intros (j & -> & Hj). apply elem_of_seq in Hj. split.
      * apply png_name_matches_visible.
      * destruct (lookup_lt_is_Some_2 imgs j) as [img Himg]; [lia|].
        exists (PngFile img). by apply Himgs.
  - exists found. split; [done|].
    rewrite (sorted_numbered_listing _ png_name (length imgs) found
               png_name_not_absolute (png_names_sorted _ Hn) Hperm).
    by rewrite <- list_fmap_compose.
Qed.

Lemma image_to_pdf_run (images_folder output_folder orientation : string)
    (remove_artifacts : bool) (imgs : list raster) (w : world) :
  Os.has_magic images_folder = false ->
  (length imgs <= 10)%nat ->
  page_images w images_folder imgs ->
  image_to_pdf images_folder output_folder orientation remove_artifacts w
  = (Ok tt,
     with_fs w (foldl (compose_step images_folder output_folder orientation remove_artifacts)
                  (fs w) (zip imgs (seq 0 (length imgs))))).
Proof.
  intros Hfolder Hn Hpage.
  destruct (page_images_listing w images_folder imgs Hfolder Hn Hpage)
    as (found & Hglob & Hsorted).
  destruct Hpage as [Himgs _].
  unfold image_to_pdf. rewrite (bind_ok _ _ _ _ _ Hglob). rewrite Hsorted.
  rewrite enumerate_numbered.
  set (path := fun j : nat =>
         Os.path_join (Os.dirname (Os.path_join images_folder "*.png")) (png_name j)).
  replace ((fun j : nat => (path j, j)) <$> seq 0 (length imgs))
    with ((fun item : raster * nat => (path item.2, item.2))
            <$> zip imgs (seq 0 (length imgs))).
  - apply (image_to_pdf_loop images_folder output_folder orientation remove_artifacts path).
    + intros j. apply listed_resolve.
    + rewrite snd_zip_seq. apply NoDup_seq.
    + intros img j Hin. apply Himgs. by apply elem_of_zip_seq.
  - rewrite <- (snd_zip_seq imgs) at 2. by rewrite <- list_fmap_compose.
Qed.

(** X13. [image_to_pdf] on a folder whose name has no wildcard of [glob] and
    whose images are the page images [_0.png] to [_(n-1).png], with
    [n <= 10]: the [j]-th image becomes the one-page
    document [tmp_j.pdf] of the output folder, its page of the size the
    orientation selects and filled by the image; the images are removed when
    that is asked for and stay otherwise; no other file changes. *)
Theorem image_to_pdf_makes_one_page_per_image
    (images_folder output_folder orientation : string) (remove_artifacts : bool)
    (imgs : list raster) (w : world) :
  Os.has_magic images_folder = false ->
  (length imgs <= 10)%nat ->
  page_images w images_folder imgs ->
  exists w',
    image_to_pdf images_folder output_folder orientation remove_artifacts w = (Ok tt, w') /\
    (forall j img, imgs !! j = Some img ->
       fs w' !! pdf_key output_folder j
       = Some (PdfFile (Pdf [page_of orientation img] ∅ None))) /\
    (forall j img, imgs !! j = Some img ->
       fs w' !! image_key images_folder j
       = if remove_artifacts then None else Some (PngFile img)) /\
    (forall k,
       (forall j, (j < length imgs)%nat ->
          k <> pdf_key output_folder j /\ k <> image_key images_folder j) ->
       fs w' !! k = fs w !! k) /\
    rng w' = rng w /\ clock w' = clock w /\ rendered w' = rendered w.
Proof.
  intros Hfolder Hn Hpage. eexists. split; [by apply image_to_pdf_run|].
  destruct Hpage as [Himgs _]. rewrite fs_with_fs.
  assert (Hin : forall j, j ∈ (zip imgs (seq 0 (length imgs))).*2 -> (j < length imgs)%nat).
  { intros j. rewrite snd_zip_seq, elem_of_seq. lia. }
  assert (Hnd : NoDup (zip imgs (seq 0 (length imgs))).*2)
    by (rewrite snd_zip_seq; apply NoDup_seq).
  split; [|split; [|split; [|done]]].
  - intros j img Hj. apply composed_lookup_pdf; [done|].
    apply list_elem_of_lookup. exists j. apply lookup_zip_with_Some.
    exists img, j. split; [done|]. split; [done|].
    apply lookup_seq. split; [done|]. by apply lookup_lt_Some in Hj.
  - intros j img Hj. destruct remove_artifacts eqn:Er.
    + apply composed_lookup_image; [done|done|].
      rewrite snd_zip_seq, elem_of_seq. apply lookup_lt_Some in Hj. lia.
    + rewrite composed_lookup_other; [by apply Himgs| |done].
      intros i _. apply image_key_ne_pdf_key.
  - intros k Hk. apply composed_lookup_other.
    + intros j Hj. by apply Hk, Hin.
    + intros _ j Hj. by apply Hk, Hin.
Qed.

End Composing.

Lemma scratch_page_images :
  page_images Scratch.images "./tmp" [Scratch.first_image; Scratch.second_image].
Proof.
  split.
  - intros [|[|j]] img Hj; try discriminate Hj; injection Hj as <-.
    + change (image_key "./tmp" 0) with ["tmp"; "_0.png"]. unfold Scratch.images, fs.
      rewrite lookup_insert_ne by discriminate. apply lookup_insert_eq.
    + change (image_key "./tmp" 1) with ["tmp"; "_1.png"]. apply lookup_insert_eq.
  - intros x _ [f Hf]. change (Os.resolve "./tmp" ++ [x]) with ["tmp"; x] in Hf.
    unfold Scratch.images, fs in Hf.
    apply lookup_insert_Some in Hf as [[E _]|[_ Hf]].
    + exists 1%nat. split; [simpl; lia|]. by injection E as <-.
    + apply lookup_insert_Some in Hf as [[E _]|[_ Hf]].
      * exists 0%nat. split; [simpl; lia|]. by injection E as <-.
      * by rewrite lookup_empty in Hf.
Defined.

Lemma image_to_pdf_makes_one_page_per_image_witness :
  Os.has_magic "./tmp" = false /\
  (length [Scratch.first_image; Scratch.second_image] <= 10)%nat /\
  page_images Scratch.images "./tmp" [Scratch.first_image; Scratch.second_image] /\
  exists w',
    @image_to_pdf Sample.libraries "./tmp" "./tmp" "landscape" true Scratch.images
      = (Ok tt, w') /\
    (forall j img, [Scratch.first_image; Scratch.second_image] !! j = Some img ->
       fs w' !! pdf_key "./tmp" j
       = Some (PdfFile (Pdf [page_of "landscape" img] ∅ None))) /\
    (forall j img, [Scratch.first_image; Scratch.second_image] !! j = Some img ->
       fs w' !! image_key "./tmp" j = None) /\
    (forall k,
       (forall j, (j < 2)%nat -> k <> pdf_key "./tmp" j /\ k <> image_key "./tmp" j) ->
       fs w' !! k = fs Scratch.images !! k) /\
    rng w' = rng Scratch.images /\ clock w' = clock Scratch.images /\
    rendered w' = rendered Scratch.images.
Proof.
  assert (Hn : (length [Scratch.first_image; Scratch.second_image] <= 10)%nat)
    by (simpl; lia).
  split; [reflexivity|]. split; [exact Hn|]. split; [exact scratch_page_images|].
  exact (@image_to_pdf_makes_one_page_per_image Sample.libraries "./tmp" "./tmp"
           "landscape" true [Scratch.first_image; Scratch.second_image] Scratch.images
           eq_refl Hn scratch_page_images).
Defined.

(** ** From the images of the pages to one document *)

Lemma tmp_name_not_absolute j : Str.startswith "/" (tmp_name j) = false.
Proof. done. Qed.

Lemma concat_single_pages (orientation : string) (imgs : list raster) :
  concat (pages <$> ((fun img => Pdf [page_of orientation img] ∅ None) <$> imgs))
  = page_of orientation <$> imgs.
Proof.
  induction imgs as [|img imgs IH]; [done|].
  rewrite !fmap_cons. cbn [concat pages app]. by rewrite IH.
Qed.

Section Recomposing.

Context {L : Libraries}.

(** The listing of the one-page documents [image_to_pdf] has left in a folder
    that held no document before. *)
Lemma composed_listing (tmp_folder orientation : string) (remove_artifacts : bool)
    (imgs : list raster) (w : world) (m : gmap (list string) file) :
  Os.has_magic tmp_folder = false ->
  (length imgs <= 10)%nat ->
  page_images w tmp_folder imgs ->
  (forall x, Os.visible "*.pdf" x && Os.fnmatch "*.pdf" x = true ->
     fs w !! (Os.resolve tmp_folder ++ [x]) = None) ->
  m = foldl (compose_step tmp_folder tmp_folder orientation remove_artifacts)
        (fs w) (zip imgs (seq 0 (length imgs))) ->
  exists found,
    Os.glob (Os.path_join tmp_folder "*.pdf") (with_fs w m) = (Ok found, with_fs w m) /\
    sorted found
    = (fun j => Os.path_join (Os.dirname (Os.path_join tmp_folder "*.pdf")) (tmp_name j))
        <$> seq 0 (length imgs).
Proof.
  intros Hfolder Hn [Himgs Honly] Hclean ->.
  set (items := zip imgs (seq 0 (length imgs))).
  assert (Hnd : NoDup items.*2) by (unfold items; rewrite snd_zip_seq; apply NoDup_seq).
  destruct (glob_listing
              (with_fs w (foldl (compose_step tmp_folder tmp_folder orientation
                                   remove_artifacts) (fs w) items))
              tmp_folder "*.pdf" (tmp_name <$> seq 0 (length imgs)))
    as (found & Hglob & Hperm); [by apply plain_join|done| |..].
  - apply (NoDup_fmap_2 _), NoDup_seq.
  - intros x. rewrite fs_with_fs, list_elem_of_fmap. split.
    + intros [Hm Hs].
      destruct (decide (x ∈ tmp_name <$> seq 0 (length imgs))) as [Hin|Hnin];
        [by apply list_elem_of_fmap in Hin|].
      exfalso. rewrite composed_lookup_other in Hs.
      * rewrite (Hclean x Hm) in Hs. by destruct Hs.
      * intros j Hj E. apply app_inv_head in E. injection E as ->.
        apply Hnin, list_elem_of_fmap. exists j. split; [done|].
        unfold items in Hj. by rewrite snd_zip_seq in Hj.
      * intros _ j Hj E. apply app_inv_head in E. injection E as ->.
        unfold items in Hj. rewrite snd_zip_seq, elem_of_seq in Hj.
        destruct (lookup_lt_is_Some_2 imgs j) as [img Himg]; [lia|].
        pose proof (Himgs j img Himg) as Hfile. unfold image_key in Hfile.
        rewrite (Hclean _ Hm) in Hfile. discriminate Hfile.
    + intros (j & -> & Hj). apply elem_of_seq in Hj. split; [apply tmp_name_matches|].
      destruct (lookup_lt_is_Some_2 imgs j) as [img Himg]; [lia|].
      exists (PdfFile (Pdf [page_of orientation img] ∅ None)).
      apply (composed_lookup_pdf tmp_folder tmp_folder orientation remove_artifacts
               items (fs w) img j Hnd).
      apply list_elem_of_lookup. exists j. apply lookup_zip_with_Some.
      exists img, j. split; [done|]. split; [done|]. apply lookup_seq. split; [done|lia].
  - exists found. split; [done|].
    rewrite (sorted_numbered_listing _ tmp_name (length imgs) found
               tmp_name_not_absolute (tmp_names_sorted _ Hn) Hperm).
    by rewrite <- list_fmap_compose.
Qed.

(** [image_to_pdf] and then [merge_pdfs], both on the scratch folder. *)
Lemma recompose_run (tmp_folder output_pdf orientation : string) (remove_artifacts : bool)
    (ko : list string) (imgs : list raster) (w : world) :
  Os.has_magic tmp_folder = false ->
  (length imgs <= 10)%nat ->
  page_images w tmp_folder imgs ->
  (forall x, Os.visible "*.pdf" x && Os.fnmatch "*.pdf" x = true ->
     fs w !! (Os.resolve tmp_folder ++ [x]) = None) ->
  Os.resolve_file output_pdf = Some ko ->
  (forall x, ko <> Os.resolve tmp_folder ++ [x]) ->
  exists w2 m,
    image_to_pdf tmp_folder tmp_folder orientation remove_artifacts w = (Ok tt, w2) /\
    merge_pdfs tmp_folder output_pdf remove_artifacts w2 = (Ok tt, with_fs w m) /\
    m !! ko = Some (PdfFile (Pdf (page_of orientation <$> imgs) ∅ None)) /\
    (forall j img, imgs !! j = Some img ->
       m !! image_key tmp_folder j
       = if remove_artifacts then None else Some (PngFile img)) /\
    (forall j img, imgs !! j = Some img ->
       m !! pdf_key tmp_folder j
       = if remove_artifacts then None
         else Some (PdfFile (Pdf [page_of orientation img] ∅ None))) /\
    (forall k, k <> ko ->
       (forall j, (j < length imgs)%nat ->
          k <> image_key tmp_folder j /\ k <> pdf_key tmp_folder j) ->
       m !! k = fs w !! k).
Proof.
  intros Hfolder Hn Hpage Hclean Hko Hout.
  set (items := zip imgs (seq 0 (length imgs))).
  set (m2 := foldl (compose_step tmp_folder tmp_folder orientation remove_artifacts)
               (fs w) items).
  set (merged := PdfFile (Pdf (page_of orientation <$> imgs) ∅ None)).
  set (ks := pdf_key tmp_folder <$> seq 0 (length imgs)).
  assert (Hnd : NoDup items.*2) by (unfold items; rewrite snd_zip_seq; apply NoDup_seq).
  assert (Hitem : forall j img, imgs !! j = Some img -> (img, j) ∈ items).
  { intros j img Hj. apply list_elem_of_lookup. exists j. apply lookup_zip_with_Some.
    exists img, j. split; [done|]. split; [done|].
    apply lookup_seq. split; [done|]. by apply lookup_lt_Some in Hj. }
  assert (Hidx : forall j, j ∈ items.*2 <-> (j < length imgs)%nat).
  { intros j. unfold items. rewrite snd_zip_seq, elem_of_seq. lia. }
  assert (Hpdf : forall j img, imgs !! j = Some img ->
            m2 !! pdf_key tmp_folder j
            = Some (PdfFile (Pdf [page_of orientation img] ∅ None))).
  { intros j img Hj. apply composed_lookup_pdf; [done|by apply Hitem]. }
  assert (Hko_pdf : forall j, ko <> pdf_key tmp_folder j) by (intros j; apply Hout).
  assert (Hko_img : forall j, ko <> image_key tmp_folder j) by (intros j; apply Hout).
  destruct (composed_listing tmp_folder orientation remove_artifacts imgs w m2
              Hfolder Hn Hpage Hclean eq_refl) as (found & Hglob & Hsorted).
  destruct Hpage as [Himgs Honly].
  exists (with_fs w m2),
         (if remove_artifacts then delete_all ks (<[ko := merged]> m2)
          else <[ko := merged]> m2).
  split; [exact (image_to_pdf_run tmp_folder tmp_folder orientation remove_artifacts
                   imgs w Hfolder Hn (conj Himgs Honly))|].
  split; [|split; [|split; [|split]]].
  - assert (Hdocs : Forall2
              (fun p d => PdfFileReader p (with_fs w m2) = (Ok d, with_fs w m2))
              ((fun j => Os.path_join (Os.dirname (Os.path_join tmp_folder "*.pdf"))
                           (tmp_name j)) <$> seq 0 (length imgs))
              ((fun img => Pdf [page_of orientation img] ∅ None) <$> imgs)).
    { apply Forall2_fmap, Forall2_same_length_lookup_2.
      - by rewrite length_seq.
      - intros i j img Hj Himg. apply lookup_seq in Hj as [-> _]. simpl.
        apply PdfFileReader_ok; [|done].
        apply read_file_ok with (pdf_key tmp_folder i).
        + apply listed_file_resolve;
            [done|apply tmp_name_no_sep|apply tmp_name_not_skipped].
        + rewrite fs_with_fs. by apply Hpdf. }
    unfold merge_pdfs.
    rewrite (bind_ok _ _ _ _ _ Hglob), Hsorted.
    rewrite (bind_ok _ _ _ _ _ (merger_appends_all _ _ [] (with_fs w m2) Hdocs)).
    rewrite app_nil_l, concat_single_pages. fold merged.
    rewrite (bind_ok _ _ _ _ _ (write_file_ok _ _ _ _ Hko)).
    destruct remove_artifacts; [|done]. cbn [when].
    rewrite (remove_each _ ks).
    + done.
    + apply Forall2_fmap, Forall_Forall2_diag, Forall_forall. intros j _.
      apply listed_file_resolve;
        [done|apply tmp_name_no_sep|apply tmp_name_not_skipped].
    + apply (NoDup_fmap_2 _), NoDup_seq.
    + intros k Hk. apply list_elem_of_fmap in Hk as (j & -> & Hj).
      apply elem_of_seq in Hj.
      destruct (lookup_lt_is_Some_2 imgs j) as [img Himg]; [lia|].
      rewrite !fs_with_fs, lookup_insert_ne by done. rewrite (Hpdf j img Himg). eauto.
  - destruct remove_artifacts.
    + rewrite delete_all_lookup_notin; [apply lookup_insert_eq|].
      intros Hin. apply list_elem_of_fmap in Hin as (j & E & _). by apply (Hko_pdf j).
    + apply lookup_insert_eq.
  - intros j img Hj. destruct remove_artifacts eqn:Er.
    + rewrite delete_all_lookup_notin.
      * rewrite lookup_insert_ne by done.
        apply composed_lookup_image; [done|done|].
        apply Hidx. by apply lookup_lt_Some in Hj.
      * intros Hin. apply list_elem_of_fmap in Hin as (i & E & _).
        by apply image_key_ne_pdf_key in E.
    + rewrite lookup_insert_ne by done. unfold m2.
      rewrite composed_lookup_other; [by apply Himgs| |done].
      intros i _. apply image_key_ne_pdf_key.
  - intros j img Hj. destruct remove_artifacts eqn:Er.
    + apply delete_all_lookup_in, list_elem_of_fmap. exists j. split; [done|].
      apply elem_of_seq. apply lookup_lt_Some in Hj. lia.
    + rewrite lookup_insert_ne by done. by apply Hpdf.
  - intros k Hk Hother.
    assert (Hm2 : m2 !! k = fs w !! k).
    { apply composed_lookup_other.
      - intros j Hj. by apply Hother, Hidx.
      - intros _ j Hj. by apply Hother, Hidx. }
    destruct remove_artifacts.
    + rewrite delete_all_lookup_notin.
      * by rewrite lookup_insert_ne.
      * intros Hin. apply list_elem_of_fmap in Hin as (j & -> & Hj).
        apply elem_of_seq in Hj. destruct (Hother j) as [_ Hne]; [lia|]. by apply Hne.
    + by rewrite lookup_insert_ne.
Qed.

(** ** A page image is no document *)

End Recomposing.

Lemma some_tail_inv rest name :
  Os.some_tail rest name = true -> exists a b, name = a +:+ b /\ rest b = true.
Proof.
  induction name as [|c name IH]; cbn [Os.some_tail]; intros H.
  - apply orb_true_iff in H as [H|H]; [|discriminate H]. by exists "", "".
  - apply orb_true_iff in H as [H|H].
    + by exists "", (String c name).
    + destruct (IH H) as (a & b & -> & Hb). by exists (String c a), b.
Qed.

Lemma fnmatch_pdf_suffix x : Os.fnmatch "*.pdf" x = true -> exists a, x = a +:+ ".pdf".
Proof.
  cbn [Os.fnmatch]. rewrite decide_True by done. intros H.
  apply some_tail_inv in H as (a & b & -> & Hb). exists a. f_equal.
  rewrite decide_False in Hb by discriminate.
  destruct b as [|c1 b]; [discriminate Hb|].
  apply andb_true_iff in Hb as [E1 Hb]. apply bool_decide_eq_true in E1 as <-.
  rewrite decide_False in Hb by discriminate.
  destruct b as [|c2 b]; [discriminate Hb|].
  apply andb_true_iff in Hb as [E2 Hb]. apply bool_decide_eq_true in E2 as <-.
  rewrite decide_False in Hb by discriminate.
  destruct b as [|c3 b]; [discriminate Hb|].
  apply andb_true_iff in Hb as [E3 Hb]. apply bool_decide_eq_true in E3 as <-.
  rewrite decide_False in Hb by discriminate.
  destruct b as [|c4 b]; [discriminate Hb|].
  apply andb_true_iff in Hb as [E4 Hb]. apply bool_decide_eq_true in E4 as <-.
  apply bool_decide_eq_true in Hb as ->. done.
Qed.

Lemma app_inv_suffix (a b t t' : string) :
  String.length t = String.length t' -> a +:+ t = b +:+ t' -> t = t'.
Proof.
  intros Hlen. revert b. induction a as [|x a IH]; intros [|y b] Hab.
  - done.
  - exfalso. apply (f_equal String.length) in Hab.
    rewrite app_cons in Hab. cbn [String.length] in Hab.
    rewrite !length_app in Hab. simpl in Hab. lia.
  - exfalso. apply (f_equal String.length) in Hab.
    rewrite app_cons in Hab. cbn [String.length] in Hab.
    rewrite !length_app in Hab. simpl in Hab. lia.
  - rewrite !app_cons in Hab. injection Hab as _ Hab. by apply IH with b.
Qed.

Lemma png_name_no_pdf j : Os.fnmatch "*.pdf" (png_name j) = false.
Proof.
  apply not_true_is_false. intros H. apply fnmatch_pdf_suffix in H as [a Ha].
  unfold png_name in Ha.
  change ("_" +:+ pretty j +:+ ".png") with (String "_" (pretty j) +:+ ".png") in Ha.
  apply app_inv_suffix in Ha; [discriminate Ha|done].
Qed.

(** ** The stages that rasterize a document and compose it again *)

Section Stages.

Context {L : Libraries}.

(** The images [pdf_to_image] has written are the page images of the folder,
    when the folder held no image before. *)
Lemma written_page_images (w w' : world) (folder : string) (imgs : list raster) :
  Os.has_magic folder = false ->
  fs w' = write_all (zip (image_key folder <$> seq 0 (length imgs)) (PngFile <$> imgs))
            (fs w) ->
  Os.glob (Os.path_join folder "*.png") w = (Ok [], w) ->
  page_images w' folder imgs.
Proof.
  intros Hfolder Hfs Hnone.
  set (kvs := zip (image_key folder <$> seq 0 (length imgs)) (PngFile <$> imgs)) in Hfs.
  assert (Hkeys : kvs.*1 = image_key folder <$> seq 0 (length imgs)).
  { apply fst_zip. by rewrite !length_fmap, length_seq. }
  assert (Hnd : NoDup kvs.*1).
  { rewrite Hkeys. apply (NoDup_fmap_2 _), NoDup_seq. }
  split.
  - intros j img Hj. rewrite Hfs. apply (write_all_lookup kvs (fs w) j); [done|].
    apply lookup_zip_with_Some. exists (image_key folder j), (PngFile img).
    split; [done|]. rewrite !list_lookup_fmap, Hj, lookup_seq_lt; [done|].
    by apply lookup_lt_Some in Hj.
  - intros x Hm Hs. rewrite Hfs in Hs.
    destruct (decide (Os.resolve folder ++ [x] ∈ kvs.*1)) as [Hin|Hnin].
    + rewrite Hkeys in Hin. apply list_elem_of_fmap in Hin as (j & E & Hj).
      apply elem_of_seq in Hj. exists j. split; [lia|].
      unfold image_key in E. apply app_inv_head in E. by injection E.
    + rewrite write_all_lookup_notin in Hs by done.
      rewrite (glob_none_lookup w folder "*.png" x) in Hs; [by destruct Hs| |done..].
      by apply plain_join.
Qed.

Lemma written_no_documents (w w' : world) (folder : string) (imgs : list raster) :
  Os.has_magic folder = false ->
  fs w' = write_all (zip (image_key folder <$> seq 0 (length imgs)) (PngFile <$> imgs))
            (fs w) ->
  Os.glob (Os.path_join folder "*.pdf") w = (Ok [], w) ->
  forall x, Os.visible "*.pdf" x && Os.fnmatch "*.pdf" x = true ->
    fs w' !! (Os.resolve folder ++ [x]) = None.
Proof.
  intros Hfolder Hfs Hnone x Hm. rewrite Hfs.
  rewrite write_all_lookup_notin;
    [apply (glob_none_lookup w folder "*.pdf" x); [by apply plain_join|done..]|].
  rewrite fst_zip by (by rewrite !length_fmap, length_seq).
  intros Hin. apply list_elem_of_fmap in Hin as (j & E & _).
  unfold image_key in E. apply app_inv_head in E. injection E as ->.
  apply andb_true_iff in Hm as [_ Hm]. by rewrite png_name_no_pdf in Hm.
Qed.

End Stages.

Section Pipeline.

Context {L : Libraries}.

(** Rasterizing a document of at most ten pages into a clean scratch folder,
    composing the images into one-page documents and merging these. *)
Lemma rasterize_recompose_run (w : world)
    (input_pdf tmp_folder output_pdf orientation : string) (dpi : nat) (blur : bool)
    (kernel : nat * nat) (sigma : Q) (remove_artifacts : bool)
    (d : pdf) (ki ko : list string) :
  Os.resolve_file input_pdf = Some ki ->
  fs w !! ki = Some (PdfFile d) ->
  dpi <> 0%nat ->
  (blur = true ->
   (0 <= sigma)%Q /\ Nat.odd kernel.1 = true /\ Nat.odd kernel.2 = true) ->
  (length (pages d) <= 10)%nat ->
  Os.has_magic tmp_folder = false ->
  Os.glob (Os.path_join tmp_folder "*.png") w = (Ok [], w) ->
  Os.glob (Os.path_join tmp_folder "*.pdf") w = (Ok [], w) ->
  Os.resolve_file output_pdf = Some ko ->
  (forall x, ko <> Os.resolve tmp_folder ++ [x]) ->
  exists w1 w2 w' imgs,
    pdf_to_image input_pdf tmp_folder dpi blur kernel sigma w = (Ok tt, w1) /\
    image_to_pdf tmp_folder tmp_folder orientation remove_artifacts w1 = (Ok tt, w2) /\
    merge_pdfs tmp_folder output_pdf remove_artifacts w2 = (Ok tt, w') /\
    Forall2 (rasterized blur kernel sigma) imgs (pdf2image_render d dpi) /\
    fs w' !! ko = Some (PdfFile (Pdf (page_of orientation <$> imgs) ∅ None)) /\
    (forall j img, imgs !! j = Some img ->
       fs w' !! image_key tmp_folder j
       = if remove_artifacts then None else Some (PngFile img)) /\
    (forall j img, imgs !! j = Some img ->
       fs w' !! pdf_key tmp_folder j
       = if remove_artifacts then None
         else Some (PdfFile (Pdf [page_of orientation img] ∅ None))) /\
    (forall k, k <> ko ->
       (remove_artifacts = false ->
        forall j, (j < length (pages d))%nat ->
          k <> image_key tmp_folder j /\ k <> pdf_key tmp_folder j) ->
       fs w' !! k = fs w !! k) /\
    (blur = false -> rng w' = rng w) /\
    clock w' = clock w /\ rendered w' = rendered w ++ [(input_pdf, dpi)].
Proof.
  intros Hki Hfile Hdpi Hs Hn Hfolder Hpng Hpdf Hko Hout.
  assert (Hplain_png : Os.plain (Os.path_join tmp_folder "*.png") = true)
    by (by apply plain_join).
  assert (Hplain_pdf : Os.plain (Os.path_join tmp_folder "*.pdf") = true)
    by (by apply plain_join).
  destruct (pdf_to_image_world w input_pdf tmp_folder dpi blur kernel sigma d
              (read_file_ok _ _ _ _ Hki Hfile) Hdpi Hs)
    as (w1 & imgs & Hrun1 & Hall & Hfs1 & Hrng1 & Hclock1 & Hrendered1).
  assert (Hlen : length imgs = length (pages d)).
  { rewrite (Forall2_length _ _ _ Hall). by apply pdf2image_render_length. }
  destruct (recompose_run tmp_folder output_pdf orientation remove_artifacts ko imgs w1)
    as (w2 & m & Hrun2 & Hrun3 & Hmko & Hmimg & Hmpdf & Hmother);
    [done|lia|by apply (written_page_images w)
    |by apply (written_no_documents w w1 _ imgs)|done|done|].
  exists w1, w2, (with_fs w1 m), imgs.
  split; [done|]. split; [done|]. split; [done|]. split; [done|].
  rewrite fs_with_fs. split; [done|]. split; [done|]. split; [done|].
  split; [|by destruct w1].
  intros k Hk Hscratch.
  assert (Hkeys : (zip (image_key tmp_folder <$> seq 0 (length imgs))
                       (PngFile <$> imgs)).*1
                  = image_key tmp_folder <$> seq 0 (length imgs)).
  { apply fst_zip. by rewrite !length_fmap, length_seq. }
  destruct (decide (k ∈ image_key tmp_folder <$> seq 0 (length imgs))) as [Hin|Hnimg].
  { apply list_elem_of_fmap in Hin as (j & -> & Hj). apply elem_of_seq in Hj.
    destruct remove_artifacts; [|by destruct (Hscratch eq_refl j ltac:(lia))].
    destruct (lookup_lt_is_Some_2 imgs j) as [img Himg]; [lia|].
    rewrite (Hmimg j img Himg). symmetry.
    apply (glob_none_lookup w tmp_folder "*.png"); [done|done|done|].
    apply png_name_matches_visible. }
  destruct (decide (k ∈ pdf_key tmp_folder <$> seq 0 (length imgs))) as [Hin|Hnpdf].
  { apply list_elem_of_fmap in Hin as (j & -> & Hj). apply elem_of_seq in Hj.
    destruct remove_artifacts; [|by destruct (Hscratch eq_refl j ltac:(lia))].
    destruct (lookup_lt_is_Some_2 imgs j) as [img Himg]; [lia|].
    rewrite (Hmpdf j img Himg). symmetry.
    apply (glob_none_lookup w tmp_folder "*.pdf"); [done|done|done|].
    apply tmp_name_matches. }
  rewrite Hmother; [|done|].
  - rewrite Hfs1. apply write_all_lookup_notin. by rewrite Hkeys.
  - intros j Hj. split; intros ->; [apply Hnimg|apply Hnpdf];
      apply list_elem_of_fmap; exists j; (split; [done|]); apply elem_of_seq; lia.
Qed.

Lemma stage_output_key (input_pdf output_folder tmp_folder suffix : string)
    (ki : list string) :
  Str.contains Os.sep suffix = false ->
  (exists c t, suffix = String "_" (String c t)) ->
  Os.resolve_file input_pdf = Some ki ->
  Os.resolve output_folder <> Os.resolve tmp_folder ->
  let ko := Os.resolve output_folder ++ [file_name_of input_pdf +:+ suffix] in
  Os.resolve_file (Os.path_join output_folder (file_name_of input_pdf +:+ suffix)) = Some ko /\
  ko <> ki /\
  (forall x, ko <> Os.resolve tmp_folder ++ [x]).
Proof.
  intros Hsep Hsuffix Hki Hfolders ko.
  assert (Hko : Os.resolve_file (Os.path_join output_folder (file_name_of input_pdf +:+ suffix))
                = Some ko).
  { destruct Hsuffix as (c & t & ->).
    apply resolve_file_join; [by apply stage_name_no_sep|apply stage_name_not_skipped]. }
  split; [exact Hko|]. split.
  - destruct (stage_output_resolve input_pdf output_folder suffix ki Hsep Hsuffix Hki)
      as (ko' & Hko' & Hne).
    rewrite Hko in Hko'. by injection Hko' as ->.
  - intros x E. apply app_inj_tail in E as [E _]. by apply Hfolders.
Qed.

(** The flattening stage on a clean scratch folder. *)
Lemma pdf_to_image_to_pdf_run (w : world)
    (input_pdf tmp_folder output_folder orientation : string)
    (remove_original remove_artifacts : bool) (d : pdf) (ki : list string) :
  Os.resolve_file input_pdf = Some ki ->
  fs w !! ki = Some (PdfFile d) ->
  (length (pages d) <= 10)%nat ->
  Os.has_magic tmp_folder = false ->
  Os.glob (Os.path_join tmp_folder "*.png") w = (Ok [], w) ->
  Os.glob (Os.path_join tmp_folder "*.pdf") w = (Ok [], w) ->
  Os.resolve output_folder <> Os.resolve tmp_folder ->
  let output_pdf := Os.path_join output_folder (file_name_of input_pdf +:+ "_im2pdf.pdf") in
  let ko := Os.resolve output_folder ++ [file_name_of input_pdf +:+ "_im2pdf.pdf"] in
  exists w',
    pdf_to_image_to_pdf input_pdf tmp_folder output_folder orientation
                        remove_original remove_artifacts w = (Ok output_pdf, w') /\
    Os.resolve_file output_pdf = Some ko /\ ko <> ki /\
    fs w' !! ko
    = Some (PdfFile (Pdf (page_of orientation <$> pdf2image_render d 100) ∅ None)) /\
    fs w' !! ki = (if remove_original then None else Some (PdfFile d)) /\
    (forall k, k <> ko -> k <> ki ->
       (remove_artifacts = false ->
        forall j, (j < length (pages d))%nat ->
          k <> image_key tmp_folder j /\ k <> pdf_key tmp_folder j) ->
       fs w' !! k = fs w !! k) /\
    (remove_artifacts = false ->
     forall j img, pdf2image_render d 100 !! j = Some img ->
       fs w' !! image_key tmp_folder j = Some (PngFile img) /\
       fs w' !! pdf_key tmp_folder j
       = Some (PdfFile (Pdf [page_of orientation img] ∅ None))) /\
    rng w' = rng w /\ clock w' = clock w /\
    rendered w' = rendered w ++ [(input_pdf, 100%nat)].
Proof.
  intros Hki Hfile Hn Hfolder Hpng Hpdf Hfolders output_pdf ko.
  assert (Hplain_png : Os.plain (Os.path_join tmp_folder "*.png") = true)
    by (by apply plain_join).
  assert (Hplain_pdf : Os.plain (Os.path_join tmp_folder "*.pdf") = true)
    by (by apply plain_join).
  destruct (stage_output_key input_pdf output_folder tmp_folder "_im2pdf.pdf" ki)
    as (Hko & Hne & Hout); [done|by eauto|done|done|]. fold ko output_pdf in Hko, Hne, Hout.
  destruct (rasterize_recompose_run w input_pdf tmp_folder output_pdf orientation 100
              false (5, 5)%nat 1 remove_artifacts d ki ko)
    as (w1 & w2 & w3 & imgs & Hrun1 & Hrun2 & Hrun3 & Hall & Hwko & Hwimg & Hwpdf
        & Hother & Hrng & Hclock & Hrendered); [done..|].
  assert (Himgs : imgs = pdf2image_render d 100).
  { apply list_eq_Forall2. eapply Forall2_impl; [exact Hall|]. by intros img page. }
  subst imgs.
  assert (Hscratch : forall j, ki <> image_key tmp_folder j /\ ki <> pdf_key tmp_folder j).
  { intros j. split; intros ->.
    - unfold image_key in Hfile.
      rewrite (glob_none_lookup w tmp_folder "*.png" (png_name j)) in Hfile;
        [discriminate Hfile|done|done|done|apply png_name_matches_visible].
    - unfold pdf_key in Hfile.
      rewrite (glob_none_lookup w tmp_folder "*.pdf" (tmp_name j)) in Hfile;
        [discriminate Hfile|done|done|done|apply tmp_name_matches]. }
  assert (Hin3 : fs w3 !! ki = Some (PdfFile d)).
  { rewrite Hother; [done|by apply not_eq_sym|]. intros _ j _. apply Hscratch. }
  exists (if remove_original then with_fs w3 (delete ki (fs w3)) else w3).
  split.
  { unfold pdf_to_image_to_pdf.
    change (file_name_of input_pdf +:+ "_im2pdf" +:+ ".pdf")
      with (file_name_of input_pdf +:+ "_im2pdf.pdf"). fold output_pdf.
    rewrite (bind_ok _ _ _ _ _ Hrun1), (bind_ok _ _ _ _ _ Hrun2),
      (bind_ok _ _ _ _ _ Hrun3).
    destruct remove_original; cbn [when]; [|done].
    rewrite (bind_ok _ _ _ _ _ (remove_ok input_pdf ki w3 Hki ltac:(by rewrite Hin3))).
    done. }
  split; [exact Hko|]. split; [exact Hne|].
  assert (Hfs : forall k,
            fs (if remove_original then with_fs w3 (delete ki (fs w3)) else w3) !! k
            = if remove_original then (if decide (k = ki) then None else fs w3 !! k)
              else fs w3 !! k).
  { intros k. destruct remove_original; [|done]. rewrite fs_with_fs.
    destruct (decide (k = ki)) as [->|Hk];
      [apply lookup_delete_eq|by apply lookup_delete_ne]. }
  split; [|split; [|split; [|split]]].
  - rewrite Hfs, Hwko. destruct remove_original; [|done]. by rewrite decide_False.
  - rewrite Hfs, Hin3. destruct remove_original; [|done]. by rewrite decide_True.
  - intros k Hk1 Hk2 Hk3. rewrite Hfs, Hother by done.
    destruct remove_original; [|done]. by rewrite decide_False.
  - intros -> j img Hj. rewrite !Hfs, (Hwimg j img Hj), (Hwpdf j img Hj).
    destruct remove_original; [|done].
    destruct (Hscratch j) as [H1 H2]. rewrite !decide_False; [done| |]; by apply not_eq_sym.
  - destruct remove_original; [|by rewrite Hrng].
    split; [by apply Hrng|]. split; [exact Hclock|exact Hrendered].
Qed.

(** X14. For a document that is not encrypted and has at most ten pages, and
    a scratch folder whose name has no wildcard of [glob] and that holds no
    image and no document, [pdf_to_image_to_pdf] writes a document with one
    page per page of the input, in the order of the input: the page of the
    orientation's size, filled by the image of the input page rendered at
    100 dpi. The input is removed when that is asked for, the scratch folder
    is clean again when the artifacts are removed, and no other file
    changes. *)
Theorem pdf_to_image_to_pdf_keeps_pages_in_order (w : world)
    (input_pdf tmp_folder output_folder orientation : string)
    (remove_original remove_artifacts : bool) (d : pdf) (ki : list string) :
  Os.resolve_file input_pdf = Some ki ->
  fs w !! ki = Some (PdfFile d) ->
  encrypted d = None ->
  (length (pages d) <= 10)%nat ->
  Os.has_magic tmp_folder = false ->
  Os.glob (Os.path_join tmp_folder "*.png") w = (Ok [], w) ->
  Os.glob (Os.path_join tmp_folder "*.pdf") w = (Ok [], w) ->
  Os.resolve output_folder <> Os.resolve tmp_folder ->
  let output_pdf := Os.path_join output_folder (file_name_of input_pdf +:+ "_im2pdf.pdf") in
  let ko := Os.resolve output_folder ++ [file_name_of input_pdf +:+ "_im2pdf.pdf"] in
  exists w',
    pdf_to_image_to_pdf input_pdf tmp_folder output_folder orientation
                        remove_original remove_artifacts w = (Ok output_pdf, w') /\
    Os.resolve_file output_pdf = Some ko /\ ko <> ki /\
    fs w' !! ko
    = Some (PdfFile (Pdf (page_of orientation <$> pdf2image_render d 100) ∅ None)) /\
    fs w' !! ki = (if remove_original then None else Some (PdfFile d)) /\
    (forall k, k <> ko -> k <> ki ->
       (remove_artifacts = false ->
        forall j, (j < length (pages d))%nat ->
          k <> image_key tmp_folder j /\ k <> pdf_key tmp_folder j) ->
       fs w' !! k = fs w !! k) /\
    (remove_artifacts = false ->
     forall j img, pdf2image_render d 100 !! j = Some img ->
       fs w' !! image_key tmp_folder j = Some (PngFile img) /\
       fs w' !! pdf_key tmp_folder j
       = Some (PdfFile (Pdf [page_of orientation img] ∅ None))) /\
    rng w' = rng w /\ clock w' = clock w /\
    rendered w' = rendered w ++ [(input_pdf, 100%nat)].
Proof. intros Hki Hfile _. by apply pdf_to_image_to_pdf_run. Qed.

(** The blur stage on a clean scratch folder. *)
Lemma blur_pages_of_pdf_run (w : world)
    (input_pdf orientation tmp_folder output_folder : string) (dpi : nat)
    (kernel : nat * nat) (sigma : Q) (remove_artifacts : bool)
    (d : pdf) (ki : list string) :
  Os.resolve_file input_pdf = Some ki ->
  fs w !! ki = Some (PdfFile d) ->
  dpi <> 0%nat ->
  (0 <= sigma)%Q ->
  Nat.odd kernel.1 = true -> Nat.odd kernel.2 = true ->
  (length (pages d) <= 10)%nat ->
  Os.has_magic tmp_folder = false ->
  Os.glob (Os.path_join tmp_folder "*.png") w = (Ok [], w) ->
  Os.glob (Os.path_join tmp_folder "*.pdf") w = (Ok [], w) ->
  Os.resolve output_folder <> Os.resolve tmp_folder ->
  let output_pdf := Os.path_join output_folder (file_name_of input_pdf +:+ "_blurred.pdf") in
  let ko := Os.resolve output_folder ++ [file_name_of input_pdf +:+ "_blurred.pdf"] in
  exists w' imgs,
    blur_pages_of_pdf input_pdf orientation tmp_folder output_folder dpi kernel sigma
                      remove_artifacts w = (Ok output_pdf, w') /\
    Os.resolve_file output_pdf = Some ko /\ ko <> ki /\
    Forall2 (fun img page =>
               exists gauss h wd px,
                 shape page = [h; wd; 3%nat] /\
                 length gauss = size page /\
                 gaussian_blur (add_noise page gauss) kernel sigma
                   = Some (Raster h wd 3 px) /\
                 img = Raster h wd 3 (bgr3 px))
            imgs (pdf2image_render d dpi) /\
    fs w' !! ko = Some (PdfFile (Pdf (page_of orientation <$> imgs) ∅ None)) /\
    (forall k, k <> ko ->
       (remove_artifacts = false ->
        forall j, (j < length (pages d))%nat ->
          k <> image_key tmp_folder j /\ k <> pdf_key tmp_folder j) ->
       fs w' !! k = fs w !! k) /\
    clock w' = clock w /\
    rendered w' = rendered w ++ [(input_pdf, dpi)].
Proof.
  intros Hki Hfile Hdpi Hs Hk1 Hk2 Hn Hfolder Hpng Hpdf Hfolders output_pdf ko.
  destruct (stage_output_key input_pdf output_folder tmp_folder "_blurred.pdf" ki)
    as (Hko & Hne & Hout); [done|by eauto|done|done|]. fold ko output_pdf in Hko, Hne, Hout.
  destruct (rasterize_recompose_run w input_pdf tmp_folder output_pdf orientation dpi
              true kernel sigma remove_artifacts d ki ko)
    as (w1 & w2 & w3 & imgs & Hrun1 & Hrun2 & Hrun3 & Hall & Hwko & Hwimg & Hwpdf
        & Hother & Hrng & Hclock & Hrendered); [done..|].
  exists w3, imgs. split.
  { unfold blur_pages_of_pdf.
    change (file_name_of input_pdf +:+ "_blurred" +:+ ".pdf")
      with (file_name_of input_pdf +:+ "_blurred.pdf"). fold output_pdf.
    by rewrite (bind_ok _ _ _ _ _ Hrun1), (bind_ok _ _ _ _ _ Hrun2),
      (bind_ok _ _ _ _ _ Hrun3). }
  split; [exact Hko|]. split; [exact Hne|]. split; [exact Hall|done].
Qed.

(** X15. The blur stage. For a document that is not encrypted and has at most
    ten pages, a resolution that is not zero, a standard deviation that is
    not negative, a kernel of odd sides, and a scratch folder whose name has no wildcard of [glob] and
    that holds no image and no document, [blur_pages_of_pdf] writes a
    document with one page per page of the input, in order: the page of the
    orientation's size, filled by an image of the shape of the rendered page,
    the blur of the rendered page with noise added, one sample for each
    channel of each pixel, in which [cv2.imwrite] has exchanged red and blue.
    The input stays, and so does every other file once the artifacts are
    removed. The clock is not read. *)
Theorem blur_pages_of_pdf_keeps_pages_in_order (w : world)
    (input_pdf orientation tmp_folder output_folder : string) (dpi : nat)
    (kernel : nat * nat) (sigma : Q) (remove_artifacts : bool)
    (d : pdf) (ki : list string) :
  Os.resolve_file input_pdf = Some ki ->
  fs w !! ki = Some (PdfFile d) ->
  encrypted d = None ->
  dpi <> 0%nat ->
  (0 <= sigma)%Q ->
  Nat.odd kernel.1 = true -> Nat.odd kernel.2 = true ->
  (length (pages d) <= 10)%nat ->
  Os.has_magic tmp_folder = false ->
  Os.glob (Os.path_join tmp_folder "*.png") w = (Ok [], w) ->
  Os.glob (Os.path_join tmp_folder "*.pdf") w = (Ok [], w) ->
  Os.resolve output_folder <> Os.resolve tmp_folder ->
  let output_pdf := Os.path_join output_folder (file_name_of input_pdf +:+ "_blurred.pdf") in
  let ko := Os.resolve output_folder ++ [file_name_of input_pdf +:+ "_blurred.pdf"] in
  exists w' imgs,
    blur_pages_of_pdf input_pdf orientation tmp_folder output_folder dpi kernel sigma
                      remove_artifacts w = (Ok output_pdf, w') /\
    Os.resolve_file output_pdf = Some ko /\ ko <> ki /\
    Forall2 (fun img page =>
               exists gauss h wd px,
                 shape page = [h; wd; 3%nat] /\
                 length gauss = size page /\
                 gaussian_blur (add_noise page gauss) kernel sigma
                   = Some (Raster h wd 3 px) /\
                 img = Raster h wd 3 (bgr3 px))
            imgs (pdf2image_render d dpi) /\
    fs w' !! ko = Some (PdfFile (Pdf (page_of orientation <$> imgs) ∅ None)) /\
    (forall k, k <> ko ->
       (remove_artifacts = false ->
        forall j, (j < length (pages d))%nat ->
          k <> image_key tmp_folder j /\ k <> pdf_key tmp_folder j) ->
       fs w' !! k = fs w !! k) /\
    clock w' = clock w /\
    rendered w' = rendered w ++ [(input_pdf, dpi)].
Proof. intros Hki Hfile _. by apply blur_pages_of_pdf_run. Qed.

End Pipeline.

Lemma pdf_to_image_to_pdf_keeps_pages_in_order_witness :
  Os.resolve_file "./sample_input/lecture1.pdf" = Some ["sample_input"; "lecture1.pdf"] /\
  fs Demo.start !! ["sample_input"; "lecture1.pdf"] = Some (PdfFile Demo.lecture) /\
  encrypted Demo.lecture = None /\
  (length (pages Demo.lecture) <= 10)%nat /\
  Os.has_magic "./tmp" = false /\
  @Os.glob Sample.libraries (Os.path_join "./tmp" "*.png") Demo.start
    = (Ok [], Demo.start) /\
  @Os.glob Sample.libraries (Os.path_join "./tmp" "*.pdf") Demo.start
    = (Ok [], Demo.start) /\
  Os.resolve "./sample_output" <> Os.resolve "./tmp" /\
  exists w',
    @pdf_to_image_to_pdf Sample.libraries "./sample_input/lecture1.pdf" "./tmp"
      "./sample_output" "landscape" true true Demo.start
    = (Ok "./sample_output/lecture1_im2pdf.pdf", w') /\
    fs w' !! ["sample_output"; "lecture1_im2pdf.pdf"]
    = Some (PdfFile (Pdf (page_of "landscape" <$> Sample.render Demo.lecture 100) ∅ None)) /\
    fs w' !! ["sample_input"; "lecture1.pdf"] = None /\
    (forall k, k <> ["sample_output"; "lecture1_im2pdf.pdf"] ->
       k <> ["sample_input"; "lecture1.pdf"] ->
       fs w' !! k = fs Demo.start !! k) /\
    rendered w' = [("./sample_input/lecture1.pdf", 100%nat)].
Proof.
  assert (H2 : fs Demo.start !! ["sample_input"; "lecture1.pdf"]
               = Some (PdfFile Demo.lecture)) by apply lookup_insert_eq.
  assert (H3 : (length (pages Demo.lecture) <= 10)%nat) by (simpl; lia).
  assert (H6 : Os.resolve "./sample_output" <> Os.resolve "./tmp") by discriminate.
  split; [reflexivity|]. split; [exact H2|]. split; [reflexivity|]. split; [exact H3|].
  split; [reflexivity|]. split; [reflexivity|]. split; [reflexivity|]. split; [exact H6|].
  destruct (@pdf_to_image_to_pdf_keeps_pages_in_order Sample.libraries Demo.start
              "./sample_input/lecture1.pdf" "./tmp" "./sample_output" "landscape"
              true true Demo.lecture ["sample_input"; "lecture1.pdf"]
              eq_refl H2 eq_refl H3 eq_refl eq_refl eq_refl H6)
    as (w' & Hrun & _ & _ & Hko & Hki & Hother & _ & _ & _ & Hrendered).
  exists w'. split; [exact Hrun|]. split; [exact Hko|]. split; [exact Hki|].
  split; [|exact Hrendered].
  intros k Hk1 Hk2. apply Hother; [exact Hk1|exact Hk2|]. intros [=].
Defined.

Lemma blur_pages_of_pdf_keeps_pages_in_order_witness :
  Os.resolve_file "./sample_input/lecture1.pdf" = Some ["sample_input"; "lecture1.pdf"] /\
  fs Demo.start !! ["sample_input"; "lecture1.pdf"] = Some (PdfFile Demo.lecture) /\
  encrypted Demo.lecture = None /\
  100%nat <> 0%nat /\
  (0 <= 1 # 2)%Q /\
  Nat.odd (5, 5).1 = true /\ Nat.odd (5, 5).2 = true /\
  (length (pages Demo.lecture) <= 10)%nat /\
  Os.has_magic "./tmp" = false /\
  @Os.glob Sample.libraries (Os.path_join "./tmp" "*.png") Demo.start
    = (Ok [], Demo.start) /\
  @Os.glob Sample.libraries (Os.path_join "./tmp" "*.pdf") Demo.start
    = (Ok [], Demo.start) /\
  Os.resolve "./sample_output" <> Os.resolve "./tmp" /\
  exists w' imgs,
    @blur_pages_of_pdf Sample.libraries "./sample_input/lecture1.pdf" "landscape" "./tmp"
      "./sample_output" 100 (5, 5)%nat (1 # 2) true Demo.start
    = (Ok "./sample_output/lecture1_blurred.pdf", w') /\
    Forall2 (fun img page => shape img = shape page /\ exists px, pixels img = bgr3 px)
            imgs (Sample.render Demo.lecture 100) /\
    fs w' !! ["sample_output"; "lecture1_blurred.pdf"]
    = Some (PdfFile (Pdf (page_of "landscape" <$> imgs) ∅ None)) /\
    (forall k, k <> ["sample_output"; "lecture1_blurred.pdf"] ->
       fs w' !! k = fs Demo.start !! k) /\
    clock w' = clock Demo.start.
Proof.
  assert (H2 : fs Demo.start !! ["sample_input"; "lecture1.pdf"]
               = Some (PdfFile Demo.lecture)) by apply lookup_insert_eq.
  assert (H3 : (0 <= 1 # 2)%Q) by discriminate.
  assert (H4 : (length (pages Demo.lecture) <= 10)%nat) by (simpl; lia).
  assert (H7 : Os.resolve "./sample_output" <> Os.resolve "./tmp") by discriminate.
  assert (Hdpi : 100%nat <> 0%nat) by discriminate.
  split; [reflexivity|]. split; [exact H2|]. split; [reflexivity|]. split; [exact Hdpi|].
  split; [exact H3|].
  split; [reflexivity|]. split; [reflexivity|]. split; [exact H4|].
  split; [reflexivity|]. split; [reflexivity|]. split; [reflexivity|]. split; [exact H7|].
  destruct (@blur_pages_of_pdf_keeps_pages_in_order Sample.libraries Demo.start
              "./sample_input/lecture1.pdf" "landscape" "./tmp" "./sample_output"
              100 (5, 5)%nat (1 # 2) true Demo.lecture ["sample_input"; "lecture1.pdf"]
              eq_refl H2 eq_refl Hdpi H3 eq_refl eq_refl H4 eq_refl eq_refl eq_refl H7)
    as (w' & imgs & Hrun & _ & _ & Hall & Hko & Hother & Hclock & _).
  exists w', imgs. split; [exact Hrun|]. split.
  { eapply Forall2_impl; [exact Hall|]. intros img page Himg.
    destruct Himg as (gauss & h & wd & px & Hshape & _ & _ & Himg).
    rewrite Himg, Hshape. split; [reflexivity|]. exists px. reflexivity. }
  split; [exact Hko|]. split; [|exact Hclock].
  intros k Hk. apply Hother; [exact Hk|]. intros [=].
Defined.

(** ** The script *)

Lemma glob_none_ext `{Libraries} (w w' : world) (folder pat : string) :
  Os.plain (Os.path_join folder pat) = true ->
  Str.contains Os.sep pat = false ->
  Os.glob (Os.path_join folder pat) w = (Ok [], w) ->
  (forall x, fs w' !! (Os.resolve folder ++ [x]) = fs w !! (Os.resolve folder ++ [x])) ->
  Os.glob (Os.path_join folder pat) w' = (Ok [], w').
Proof.
  intros Hplain Hpat Hnone Hext.
  destruct (glob_listing w' folder pat []) as (listing & Hglob & Hperm);
    [done|done|apply NoDup_nil_2| |].
  - intros x. split; [|by intros ?%elem_of_nil].
    intros [Hm Hs]. rewrite Hext in Hs.
    rewrite (glob_none_lookup w folder pat x Hplain Hpat Hnone Hm) in Hs. by destruct Hs.
  - rewrite fmap_nil in Hperm. apply Permutation_nil_r in Hperm. by rewrite <- Hperm.
Qed.

Lemma file_name_of_no_dot p : Str.contains "." (file_name_of p) = false.
Proof.
  unfold file_name_of. apply (split_elem_no_sep "." (Os.basename p)).
  pose proof (split_nonempty "." (Os.basename p)).
  destruct (Str.split "." (Os.basename p)); [done|]. by left.
Qed.

(** The name a stage takes from the output of the stage before. *)
Lemma file_name_of_stage folder stem suffix :
  Str.contains "." stem = false -> Str.contains Os.sep stem = false ->
  Str.contains "." suffix = false -> Str.contains Os.sep suffix = false ->
  file_name_of (Os.path_join folder (stem +:+ (suffix +:+ ".pdf"))) = stem +:+ suffix.
Proof.
  intros Hd Hs Hd' Hs'. rewrite <- app_assoc'.
  apply (file_name_of_dotted folder (stem +:+ suffix) "pdf"); [| |done].
  - by rewrite contains_app, Hd, Hd'.
  - by rewrite contains_app, Hs, Hs'.
Qed.

Lemma pikepdf_open_ok path d w :
  Os.read_file path w = (Ok (PdfFile d), w) -> encrypted d = None ->
  pikepdf_open path w = (Ok d, w).
Proof.
  intros Hr He. unfold pikepdf_open.
  rewrite (bind_ok _ _ _ _ _ Hr). by rewrite He.
Qed.

Section Script.
Context {L : Libraries}.

(** X16. The script on an input folder with one document, not encrypted and
    of at most ten pages, a clean scratch folder, a watermark that is not
    encrypted and has a first page, and a free name in the archive.  One
    document is left in the output folder, named
    [<stem>_blurred_watermarked_im2pdf_final.pdf]: it is sealed with an empty
    user password and the permissions to print and, at pikepdf's default
    revision, accessibility; its pages are the flattened pages of the
    watermarked pages of the blurred pages of the input, one per input page
    and in order, where a blurred page is filled by the blur of the rendered
    page with noise added, red and blue exchanged, and a watermarked page
    has the content of the watermark's first page drawn after its own.  The
    input has moved to the archive, the three intermediate documents are
    gone, no other file has changed, the clock has been read twice and the
    rasterizer has been called twice, at 100 dpi. *)
Theorem main_on_a_single_document (w : world) (x : string) (d stamp : pdf)
    (watermark_page : page) :
  let input_pdf := Os.path_join "./sample_input" x in
  let stem := file_name_of input_pdf in
  Str.contains Os.sep x = false ->
  ~ Os.skipped x ->
  Os.glob "./sample_input/*.pdf" w = (Ok [input_pdf], w) ->
  fs w !! ["sample_input"; x] = Some (PdfFile d) ->
  encrypted d = None ->
  fs w !! ["watermarks"; "landscape_A4.pdf"] = Some (PdfFile stamp) ->
  encrypted stamp = None ->
  pages stamp !! 0%nat = Some watermark_page ->
  (length (pages d) <= 10)%nat ->
  Os.glob "./tmp/*.png" w = (Ok [], w) ->
  Os.glob "./tmp/*.pdf" w = (Ok [], w) ->
  fs w !! ["processed"; stem +:+ ".pdf"] = None ->
  exists w' imgs sealed,
    main w = (Ok tt, w') /\
    Forall2 (fun img page =>
               exists gauss h wd px,
                 shape page = [h; wd; 3%nat] /\
                 length gauss = size page /\
                 gaussian_blur (add_noise page gauss) (5, 5)%nat (1 # 2)
                   = Some (Raster h wd 3 px) /\
                 img = Raster h wd 3 (bgr3 px))
            imgs (pdf2image_render d 100) /\
    fs w' !! ["sample_output"; stem +:+ "_blurred_watermarked_im2pdf_final.pdf"]
    = Some (PdfFile sealed) /\
    pages sealed
    = page_of "landscape"
        <$> pdf2image_render
              (Pdf ((fun p => Page (mediabox p) (contents p ++ contents watermark_page))
                      <$> (page_of "landscape" <$> imgs)) ∅ None) 100 /\
    encrypted sealed
    = Some (Encryption "" "your_pass"
              {| accessibility := true; extract := false; modify_annotation := false;
                 modify_assembly := false; modify_form := false; modify_other := false;
                 print_lowres := true; print_highres := true |}) /\
    fs w' !! ["processed"; stem +:+ ".pdf"] = Some (PdfFile d) /\
    fs w' !! ["sample_input"; x] = None /\
    fs w' !! ["sample_output"; stem +:+ "_blurred.pdf"] = None /\
    fs w' !! ["sample_output"; stem +:+ "_blurred_watermarked.pdf"] = None /\
    fs w' !! ["sample_output"; stem +:+ "_blurred_watermarked_im2pdf.pdf"] = None /\
    (forall k,
       k ∉ [["sample_input"; x]; ["processed"; stem +:+ ".pdf"];
            ["sample_output"; stem +:+ "_blurred.pdf"];
            ["sample_output"; stem +:+ "_blurred_watermarked.pdf"];
            ["sample_output"; stem +:+ "_blurred_watermarked_im2pdf.pdf"];
            ["sample_output"; stem +:+ "_blurred_watermarked_im2pdf_final.pdf"]] ->
       fs w' !! k = fs w !! k) /\
    clock w' = tick (tick (clock w)) /\
    rendered w'
    = rendered w
      ++ [(input_pdf, 100%nat);
          (Os.path_join "./sample_output" (stem +:+ "_blurred_watermarked.pdf"), 100%nat)].
Proof.
  intros input_pdf stem Hsep Hskip Hglob Hd _ Hstamp Hplain Hpage Hn Hpng Hpdf Hfree.
  assert (Hki : Os.resolve_file input_pdf = Some ["sample_input"; x]).
  { unfold input_pdf. by rewrite resolve_file_join. }
  assert (Hdot : Str.contains "." stem = false) by apply file_name_of_no_dot.
  assert (Hstem : Str.contains Os.sep stem = false) by apply file_name_of_no_sep.
  assert (Hfolders : Os.resolve "./sample_output" <> Os.resolve "./tmp") by discriminate.
  (* the blur stage *)
  destruct (blur_pages_of_pdf_run w input_pdf "landscape" "./tmp" "./sample_output" 100
              (5, 5)%nat (1 # 2) true d ["sample_input"; x] Hki Hd ltac:(discriminate)
              ltac:(discriminate) eq_refl eq_refl Hn eq_refl Hpng Hpdf Hfolders)
    as (w1 & imgs & Hrun1 & Hk1 & _ & Hall & Hw1 & Hother1 & Hclock1 & Hrendered1).
  fold stem in Hrun1, Hk1, Hw1, Hother1.
  change (Os.resolve "./sample_output" ++ [stem +:+ "_blurred.pdf"])
    with ["sample_output"; stem +:+ "_blurred.pdf"] in *.
  set (k1 := ["sample_output"; stem +:+ "_blurred.pdf"]) in *.
  set (p1 := Os.path_join "./sample_output" (stem +:+ "_blurred.pdf")) in *.
  set (blurred := Pdf (page_of "landscape" <$> imgs) ∅ None) in *.
  assert (H1o : forall k, k <> k1 -> fs w1 !! k = fs w !! k).
  { intros k Hk. apply Hother1; [done|]. intros [=]. }
  clear Hother1.
  (* the watermark *)
  assert (Hname1 : file_name_of p1 = stem +:+ "_blurred").
  { by apply (file_name_of_stage "./sample_output" stem "_blurred"). }
  destruct (add_watermark_run w1 p1 "./watermarks/landscape_A4.pdf" "./sample_output"
              true blurred stamp watermark_page k1)
    as (k2' & Hk2 & Hne21 & Hrun2).
  { apply PdfFileReader_ok; [|exact Hplain].
    apply read_file_ok with ["watermarks"; "landscape_A4.pdf"]; [reflexivity|].
    rewrite H1o by discriminate. exact Hstamp. }
  { exact Hpage. }
  { apply PdfFileReader_ok; [|reflexivity].
    apply read_file_ok with k1; [exact Hk1|exact Hw1]. }
  { exact Hk1. }
  rewrite Hname1, app_assoc' in Hk2, Hrun2.
  change ("_blurred" +:+ "_watermarked.pdf") with "_blurred_watermarked.pdf" in Hk2, Hrun2.
  set (p2 := Os.path_join "./sample_output" (stem +:+ "_blurred_watermarked.pdf")) in *.
  set (k2 := ["sample_output"; stem +:+ "_blurred_watermarked.pdf"]).
  assert (k2' = k2) as ->.
  { unfold p2 in Hk2. rewrite resolve_file_join in Hk2.
    - by injection Hk2 as <-.
    - by rewrite contains_app, Hstem.
    - apply (stage_name_not_skipped stem "lurred_watermarked.pdf" "b"). }
  set (marked := Pdf ((fun p => Page (mediabox p) (contents p ++ contents watermark_page))
                        <$> pages blurred) ∅ None) in *.
  set (w2 := with_fs w1 (delete k1 (<[k2 := PdfFile marked]> (fs w1)))) in *.
  assert (Hfs2 : forall k, fs w2 !! k
                            = if decide (k = k1) then None
                              else if decide (k = k2) then Some (PdfFile marked)
                              else fs w !! k).
  { intros k. unfold w2. rewrite fs_with_fs.
    destruct (decide (k = k1)) as [->|Hk1']; [apply lookup_delete_eq|].
    rewrite lookup_delete_ne by done.
    destruct (decide (k = k2)) as [->|Hk2']; [apply lookup_insert_eq|].
    rewrite lookup_insert_ne by done. by apply H1o. }
  assert (Htmp2 : forall y, fs w2 !! (Os.resolve "./tmp" ++ [y])
                            = fs w !! (Os.resolve "./tmp" ++ [y])).
  { intros y. rewrite Hfs2. by rewrite !decide_False by discriminate. }
  (* flattening *)
  assert (Hname2 : file_name_of p2 = stem +:+ "_blurred_watermarked").
  { by apply (file_name_of_stage "./sample_output" stem "_blurred_watermarked"). }
  destruct (pdf_to_image_to_pdf_run w2 p2 "./tmp" "./sample_output" "landscape"
              true true marked k2)
    as (w3 & Hrun3 & Hk3 & Hne32 & Hw3 & Hgone2 & Hother3 & _ & Hrng3 & Hclock3 & Hrendered3).
  { exact Hk2. }
  { rewrite Hfs2, decide_False, decide_True by done. done. }
  { unfold marked, blurred. cbn [pages]. rewrite !length_fmap.
    rewrite (Forall2_length _ _ _ Hall), pdf2image_render_length by done. exact Hn. }
  { reflexivity. }
  { by apply (glob_none_ext w w2 "./tmp" "*.png"). }
  { by apply (glob_none_ext w w2 "./tmp" "*.pdf"). }
  { exact Hfolders. }
  rewrite Hname2, app_assoc' in Hrun3, Hk3, Hne32, Hw3, Hother3.
  change ("_blurred_watermarked" +:+ "_im2pdf.pdf")
    with "_blurred_watermarked_im2pdf.pdf" in Hrun3, Hk3, Hne32, Hw3, Hother3.
  change (Os.resolve "./sample_output" ++ [stem +:+ "_blurred_watermarked_im2pdf.pdf"])
    with ["sample_output"; stem +:+ "_blurred_watermarked_im2pdf.pdf"] in *.
  set (p3 := Os.path_join "./sample_output" (stem +:+ "_blurred_watermarked_im2pdf.pdf")) in *.
  set (k3 := ["sample_output"; stem +:+ "_blurred_watermarked_im2pdf.pdf"]) in *.
  set (flat := Pdf (page_of "landscape" <$> pdf2image_render marked 100) ∅ None) in *.
  assert (H3o : forall k, k <> k3 -> k <> k2 -> fs w3 !! k = fs w2 !! k).
  { intros k Hk Hk'. apply Hother3; [done|done|]. intros [=]. }
  clear Hother3.
  (* sealing *)
  assert (Hname3 : file_name_of p3 = stem +:+ "_blurred_watermarked_im2pdf").
  { by apply (file_name_of_stage "./sample_output" stem "_blurred_watermarked_im2pdf"). }
  destruct (encrypt_and_add_metadata_world w3 p3 "./sample_output" "" "your_pass" true
              flat k3)
    as (k4' & sealed & Hk4 & Hne43 & Hpages & Hencrypted & _ & Hrun4).
  { apply pikepdf_open_ok; [|done]. by apply read_file_ok with k3. }
  { exact Hk3. }
  rewrite Hname3, app_assoc' in Hk4.
  change ("_blurred_watermarked_im2pdf" +:+ "_final.pdf")
    with "_blurred_watermarked_im2pdf_final.pdf" in Hk4.
  set (k4 := ["sample_output"; stem +:+ "_blurred_watermarked_im2pdf_final.pdf"]).
  assert (k4' = k4) as ->.
  { rewrite resolve_file_join in Hk4.
    - by injection Hk4 as <-.
    - by rewrite contains_app, Hstem.
    - apply (stage_name_not_skipped stem "lurred_watermarked_im2pdf_final.pdf" "b"). }
  set (w4 := World (delete k3 (<[k4 := PdfFile sealed]> (fs w3)))
                   (rng w3) (tick (tick (clock w3))) (rendered w3)) in *.
  assert (Hne : forall s t, s <> t -> ["sample_output"; stem +:+ s] <> ["sample_output"; stem +:+ t]).
  { intros s t Hst E. injection E as E. by apply String.app_inj in E. }
  assert (Hfs4 : forall k, fs w4 !! k
                            = if decide (k = k1) then None
                              else if decide (k = k2) then None
                              else if decide (k = k3) then None
                              else if decide (k = k4) then Some (PdfFile sealed)
                              else fs w !! k).
  { intros k. unfold w4. cbn [fs].
    destruct (decide (k = k1)) as [->|Hk1'].
    { rewrite lookup_delete_ne, lookup_insert_ne, H3o, Hfs2, decide_True; try done;
        apply Hne; discriminate. }
    destruct (decide (k = k2)) as [->|Hk2'].
    { rewrite lookup_delete_ne, lookup_insert_ne; [done| |]; apply Hne; discriminate. }
    destruct (decide (k = k3)) as [->|Hk3']; [apply lookup_delete_eq|].
    rewrite lookup_delete_ne by done.
    destruct (decide (k = k4)) as [->|Hk4']; [apply lookup_insert_eq|].
    rewrite lookup_insert_ne, H3o, Hfs2 by done. by rewrite !decide_False. }
  (* archiving *)
  destruct (move_processed_pdf_free w4 input_pdf "./processed" ["sample_input"; x]
              (PdfFile d) Hki) as [Hrun5 _].
  { rewrite Hfs4. by rewrite !decide_False by discriminate. }
  { fold stem. change (Os.resolve "./processed" ++ [stem +:+ ".pdf"])
      with ["processed"; stem +:+ ".pdf"].
    rewrite Hfs4. by rewrite !decide_False by discriminate. }
  fold stem in Hrun5.
  change (Os.resolve "./processed" ++ [stem +:+ ".pdf"])
    with ["processed"; stem +:+ ".pdf"] in Hrun5.
  set (ki := ["sample_input"; x]) in *. set (kp := ["processed"; stem +:+ ".pdf"]) in *.
  exists (with_fs w4 (<[kp := PdfFile d]> (delete ki (fs w4)))), imgs, sealed.
  split.
  { unfold main. cbv zeta.
    change (Os.path_join (Os.path_join "." "sample_input") "*.pdf")
      with "./sample_input/*.pdf".
    rewrite (bind_ok _ _ _ _ _ Hglob).
    change (sorted [input_pdf]) with [input_pdf]. cbn [for_each].
    change (Os.path_join "." "tmp") with "./tmp".
    change (Os.path_join "." "sample_output") with "./sample_output".
    change (Os.path_join "." "processed") with "./processed".
    change (Os.path_join (Os.path_join "." "watermarks") ("landscape" +:+ "_A4.pdf"))
      with "./watermarks/landscape_A4.pdf".
    erewrite bind_ok; [reflexivity|].
    rewrite (bind_ok _ _ _ _ _ Hrun1), (bind_ok _ _ _ _ _ Hrun2),
      (bind_ok _ _ _ _ _ Hrun3), (bind_ok _ _ _ _ _ Hrun4).
    exact Hrun5. }
  assert (Hfs5 : forall k,
            fs (with_fs w4 (<[kp := PdfFile d]> (delete ki (fs w4)))) !! k
            = if decide (k = kp) then Some (PdfFile d)
              else if decide (k = ki) then None else fs w4 !! k).
  { intros k. rewrite fs_with_fs.
    destruct (decide (k = kp)) as [->|Hkp]; [apply lookup_insert_eq|].
    rewrite lookup_insert_ne by done.
    destruct (decide (k = ki)) as [->|Hki']; [apply lookup_delete_eq|].
    by apply lookup_delete_ne. }
  assert (H12 : k1 <> k2) by (apply Hne; discriminate).
  assert (H13 : k1 <> k3) by (apply Hne; discriminate).
  assert (H14 : k1 <> k4) by (apply Hne; discriminate).
  assert (H23 : k2 <> k3) by (apply Hne; discriminate).
  assert (H24 : k2 <> k4) by (apply Hne; discriminate).
  assert (H34 : k3 <> k4) by (apply Hne; discriminate).
  split; [exact Hall|].
  split. { rewrite Hfs5, Hfs4. rewrite !decide_False by (done || discriminate).
           by rewrite decide_True. }
  split; [exact Hpages|]. split; [exact Hencrypted|].
  split. { rewrite Hfs5. by rewrite decide_True. }
  split. { rewrite Hfs5. rewrite decide_False by discriminate. by rewrite decide_True. }
  split. { rewrite Hfs5, Hfs4. rewrite !decide_False by discriminate. by rewrite decide_True. }
  split. { rewrite Hfs5, Hfs4. rewrite !decide_False by (done || discriminate).
           by rewrite decide_True. }
  split. { rewrite Hfs5, Hfs4. rewrite !decide_False by (done || discriminate).
           by rewrite decide_True. }
  split.
  { intros k Hk. rewrite !not_elem_of_cons in Hk.
    destruct Hk as (? & ? & ? & ? & ? & ? & _).
    rewrite Hfs5, Hfs4. by rewrite !decide_False by done. }
  split.
  { change (tick (tick (clock w3)) = tick (tick (clock w))).
    rewrite Hclock3. change (clock w2) with (clock w1). by rewrite Hclock1. }
  change (rendered w3 = rendered w ++ [(input_pdf, 100%nat); (p2, 100%nat)]).
  rewrite Hrendered3. change (rendered w2) with (rendered w1). rewrite Hrendered1.
  by rewrite <- app_assoc.
Qed.
End Script.

Lemma main_on_a_single_document_witness :
  Str.contains Os.sep "lecture1.pdf" = false /\
  ~ Os.skipped "lecture1.pdf" /\
  @Os.glob Sample.libraries "./sample_input/*.pdf" Demo.start
    = (Ok ["./sample_input/lecture1.pdf"], Demo.start) /\
  fs Demo.start !! ["sample_input"; "lecture1.pdf"] = Some (PdfFile Demo.lecture) /\
  encrypted Demo.lecture = None /\
  fs Demo.start !! ["watermarks"; "landscape_A4.pdf"] = Some (PdfFile Demo.stamp) /\
  encrypted Demo.stamp = None /\
  pages Demo.stamp !! 0%nat = Some (Page A4 [Mark 99]) /\
  (length (pages Demo.lecture) <= 10)%nat /\
  @Os.glob Sample.libraries "./tmp/*.png" Demo.start = (Ok [], Demo.start) /\
  @Os.glob Sample.libraries "./tmp/*.pdf" Demo.start = (Ok [], Demo.start) /\
  fs Demo.start !! ["processed"; "lecture1.pdf"] = None /\
  exists w' sealed,
    @main Sample.libraries Demo.start = (Ok tt, w') /\
    fs w' !! ["sample_output"; "lecture1_blurred_watermarked_im2pdf_final.pdf"]
    = Some (PdfFile sealed) /\
    length (pages sealed) = 2%nat /\
    (exists e, encrypted sealed = Some e /\ accessibility (allow e) = true) /\
    fs w' !! ["processed"; "lecture1.pdf"] = Some (PdfFile Demo.lecture) /\
    fs w' !! ["sample_input"; "lecture1.pdf"] = None /\
    rendered w'
    = [("./sample_input/lecture1.pdf", 100%nat);
       ("./sample_output/lecture1_blurred_watermarked.pdf", 100%nat)].
Proof.
  assert (H1 : Str.contains Os.sep "lecture1.pdf" = false) by reflexivity.
  assert (H2 : ~ Os.skipped "lecture1.pdf") by (intros [E|E]; discriminate E).
  assert (H4 : fs Demo.start !! ["sample_input"; "lecture1.pdf"]
               = Some (PdfFile Demo.lecture)) by apply lookup_insert_eq.
  assert (H5 : fs Demo.start !! ["watermarks"; "landscape_A4.pdf"]
               = Some (PdfFile Demo.stamp)).
  { unfold Demo.start, Demo.files, fs. rewrite lookup_insert_ne by discriminate.
    apply lookup_insert_eq. }
  assert (H7 : (length (pages Demo.lecture) <= 10)%nat) by (simpl; lia).
  assert (H10 : fs Demo.start !! ["processed"; "lecture1.pdf"] = None).
  { unfold Demo.start, Demo.files, fs. rewrite !lookup_insert_ne by discriminate.
    apply lookup_empty. }
  split; [exact H1|]. split; [exact H2|]. split; [reflexivity|].
  split; [exact H4|]. split; [reflexivity|]. split; [exact H5|]. split; [reflexivity|].
  split; [reflexivity|]. split; [exact H7|].
  split; [reflexivity|]. split; [reflexivity|]. split; [exact H10|].
  destruct (@main_on_a_single_document Sample.libraries Demo.start "lecture1.pdf"
              Demo.lecture Demo.stamp (Page A4 [Mark 99])
              H1 H2 eq_refl H4 eq_refl H5 eq_refl eq_refl H7 eq_refl eq_refl H10)
    as (w' & imgs & sealed & Hrun & Hall & Hfinal & Hpages & Henc & Harchived & Hmoved
        & _ & _ & _ & _ & _ & Hrendered).
  exists w', sealed. split; [exact Hrun|]. split; [exact Hfinal|].
  split.
  { rewrite Hpages, length_fmap.
    rewrite (@pdf2image_render_length Sample.libraries) by discriminate. cbn [pages].
    rewrite !length_fmap. rewrite (Forall2_length _ _ _ Hall).
    apply (@pdf2image_render_length Sample.libraries). discriminate. }
  split; [eexists; split; [exact Henc|reflexivity]|].
  split; [exact Harchived|]. split; [exact Hmoved|]. exact Hrendered.
Defined.


Section ScriptErrors.
Context {L : Libraries}.


End ScriptErrors.


(** ** Output names *)

Section Names.

Context {L : Libraries}.

(** The blur stage on two files of one stem, one after the other. *)
Lemma blur_pages_of_pdf_twice (w : world)
    (p1 p2 stem orientation tmp_folder output_folder : string)
    (dpi : nat) (kernel : nat * nat) (sigma : Q) (d1 d2 : pdf) :
  file_name_of p1 = stem -> file_name_of p2 = stem ->
  Os.read_file p1 w = (Ok (PdfFile d1), w) ->
  Os.read_file p2 w = (Ok (PdfFile d2), w) ->
  dpi <> 0%nat ->
  (0 <= sigma)%Q -> Nat.odd kernel.1 = true -> Nat.odd kernel.2 = true ->
  (length (pages d1) <= 10)%nat -> (length (pages d2) <= 10)%nat ->
  Os.has_magic tmp_folder = false ->
  Os.glob (Os.path_join tmp_folder "*.png") w = (Ok [], w) ->
  Os.glob (Os.path_join tmp_folder "*.pdf") w = (Ok [], w) ->
  Os.resolve output_folder <> Os.resolve tmp_folder ->
  let out := Os.path_join output_folder (stem +:+ "_blurred.pdf") in
  exists w1 w2 imgs1 imgs2,
    blur_pages_of_pdf p1 orientation tmp_folder output_folder dpi kernel sigma true w
      = (Ok out, w1) /\
    blur_pages_of_pdf p2 orientation tmp_folder output_folder dpi kernel sigma true w1
      = (Ok out, w2) /\
    Forall2 (rasterized true kernel sigma) imgs1 (pdf2image_render d1 dpi) /\
    Forall2 (rasterized true kernel sigma) imgs2 (pdf2image_render d2 dpi) /\
    Os.read_file out w1 = (Ok (PdfFile (Pdf (page_of orientation <$> imgs1) ∅ None)), w1) /\
    Os.read_file out w2 = (Ok (PdfFile (Pdf (page_of orientation <$> imgs2) ∅ None)), w2).
Proof.
  intros Hn1 Hn2 Hr1 Hr2 Hdpi Hs Hk1 Hk2 Hl1 Hl2 Hmagic Hpng Hpdf Hfolders out.
  destruct (read_file_inv _ _ _ _ Hr1) as (_ & k1 & Hk1' & Hf1).
  destruct (read_file_inv _ _ _ _ Hr2) as (_ & k2 & Hk2' & Hf2).
  destruct (blur_pages_of_pdf_run w p1 orientation tmp_folder output_folder dpi kernel
              sigma true d1 k1 Hk1' Hf1 Hdpi Hs Hk1 Hk2 Hl1 Hmagic Hpng Hpdf Hfolders)
    as (w1 & imgs1 & Hrun1 & Hko & _ & Hall1 & Hw1 & Hother1 & _ & _).
  destruct (stage_output_key p2 output_folder tmp_folder "_blurred.pdf" k2)
    as (_ & Hne2 & Hout2); [done|by eauto|done|done|].
  rewrite Hn1 in Hrun1, Hko, Hw1, Hother1. rewrite Hn2 in Hne2, Hout2.
  fold out in Hrun1, Hko.
  set (ko := Os.resolve output_folder ++ [stem +:+ "_blurred.pdf"]) in *.
  assert (Hsame : forall k, k <> ko -> fs w1 !! k = fs w !! k).
  { intros k Hk. apply Hother1; [done|]. intros [=]. }
  destruct (blur_pages_of_pdf_run w1 p2 orientation tmp_folder output_folder dpi kernel
              sigma true d2 k2)
    as (w2 & imgs2 & Hrun2 & _ & _ & Hall2 & Hw2 & _); [done| |done..| | |done|].
  { rewrite Hsame; [done|by apply not_eq_sym]. }
  { apply (glob_none_ext w w1 tmp_folder "*.png"); [by apply plain_join|done|done|].
    intros x. apply Hsame, not_eq_sym, Hout2. }
  { apply (glob_none_ext w w1 tmp_folder "*.pdf"); [by apply plain_join|done|done|].
    intros x. apply Hsame, not_eq_sym, Hout2. }
  rewrite Hn2 in Hrun2, Hw2. fold out in Hrun2. fold ko in Hw2.
  exists w1, w2, imgs1, imgs2. split; [exact Hrun1|]. split; [exact Hrun2|].
  split; [exact Hall1|]. split; [exact Hall2|].
  split; by apply read_file_ok with ko.
Qed.

(** The compositor on two files of one stem, one after the other. *)
Lemma add_watermark_twice (w : world) (p1 p2 stem watermark output_folder : string)
    (d1 d2 stamp : pdf) (watermark_page : page) :
  file_name_of p1 = stem -> file_name_of p2 = stem ->
  PdfFileReader watermark w = (Ok stamp, w) ->
  pages stamp !! 0%nat = Some watermark_page ->
  PdfFileReader p1 w = (Ok d1, w) ->
  PdfFileReader p2 w = (Ok d2, w) ->
  let out := Os.path_join output_folder (stem +:+ "_watermarked.pdf") in
  Os.resolve_file watermark <> Os.resolve_file out ->
  let marked (d : pdf) :=
    Pdf ((fun p => Page (mediabox p) (contents p ++ contents watermark_page)) <$> pages d)
        ∅ None in
  exists w1 w2,
    add_watermark p1 watermark output_folder false w = (Ok out, w1) /\
    add_watermark p2 watermark output_folder false w1 = (Ok out, w2) /\
    Os.read_file out w1 = (Ok (PdfFile (marked d1)), w1) /\
    Os.read_file out w2 = (Ok (PdfFile (marked d2)), w2).
Proof.
  intros Hn1 Hn2 Hstamp Hpage Hd1 Hd2 out Hwm marked.
  destruct (PdfFileReader_inv _ _ _ _ Hd1) as (_ & Hr1 & He1).
  destruct (PdfFileReader_inv _ _ _ _ Hd2) as (_ & Hr2 & He2).
  destruct (PdfFileReader_inv _ _ _ _ Hstamp) as (_ & Hrs & Hes).
  destruct (read_file_inv _ _ _ _ Hr1) as (_ & k1 & Hk1 & Hf1).
  destruct (read_file_inv _ _ _ _ Hr2) as (_ & k2 & Hk2 & Hf2).
  destruct (read_file_inv _ _ _ _ Hrs) as (_ & kw & Hkw & Hfs).
  destruct (add_watermark_run w p1 watermark output_folder false d1 stamp watermark_page
              k1 Hstamp Hpage Hd1 Hk1) as (ko & Hko & _ & Hrun1).
  rewrite Hn1 in Hko, Hrun1. fold out in Hko, Hrun1. fold (marked d1) in Hrun1.
  set (w1 := with_fs w (<[ko := PdfFile (marked d1)]> (fs w))) in *.
  destruct (stage_output_resolve p2 output_folder "_watermarked.pdf" k2)
    as (ko' & Hko' & Hne2); [done|by eauto|done|].
  rewrite Hn2 in Hko'. fold out in Hko'. rewrite Hko in Hko'. injection Hko' as <-.
  assert (Hnew : kw <> ko) by (intros ->; apply Hwm; congruence).
  destruct (add_watermark_run w1 p2 watermark output_folder false d2 stamp watermark_page k2)
    as (ko' & Hko' & _ & Hrun2).
  { apply PdfFileReader_ok; [|done]. apply read_file_ok with kw; [done|].
    unfold w1. by rewrite fs_with_fs, lookup_insert_ne by (by apply not_eq_sym). }
  { done. }
  { apply PdfFileReader_ok; [|done]. apply read_file_ok with k2; [done|].
    unfold w1. by rewrite fs_with_fs, lookup_insert_ne. }
  { done. }
  rewrite Hn2 in Hko', Hrun2. fold out in Hko', Hrun2. fold (marked d2) in Hrun2.
  rewrite Hko in Hko'. injection Hko' as <-.
  exists w1. eexists. split; [exact Hrun1|]. split; [exact Hrun2|].
  split; apply read_file_ok with ko; try done; unfold w1; rewrite fs_with_fs;
    apply lookup_insert_eq.
Qed.

(** The flattening stage on two files of one stem, one after the other. *)
Lemma pdf_to_image_to_pdf_twice (w : world)
    (p1 p2 stem tmp_folder output_folder orientation : string) (d1 d2 : pdf) :
  file_name_of p1 = stem -> file_name_of p2 = stem ->
  Os.read_file p1 w = (Ok (PdfFile d1), w) ->
  Os.read_file p2 w = (Ok (PdfFile d2), w) ->
  (length (pages d1) <= 10)%nat -> (length (pages d2) <= 10)%nat ->
  Os.has_magic tmp_folder = false ->
  Os.glob (Os.path_join tmp_folder "*.png") w = (Ok [], w) ->
  Os.glob (Os.path_join tmp_folder "*.pdf") w = (Ok [], w) ->
  Os.resolve output_folder <> Os.resolve tmp_folder ->
  let out := Os.path_join output_folder (stem +:+ "_im2pdf.pdf") in
  let flat (d : pdf) := Pdf (page_of orientation <$> pdf2image_render d 100) ∅ None in
  exists w1 w2,
    pdf_to_image_to_pdf p1 tmp_folder output_folder orientation false true w
      = (Ok out, w1) /\
    pdf_to_image_to_pdf p2 tmp_folder output_folder orientation false true w1
      = (Ok out, w2) /\
    Os.read_file out w1 = (Ok (PdfFile (flat d1)), w1) /\
    Os.read_file out w2 = (Ok (PdfFile (flat d2)), w2).
Proof.
  intros Hn1 Hn2 Hr1 Hr2 Hl1 Hl2 Hmagic Hpng Hpdf Hfolders out flat.
  destruct (read_file_inv _ _ _ _ Hr1) as (_ & k1 & Hk1' & Hf1).
  destruct (read_file_inv _ _ _ _ Hr2) as (_ & k2 & Hk2' & Hf2).
  destruct (pdf_to_image_to_pdf_run w p1 tmp_folder output_folder orientation false true
              d1 k1 Hk1' Hf1 Hl1 Hmagic Hpng Hpdf Hfolders)
    as (w1 & Hrun1 & Hko & _ & Hw1 & Hin1 & Hother1 & _).
  destruct (stage_output_key p2 output_folder tmp_folder "_im2pdf.pdf" k2)
    as (_ & Hne2 & Hout2); [done|by eauto|done|done|].
  rewrite Hn1 in Hrun1, Hko, Hw1, Hother1. rewrite Hn2 in Hne2, Hout2.
  fold out in Hrun1, Hko. fold (flat d1) in Hw1.
  set (ko := Os.resolve output_folder ++ [stem +:+ "_im2pdf.pdf"]) in *.
  assert (Hsame : forall k, k <> ko -> fs w1 !! k = fs w !! k).
  { intros k Hk. destruct (decide (k = k1)) as [->|Hk1]; [by rewrite Hin1|].
    apply Hother1; [done|done|]. intros [=]. }
  destruct (pdf_to_image_to_pdf_run w1 p2 tmp_folder output_folder orientation false true
              d2 k2)
    as (w2 & Hrun2 & _ & _ & Hw2 & _); [done| |done|done| | |done|].
  { rewrite Hsame; [done|by apply not_eq_sym]. }
  { apply (glob_none_ext w w1 tmp_folder "*.png"); [by apply plain_join|done|done|].
    intros x. apply Hsame, not_eq_sym, Hout2. }
  { apply (glob_none_ext w w1 tmp_folder "*.pdf"); [by apply plain_join|done|done|].
    intros x. apply Hsame, not_eq_sym, Hout2. }
  rewrite Hn2 in Hrun2, Hw2. fold out in Hrun2. fold ko in Hw2. fold (flat d2) in Hw2.
  exists w1, w2. split; [exact Hrun1|]. split; [exact Hrun2|].
  split; by apply read_file_ok with ko.
Qed.

(** The sealer on two files of one stem, one after the other. *)
Lemma encrypt_and_add_metadata_twice (w : world)
    (p1 p2 stem output_folder usr_pass owner_pass : string) (d1 d2 : pdf) :
  file_name_of p1 = stem -> file_name_of p2 = stem ->
  pikepdf_open p1 w = (Ok d1, w) ->
  pikepdf_open p2 w = (Ok d2, w) ->
  let out := Os.path_join output_folder (stem +:+ "_final.pdf") in
  exists w1 w2 sealed1 sealed2,
    encrypt_and_add_metadata p1 output_folder usr_pass owner_pass false w = (Ok tt, w1) /\
    encrypt_and_add_metadata p2 output_folder usr_pass owner_pass false w1 = (Ok tt, w2) /\
    Os.read_file out w1 = (Ok (PdfFile sealed1), w1) /\ pages sealed1 = pages d1 /\
    Os.read_file out w2 = (Ok (PdfFile sealed2), w2) /\ pages sealed2 = pages d2.
Proof.
  intros Hn1 Hn2 Ho1 Ho2 out.
  apply pikepdf_open_inv in Ho1 as [Hread1 Hpass1].
  apply pikepdf_open_inv in Ho2 as [Hread2 Hpass2].
  destruct (encrypt_and_add_metadata_run w p1 output_folder usr_pass owner_pass
              false d1 Hread1 Hpass1)
    as (w1 & sealed1 & ko & Hrun1 & Hout1 & [Hpages1 _] & Hko & Hfs1).
  specialize (Hfs1 eq_refl).
  destruct (read_file_inv _ _ _ _ Hread2) as (_ & k2 & Hk2 & Hd2).
  assert (Hne : ko <> k2).
  { destruct (stage_output_resolve p2 output_folder "_final.pdf" k2)
      as (ko' & Hko' & Hne); [done|by eauto|done|].
    rewrite Hn2 in Hko'. rewrite Hn1 in Hko. congruence. }
  assert (Hread2' : Os.read_file p2 w1 = (Ok (PdfFile d2), w1)).
  { apply read_file_ok with k2; [done|]. by rewrite Hfs1, lookup_insert_ne. }
  destruct (encrypt_and_add_metadata_run w1 p2 output_folder usr_pass owner_pass
              false d2 Hread2' Hpass2)
    as (w2 & sealed2 & ko2 & Hrun2 & Hout2 & [Hpages2 _] & _).
  rewrite Hn1 in Hout1. rewrite Hn2 in Hout2.
  exists w1, w2, sealed1, sealed2. done.
Qed.

End Names.

(** C8. Two files of one folder whose names agree up to their first dot
    ([s.r1] and [s.r2]) have the same file name for every stage, [s], so every
    stage gives both the same output path, and the archive target is the same
    path too.  When a stage is run on the first file and then on the second,
    keeping the originals and removing the artifacts, both runs return that
    one path, and the document found there after the second run is the one
    made from the second file, in place of the one made from the first: for
    the blur stage the pages filled by the blurred images of the second
    file's pages, for the compositor the second file's pages with the
    watermark drawn over them, for the flattening stage the pages filled by
    the images of the second file's pages at 100 dpi, and for the sealer a
    document with the second file's pages. *)
Theorem outputs_of_names_equal_before_first_dot `{Libraries} (folder s r1 r2 : string) :
  Str.contains "." s = false ->
  Str.contains Os.sep s = false ->
  Str.contains Os.sep r1 = false ->
  Str.contains Os.sep r2 = false ->
  let p1 := Os.path_join folder (s +:+ "." +:+ r1) in
  let p2 := Os.path_join folder (s +:+ "." +:+ r2) in
  (file_name_of p1 = s /\ file_name_of p2 = s) /\
  (forall w orientation tmp_folder output_folder dpi kernel sigma d1 d2,
     Os.read_file p1 w = (Ok (PdfFile d1), w) ->
     Os.read_file p2 w = (Ok (PdfFile d2), w) ->
     encrypted d1 = None -> encrypted d2 = None ->
     dpi <> 0%nat ->
     (0 <= sigma)%Q -> Nat.odd kernel.1 = true -> Nat.odd kernel.2 = true ->
     (length (pages d1) <= 10)%nat -> (length (pages d2) <= 10)%nat ->
     Os.has_magic tmp_folder = false ->
     Os.glob (Os.path_join tmp_folder "*.png") w = (Ok [], w) ->
     Os.glob (Os.path_join tmp_folder "*.pdf") w = (Ok [], w) ->
     Os.resolve output_folder <> Os.resolve tmp_folder ->
     let out := Os.path_join output_folder (s +:+ "_blurred.pdf") in
     exists w1 w2 imgs1 imgs2,
       blur_pages_of_pdf p1 orientation tmp_folder output_folder dpi kernel sigma true w
         = (Ok out, w1) /\
       blur_pages_of_pdf p2 orientation tmp_folder output_folder dpi kernel sigma true w1
         = (Ok out, w2) /\
       Forall2 (rasterized true kernel sigma) imgs1 (pdf2image_render d1 dpi) /\
       Forall2 (rasterized true kernel sigma) imgs2 (pdf2image_render d2 dpi) /\
       Os.read_file out w1
         = (Ok (PdfFile (Pdf (page_of orientation <$> imgs1) ∅ None)), w1) /\
       Os.read_file out w2
         = (Ok (PdfFile (Pdf (page_of orientation <$> imgs2) ∅ None)), w2)) /\
  (forall w watermark output_folder d1 d2 stamp watermark_page,
     PdfFileReader watermark w = (Ok stamp, w) ->
     pages stamp !! 0%nat = Some watermark_page ->
     PdfFileReader p1 w = (Ok d1, w) ->
     PdfFileReader p2 w = (Ok d2, w) ->
     let out := Os.path_join output_folder (s +:+ "_watermarked.pdf") in
     Os.resolve_file watermark <> Os.resolve_file out ->
     let marked (d : pdf) :=
       Pdf ((fun p => Page (mediabox p) (contents p ++ contents watermark_page))
              <$> pages d) ∅ None in
     exists w1 w2,
       add_watermark p1 watermark output_folder false w = (Ok out, w1) /\
       add_watermark p2 watermark output_folder false w1 = (Ok out, w2) /\
       Os.read_file out w1 = (Ok (PdfFile (marked d1)), w1) /\
       Os.read_file out w2 = (Ok (PdfFile (marked d2)), w2)) /\
  (forall w tmp_folder output_folder orientation d1 d2,
     Os.read_file p1 w = (Ok (PdfFile d1), w) ->
     Os.read_file p2 w = (Ok (PdfFile d2), w) ->
     encrypted d1 = None -> encrypted d2 = None ->
     (length (pages d1) <= 10)%nat -> (length (pages d2) <= 10)%nat ->
     Os.has_magic tmp_folder = false ->
     Os.glob (Os.path_join tmp_folder "*.png") w = (Ok [], w) ->
     Os.glob (Os.path_join tmp_folder "*.pdf") w = (Ok [], w) ->
     Os.resolve output_folder <> Os.resolve tmp_folder ->
     let out := Os.path_join output_folder (s +:+ "_im2pdf.pdf") in
     let flat (d : pdf) := Pdf (page_of orientation <$> pdf2image_render d 100) ∅ None in
     exists w1 w2,
       pdf_to_image_to_pdf p1 tmp_folder output_folder orientation false true w
         = (Ok out, w1) /\
       pdf_to_image_to_pdf p2 tmp_folder output_folder orientation false true w1
         = (Ok out, w2) /\
       Os.read_file out w1 = (Ok (PdfFile (flat d1)), w1) /\
       Os.read_file out w2 = (Ok (PdfFile (flat d2)), w2)) /\
  (forall w output_folder usr_pass owner_pass d1 d2,
     pikepdf_open p1 w = (Ok d1, w) ->
     pikepdf_open p2 w = (Ok d2, w) ->
     let out := Os.path_join output_folder (s +:+ "_final.pdf") in
     exists w1 w2 sealed1 sealed2,
       encrypt_and_add_metadata p1 output_folder usr_pass owner_pass false w = (Ok tt, w1) /\
       encrypt_and_add_metadata p2 output_folder usr_pass owner_pass false w1 = (Ok tt, w2) /\
       Os.read_file out w1 = (Ok (PdfFile sealed1), w1) /\ pages sealed1 = pages d1 /\
       Os.read_file out w2 = (Ok (PdfFile sealed2), w2) /\ pages sealed2 = pages d2) /\
  (forall processed_folder,
     Os.path_join processed_folder (file_name_of p1 +:+ ".pdf")
     = Os.path_join processed_folder (file_name_of p2 +:+ ".pdf")).
Proof.
  intros Hdot Hs Hr1 Hr2 p1 p2.
  assert (H1 : file_name_of p1 = s) by (by apply file_name_of_dotted).
  assert (H2 : file_name_of p2 = s) by (by apply file_name_of_dotted).
  split; [done|]. split; [|split; [|split; [|split]]].
  - intros w orientation tmp_folder output_folder dpi kernel sigma d1 d2 Hd1 Hd2 _ _.
    by apply blur_pages_of_pdf_twice.
  - intros w watermark output_folder d1 d2 stamp watermark_page.
    by apply add_watermark_twice.
  - intros w tmp_folder output_folder orientation d1 d2 Hd1 Hd2 _ _.
    by apply pdf_to_image_to_pdf_twice.
  - intros w output_folder usr_pass owner_pass d1 d2.
    by apply encrypt_and_add_metadata_twice.
  - intros processed_folder. by rewrite H1, H2.
Qed.

Module Versions.

Definition first : pdf := Pdf [Page A4 [Mark 1]] ∅ None.

Definition second : pdf := Pdf [Page A4 [Mark 2]] ∅ None.

Definition start : world :=
  World (<[ ["sample_input"; "a.v1.pdf"] := PdfFile first ]>
           (<[ ["sample_input"; "a.v2.pdf"] := PdfFile second ]>
              (<[ ["watermarks"; "landscape_A4.pdf"] := PdfFile Demo.stamp ]> ∅))) 5 0 [].

End Versions.

Lemma outputs_of_names_equal_before_first_dot_witness :
  Str.contains "." "a" = false /\
  Str.contains Os.sep "a" = false /\
  Str.contains Os.sep "v1.pdf" = false /\
  Str.contains Os.sep "v2.pdf" = false /\
  file_name_of "./sample_input/a.v1.pdf" = "a" /\
  file_name_of "./sample_input/a.v2.pdf" = "a" /\
  exists w1 w2,
    add_watermark "./sample_input/a.v1.pdf" "./watermarks/landscape_A4.pdf"
                  "./sample_output" false Versions.start
      = (Ok "./sample_output/a_watermarked.pdf", w1) /\
    add_watermark "./sample_input/a.v2.pdf" "./watermarks/landscape_A4.pdf"
                  "./sample_output" false w1
      = (Ok "./sample_output/a_watermarked.pdf", w2) /\
    Os.read_file "./sample_output/a_watermarked.pdf" w1
      = (Ok (PdfFile (Pdf [Page A4 [Mark 1; Mark 99]] ∅ None)), w1) /\
    Os.read_file "./sample_output/a_watermarked.pdf" w2
      = (Ok (PdfFile (Pdf [Page A4 [Mark 2; Mark 99]] ∅ None)), w2).
Proof.
  do 4 (split; [reflexivity|]).
  destruct (@outputs_of_names_equal_before_first_dot Sample.libraries
              "./sample_input" "a" "v1.pdf" "v2.pdf" eq_refl eq_refl eq_refl eq_refl)
    as ([Hn1 Hn2] & _ & Hmark & _).
  split; [exact Hn1|]. split; [exact Hn2|].
  apply (Hmark Versions.start "./watermarks/landscape_A4.pdf" "./sample_output"
               Versions.first Versions.second Demo.stamp (Page A4 [Mark 99]));
    [reflexivity|reflexivity|reflexivity|reflexivity|discriminate].
Defined.
